(** * mysql-mcp-server: the dispatcher and the timeout-bounded executor

    A shallow embedding of the server script, in its version with the
    connection pool and [executeWithTimeout]; line numbers are those of
    that version.  The file follows the script top-down: JavaScript
    values and the string operations the code uses, the timeout of
    [loadDbConfig], the statement rewriting inside [executeWithTimeout],
    [executeWithTimeout] itself as an event-driven state machine (one
    state per [await]), [handleRequest], and the line handler of [main].
    [loadDbConfig] as a whole, [initConnection] with the start of
    [main], the [close] handler, and the start of the older script
    ([src/mysql-mcp-server.js]) follow in modules of their own.

    Conventions.
    - A JavaScript string is a Rocq [string]: the bytes of its UTF-8 text.
      White space is that of the language, in its UTF-8 form; case
      mapping is that of the ASCII letters, which is all the test for
      the keyword can see.
    - A JavaScript number is a [Z] (identifiers, codes, milliseconds);
      fractions and values beyond the exact integer range of a double are
      outside the model.
    - [undefined] is [None] of an [option json].
    - [JSON.parse], [JSON.stringify] and the mysql2 pool are not code of
      the repository: the first two are the fields of the class [Runtime],
      the pool is the environment of the state machine, which answers
      every [await] with a value or an error, in any order the event
      loop allows. *)

From Stdlib Require Import String Ascii ZArith List Bool Lia DecimalString
  DecimalPos.
Import ListNotations.
Open Scope string_scope.
Open Scope Z_scope.
Set Warnings "-register-all".

(* ================================================================== *)
(** ** JavaScript values *)

Module JS.

Inductive json : Type :=
| JNull
| JBool (b : bool)
| JNum (n : Z)
| JStr (s : string)
| JArr (items : list json)
| JObj (fields : list (string * json)).

(** A thrown value.  Every throw of the program is an [Error] object (the
    two [new Error(...)] of the source, the errors mysql2 rejects with) or
    a [TypeError] of the engine; the handlers only read [.message]. *)
Inductive exn : Type :=
| Error (msg : string)
| TypeError (msg : string).

Definition message (e : exn) : string :=
  match e with Error m => m | TypeError m => m end.

(** How an awaited operation settles. *)
Inductive completion (A : Type) : Type :=
| Return (a : A)
| Throw (e : exn).
Arguments Return {A} a.
Arguments Throw {A} e.

(** [o.k] on an object built by [JSON.parse]: the last binding of a
    repeated key wins.  Primitives and arrays have none of the properties
    the program reads ([id], [method], [params], [name], [arguments],
    [sql], [table], [Name], [Comment]). *)
Fixpoint assoc_last (k : string) (fields : list (string * json)) : option json :=
  match fields with
  | [] => None
  | (k', v) :: rest =>
      match assoc_last k rest with
      | Some w => Some w
      | None => if String.eqb k k' then Some v else None
      end
  end.

Definition getProp (v : json) (k : string) : option json :=
  match v with
  | JObj fields => assoc_last k fields
  | _ => None
  end.

(** [v === undefined || v === null] *)
Definition nullish (v : option json) : bool :=
  match v with
  | None | Some JNull => true
  | _ => false
  end.

(** [v === 'lit'] *)
Definition strictEqStr (v : option json) (lit : string) : bool :=
  match v with
  | Some (JStr s) => String.eqb s lit
  | _ => false
  end.

(** Truthiness, for [row.Comment || '']. *)
Definition truthy (v : option json) : bool :=
  match v with
  | None | Some JNull => false
  | Some (JBool b) => b
  | Some (JNum n) => negb (n =? 0)
  | Some (JStr s) => negb (String.eqb s "")
  | Some (JArr _) | Some (JObj _) => true
  end.

(** The decimal text of an integer, which is the text of the number in
    the range in which a number is exact (up to 2^53 - 1 in absolute
    value).  Beyond it the code holds a rounded value, and prints it in
    exponent form from 10^21 on: a statement that reads the digits of a
    number carries the bound. *)
Definition string_of_Z (n : Z) : string :=
  NilZero.string_of_int (Z.to_int n).

(** String conversion of a template literal, [`${v}`]. *)
Fixpoint toStr (v : json) : string :=
  match v with
  | JNull => "null"
  | JBool true => "true"
  | JBool false => "false"
  | JNum n => string_of_Z n
  | JStr s => s
  | JArr items =>
      (fix join (l : list json) : string :=
         match l with
         | [] => ""
         | [x] => match x with JNull => "" | _ => toStr x end
         | x :: rest =>
             (match x with JNull => "" | _ => toStr x end) ++ "," ++ join rest
         end) items
  | JObj _ => "[object Object]"
  end.

Definition toStrU (v : option json) : string :=
  match v with
  | None => "undefined"
  | Some w => toStr w
  end.

(** Whether the string conversion of [v] goes through.  An object made
    by [JSON.parse] that has a property [toString] of its own hides
    [Object.prototype.toString] behind a value that cannot be called,
    and neither its [valueOf] nor the inherited one yields a primitive:
    the conversion throws a [TypeError].  So does the conversion of an
    array with such an element, at any depth, since [join] converts the
    elements.  [toStr] is the result where the conversion goes
    through. *)
Fixpoint stringable (v : json) : bool :=
  match v with
  | JObj fields =>
      negb (existsb (fun field => String.eqb (fst field) "toString") fields)
  | JArr items =>
      (fix all (l : list json) : bool :=
         match l with
         | [] => true
         | x :: rest => stringable x && all rest
         end) items
  | _ => true
  end.

Definition stringableU (v : option json) : bool :=
  match v with
  | None => true
  | Some w => stringable w
  end.

(** The message of the [TypeError] of a conversion that fails. *)
Definition notPrimitive : string := "Cannot convert object to primitive value".

(** *** String operations *)

Definition isLower (c : ascii) : bool :=
  let n := nat_of_ascii c in (97 <=? n)%nat && (n <=? 122)%nat.

Definition upper_char (c : ascii) : ascii :=
  if isLower c then ascii_of_nat (nat_of_ascii c - 32) else c.

(** [s.toUpperCase()] *)
Fixpoint toUpperCase (s : string) : string :=
  match s with
  | EmptyString => EmptyString
  | String c s' => String (upper_char c) (toUpperCase s')
  end.

(** The white space [trim] removes (WhiteSpace and LineTerminator of the
    language), by the bytes of its UTF-8 form:
    - one byte: TAB, LF, VT, FF, CR, SPACE;
    - two bytes: U+00A0;
    - three bytes: U+1680, U+2000 to U+200A, U+2028, U+2029, U+202F,
      U+205F, U+3000, U+FEFF. *)
Definition white1 (a : nat) : bool :=
  ((9 <=? a)%nat && (a <=? 13)%nat) || (a =? 32)%nat.

Definition white2 (a b : nat) : bool := (a =? 194)%nat && (b =? 160)%nat.

Definition white3 (a b c : nat) : bool :=
  ((a =? 225)%nat && (b =? 154)%nat && (c =? 128)%nat)
  || ((a =? 226)%nat && (b =? 128)%nat
      && (((128 <=? c)%nat && (c <=? 138)%nat)
          || (c =? 168)%nat || (c =? 169)%nat || (c =? 175)%nat))
  || ((a =? 226)%nat && (b =? 129)%nat && (c =? 159)%nat)
  || ((a =? 227)%nat && (b =? 128)%nat && (c =? 128)%nat)
  || ((a =? 239)%nat && (b =? 187)%nat && (c =? 191)%nat).

(** The number of bytes of the white space character [s] starts with;
    0 when it starts with none. *)
Definition whiteLen (s : string) : nat :=
  match s with
  | String a r1 =>
      if white1 (nat_of_ascii a) then 1%nat
      else match r1 with
           | String b r2 =>
               if white2 (nat_of_ascii a) (nat_of_ascii b) then 2%nat
               else match r2 with
                    | String c _ =>
                        if white3 (nat_of_ascii a) (nat_of_ascii b)
                                  (nat_of_ascii c)
                        then 3%nat else 0%nat
                    | EmptyString => 0%nat
                    end
           | EmptyString => 0%nat
           end
  | EmptyString => 0%nat
  end.

Fixpoint trimStart (s : string) : string :=
  match s with
  | EmptyString => EmptyString
  | String _ r1 =>
      match whiteLen s, r1 with
      | 1%nat, _ => trimStart r1
      | 2%nat, String _ r2 => trimStart r2
      | 3%nat, String _ (String _ r3) => trimStart r3
      | _, _ => s
      end
  end.

(** [s] is white space from end to end. *)
Fixpoint all_white (s : string) : bool :=
  match s with
  | EmptyString => true
  | String _ r1 =>
      match whiteLen s, r1 with
      | 1%nat, _ => all_white r1
      | 2%nat, String _ r2 => all_white r2
      | 3%nat, String _ (String _ r3) => all_white r3
      | _, _ => false
      end
  end.

Fixpoint trimEnd (s : string) : string :=
  match s with
  | EmptyString => EmptyString
  | String c r => if all_white s then EmptyString else String c (trimEnd r)
  end.

(** [s.trim()] *)
Definition trim (s : string) : string := trimEnd (trimStart s).

(** [s.startsWith(p)] *)
Definition startsWith (s p : string) : bool := String.prefix p s.

(** The anchored, case-insensitive match of a literal pattern, as
    [/^SELECT/i] performs it: character by character after
    canonicalisation (upper-casing).  The result is what follows the
    match. *)
Fixpoint match_prefix_i (pat s : string) : option string :=
  match pat, s with
  | EmptyString, _ => Some s
  | String _ _, EmptyString => None
  | String p pat', String c s' =>
      if Ascii.eqb (upper_char p) (upper_char c)
      then match_prefix_i pat' s'
      else None
  end.

(** [s.replace(/^pat/i, repl)] for a replacement text without [$]. *)
Definition replace_prefix_i (pat s repl : string) : string :=
  match match_prefix_i pat s with
  | Some rest => repl ++ rest
  | None => s
  end.

End JS.
Import JS.

(* ================================================================== *)
(** ** Configuration and the statement rewriting *)

(** Lines 53-54.  [parseInt(process.env.DB_QUERY_TIMEOUT) || 10] is the
    configured number of seconds; a thousand times that is the value
    [loadDbConfig] stores in the global [queryTimeout].  The argument is
    the result of [parseInt], [None] for [NaN]. *)
Definition timeoutSeconds (parsed : option Z) : Z :=
  match parsed with
  | None => 10
  | Some n => if n =? 0 then 10 else n
  end.

Definition loadDbConfig_queryTimeout (parsed : option Z) : Z :=
  timeoutSeconds parsed * 1000.

(** The hint text spliced in by [executeWithTimeout]. *)
Definition hint (queryTimeout : Z) : string :=
  " /*+ MAX_EXECUTION_TIME(" ++ string_of_Z queryTimeout ++ ") */".

(** Lines 105-109: the text handed to [conn.execute].  The source tests
    with [toUpperCase().startsWith('SELECT')] and rewrites with
    [replace(/^SELECT/i, ...)]; the two agree on the ASCII letters, and a
    character beyond them that upper-cases into one of these letters
    passes the first but not the second, which leaves the text as it
    is, as here. *)
Definition executeSql (queryTimeout : Z) (sql : string) : string :=
  let executeSql := trim sql in
  if startsWith (toUpperCase executeSql) "SELECT"
  then replace_prefix_i "SELECT" executeSql ("SELECT" ++ hint queryTimeout)
  else executeSql.

(** Line 100: the message of the error the deadline rejects with. *)
Definition timeoutMessage (queryTimeout : Z) : string :=
  let timeoutSeconds := queryTimeout / 1000 in
  "查询超时：查询执行超过 " ++ string_of_Z timeoutSeconds
    ++ " 秒未响应，已自动终止。请重新尝试执行！".

(* ================================================================== *)
(** ** [loadDbConfig] *)

Module Config.

(** [process.env]: a variable is a string or is not set. *)
Definition env : Type := string -> option string.

(** The value of a digit in [radix], for [parseInt]: the decimal digits
    and the letters in either case, as far as the radix reaches. *)
Definition digitValue (radix : Z) (c : ascii) : option Z :=
  let n := Z.of_nat (nat_of_ascii c) in
  let v := if (48 <=? n) && (n <=? 57) then Some (n - 48)
           else if (97 <=? n) && (n <=? 122) then Some (n - 87)
           else if (65 <=? n) && (n <=? 90) then Some (n - 55)
           else None in
  match v with
  | Some d => if d <? radix then Some d else None
  | None => None
  end.

(** The longest prefix of digits, read from the left; [seen] tells
    whether there was a digit at all. *)
Fixpoint parseDigits (radix acc : Z) (seen : bool) (s : string) : option Z :=
  match s with
  | String c r =>
      match digitValue radix c with
      | Some d => parseDigits radix (radix * acc + d) true r
      | None => if seen then Some acc else None
      end
  | EmptyString => if seen then Some acc else None
  end.

(** The prefix [0x] or [0X] switches to radix 16. *)
Definition stripPrefix (s : string) : Z * string :=
  match s with
  | String z (String x r) =>
      if Ascii.eqb z "0" && (Ascii.eqb x "x" || Ascii.eqb x "X")
      then (16, r)
      else (10, s)
  | _ => (10, s)
  end.

Definition parseMagnitude (s : string) : option Z :=
  parseDigits (fst (stripPrefix s)) 0 false (snd (stripPrefix s)).

(** [parseInt(v)] without a radix; [None] is [NaN].  Leading white space
    is skipped, a sign is read, [0x] or [0X] switches to radix 16, and
    the digits that follow are the value; what comes after them is
    ignored.  An unset variable is the text [undefined], which has no
    digit.  The value is that of the code up to [maxSafeInteger] in
    absolute value; beyond it the code rounds to the nearest number it
    can hold, and a statement that reads the value carries the
    bound. *)
Definition parseInt (v : option string) : option Z :=
  match v with
  | None => None
  | Some text =>
      match trimStart text with
      | String c r =>
          if Ascii.eqb c "-" then option_map Z.opp (parseMagnitude r)
          else if Ascii.eqb c "+" then parseMagnitude r
          else parseMagnitude (String c r)
      | EmptyString => None
      end
  end.

(** [Number.MAX_SAFE_INTEGER]: up to here a number is the integer
    written. *)
Definition maxSafeInteger : Z := 9007199254740991.

(** [v || d] for a string or [undefined]. *)
Definition orString (v : option string) (d : string) : string :=
  match v with
  | Some s => if String.eqb s "" then d else s
  | None => d
  end.

(** [n || d] for a number or [NaN]. *)
Definition orNumber (v : option Z) (d : Z) : Z :=
  match v with
  | Some n => if n =? 0 then d else n
  | None => d
  end.

(** [!v] for a string or [undefined]. *)
Definition falsy (v : option string) : bool :=
  match v with
  | Some s => String.eqb s ""
  | None => true
  end.

(** Lines 43-50. *)
Record dbConfig : Type := mkConfig {
  host : option string;
  port : Z;
  user : option string;
  password : string;
  database : option string;
  charset : string
}.

(** Lines 57-61. *)
Definition requiredFields : list (string * string) :=
  [("host", "DB_HOST"); ("user", "DB_USER"); ("database", "DB_DATABASE")].

(** [config[key]] for the keys of [requiredFields]. *)
Definition configField (config : dbConfig) (key : string) : option string :=
  if String.eqb key "host" then host config
  else if String.eqb key "user" then user config
  else if String.eqb key "database" then database config
  else None.

(** Lines 63-68: the exit code of the first field that is missing. *)
Fixpoint firstMissing (config : dbConfig) (fields : list (string * string))
  : option Z :=
  match fields with
  | [] => None
  | (key, _) :: rest =>
      if falsy (configField config key) then Some 1
      else firstMissing config rest
  end.

(** Lines 42-71.  The result is the exit code of [process.exit], or the
    configuration with the value stored in the global [queryTimeout]. *)
Definition loadDbConfig (e : env) : Z + dbConfig * Z :=
  let config :=
    mkConfig (e "DB_HOST")
             (orNumber (parseInt (e "DB_PORT")) 3306)
             (e "DB_USER")
             (orString (e "DB_PASSWORD") "")
             (e "DB_DATABASE")
             (orString (e "DB_CHARSET") "utf8mb4") in
  let queryTimeout :=
    loadDbConfig_queryTimeout (parseInt (e "DB_QUERY_TIMEOUT")) in
  match firstMissing config requiredFields with
  | Some code => inl code
  | None => inr (config, queryTimeout)
  end.

(** The value of a decimal numeral read after [acc]. *)
Fixpoint uval (acc : Z) (d : Decimal.uint) : Z :=
  match d with
  | Decimal.Nil => acc
  | Decimal.D0 d => uval (10 * acc + 0) d
  | Decimal.D1 d => uval (10 * acc + 1) d
  | Decimal.D2 d => uval (10 * acc + 2) d
  | Decimal.D3 d => uval (10 * acc + 3) d
  | Decimal.D4 d => uval (10 * acc + 4) d
  | Decimal.D5 d => uval (10 * acc + 5) d
  | Decimal.D6 d => uval (10 * acc + 6) d
  | Decimal.D7 d => uval (10 * acc + 7) d
  | Decimal.D8 d => uval (10 * acc + 8) d
  | Decimal.D9 d => uval (10 * acc + 9) d
  end.

(** The text after a number does not go on with a digit, nor turn a
    leading [0] into the prefix of radix 16. *)
Definition stops (rest : string) : bool :=
  match rest with
  | EmptyString => true
  | String c _ =>
      match digitValue 10 c with
      | Some _ => false
      | None => negb (Ascii.eqb c "x" || Ascii.eqb c "X")
      end
  end.

Definition notDigitNext (rest : string) : Prop :=
  match rest with
  | EmptyString => True
  | String c _ => digitValue 10 c = None
  end.

Definition notHexNext (rest : string) : Prop :=
  match rest with
  | EmptyString => True
  | String c _ => (Ascii.eqb c "x" || Ascii.eqb c "X") = false
  end.

(** An environment from a list of settings; a later setting of a name
    replaces an earlier one. *)
Fixpoint envOf (settings : list (string * string)) : env :=
  fun name =>
    match settings with
    | [] => None
    | (n, v) :: rest =>
        match envOf rest name with
        | Some w => Some w
        | None => if String.eqb name n then Some v else None
        end
    end.

End Config.

(* ================================================================== *)
(** ** [executeWithTimeout] as a state machine

    The body of the function runs in turns of the event loop.  A turn
    starts when something the function (or its timer callback) awaits
    settles, or when the timer fires, and runs to the next [await]
    without interruption.  The machine has one [event] per such start;
    [step] is the turn.  The timer callback (lines 90-101) is a second
    thread of control: it shares [conn], [connId] and the promise it
    rejects with the main body, and can be overtaken by it. *)

Module Executor.

Definition conn := nat.

(** What a turn does to the outside world. *)
Inductive action : Type :=
| GetConnection
| Query (c : conn) (text : string)
| Execute (c : conn) (text : string)
| Release (c : conn)
| SetTimeout (ms : Z)
| ClearTimeout.

(** Who does it: the body of the function, or the timer callback. *)
Inductive actor : Type := Main | Deadline.

(** Where the body is suspended. *)
Inductive main_pc : Type :=
| AwaitConn                        (* line 82 *)
| AwaitId                          (* line 85 *)
| AwaitRace                        (* line 112 *)
| Settled (r : completion json).   (* returned or thrown, [finally] done *)

(** The timer and its callback. *)
Inductive timer_pc : Type :=
| Unset                            (* [timeoutHandle] is still [null] *)
| Armed
| Cleared
| KillAwaitConn                    (* fired; line 93 *)
| KillAwaitQuery (killConn : conn) (* line 94 *)
| Rejected.                        (* line 100 done *)

Record state : Type := mkState {
  queryTimeout : Z;
  sql : option json;
  conn_var : option conn;          (* [let conn = null] *)
  connId : option json;            (* [let connId = null] *)
  pc : main_pc;
  timer : timer_pc;
  log : list (actor * action)
}.

Inductive event : Type :=
| ConnSettled (r : completion conn)
| IdSettled (r : completion (list json))
| QuerySettled (r : completion json)
| TimerFired
| KillConnSettled (r : completion conn)
| KillSettled (r : completion unit).

Definition emit (who : actor) (a : action) (s : state) : state :=
  mkState (queryTimeout s) (sql s) (conn_var s) (connId s) (pc s) (timer s)
          (log s ++ [(who, a)]).

Definition set_conn (c : conn) (s : state) : state :=
  mkState (queryTimeout s) (sql s) (Some c) (connId s) (pc s) (timer s) (log s).

Definition set_connId (v : option json) (s : state) : state :=
  mkState (queryTimeout s) (sql s) (conn_var s) v (pc s) (timer s) (log s).

Definition set_pc (p : main_pc) (s : state) : state :=
  mkState (queryTimeout s) (sql s) (conn_var s) (connId s) p (timer s) (log s).

Definition set_timer (t : timer_pc) (s : state) : state :=
  mkState (queryTimeout s) (sql s) (conn_var s) (connId s) (pc s) t (log s).

(** [if (timeoutHandle) clearTimeout(timeoutHandle)]: a timer that has
    fired is not disarmed by it. *)
Definition clearTimer (s : state) : state :=
  match timer s with
  | Unset => s
  | Armed => set_timer Cleared (emit Main ClearTimeout s)
  | _ => emit Main ClearTimeout s
  end.

(** [finally { if (conn) conn.release() }] *)
Definition finally (s : state) : state :=
  match conn_var s with
  | Some c => emit Main (Release c) s
  | None => s
  end.

(** Lines 114-131: the awaited promise settles with [r]; on both the
    [return] and the [catch] path the timer is cleared, then [finally]
    runs, then the call settles with [r]. *)
Definition settle (r : completion json) (s : state) : state :=
  set_pc (Settled r) (finally (clearTimer s)).

(** Line 100, [reject(new Error(...))]: the race is lost by the statement
    only if it is still running. *)
Definition reject (s : state) : state :=
  let s' := set_timer Rejected s in
  match pc s' with
  | AwaitRace => settle (Throw (Error (timeoutMessage (queryTimeout s')))) s'
  | _ => s'
  end.

(** Lines 88-111, run in the turn in which the identifier arrives. *)
Definition armAndExecute (c : conn) (s : state) : state :=
  let s := set_timer Armed (emit Main (SetTimeout (queryTimeout s)) s) in
  match sql s with
  | Some (JStr text) =>
      set_pc AwaitRace (emit Main (Execute c (executeSql (queryTimeout s) text)) s)
  | Some JNull =>
      settle (Throw (TypeError
        "Cannot read properties of null (reading 'trim')")) s
  | Some _ => settle (Throw (TypeError "sql.trim is not a function")) s
  | None =>
      settle (Throw (TypeError
        "Cannot read properties of undefined (reading 'trim')")) s
  end.

(** One turn.  An event that nothing waits for is not enabled. *)
Definition step (s : state) (e : event) : option state :=
  match e with
  | ConnSettled r =>                    (* line 82 resumes *)
      match pc s with
      | AwaitConn =>
          match r with
          | Return c =>
              Some (set_pc AwaitId
                      (emit Main (Query c "SELECT CONNECTION_ID() as id")
                         (set_conn c s)))
          | Throw err => Some (settle (Throw err) s)
          end
      | _ => None
      end
  | IdSettled r =>                      (* line 85 resumes, on to line 112 *)
      match pc s, conn_var s with
      | AwaitId, Some c =>
          match r with
          | Return (JNull :: _) =>
              Some (settle (Throw (TypeError
                "Cannot read properties of null (reading 'id')")) s)
          | Return (row :: _) =>
              Some (armAndExecute c (set_connId (getProp row "id") s))
          | Return [] =>
              Some (settle (Throw (TypeError
                "Cannot read properties of undefined (reading 'id')")) s)
          | Throw err => Some (settle (Throw err) s)
          end
      | _, _ => None
      end
  | QuerySettled r =>                   (* line 112 resumes, the statement won *)
      match pc s with
      | AwaitRace => Some (settle r s)
      | _ => None
      end
  | TimerFired =>                       (* lines 90-93 *)
      match timer s with
      | Armed => Some (emit Deadline GetConnection (set_timer KillAwaitConn s))
      | _ => None
      end
  | KillConnSettled r =>                (* line 93 resumes; line 94, or 96-100 *)
      match timer s with
      | KillAwaitConn =>
          match r with
          | Return killConn =>
              (* [connId] is what [CONNECTION_ID()] gave, a number: its
                 text in the template literal is [toStrU] *)
              Some (emit Deadline
                      (Query killConn ("KILL QUERY " ++ toStrU (connId s)))
                      (set_timer (KillAwaitQuery killConn) s))
          | Throw _ => Some (reject s)
          end
      | _ => None
      end
  | KillSettled r =>                    (* line 94 resumes; line 95, or 96; 100 *)
      match timer s with
      | KillAwaitQuery killConn =>
          match r with
          | Return _ => Some (reject (emit Deadline (Release killConn) s))
          | Throw _ => Some (reject s)
          end
      | _ => None
      end
  end.

(** The call itself: the turn that runs up to the first [await]. *)
Definition executeWithTimeout (queryTimeout : Z) (sql : option json) : state :=
  mkState queryTimeout sql None (Some JNull) AwaitConn Unset
          [(Main, GetConnection)].

Fixpoint run (s : state) (events : list event) : option state :=
  match events with
  | [] => Some s
  | e :: rest =>
      match step s e with
      | Some s' => run s' rest
      | None => None
      end
  end.

(** *** Observations on a state *)

Definition action_eqb (a b : action) : bool :=
  match a, b with
  | GetConnection, GetConnection => true
  | Query c t, Query c' t' => Nat.eqb c c' && String.eqb t t'
  | Execute c t, Execute c' t' => Nat.eqb c c' && String.eqb t t'
  | Release c, Release c' => Nat.eqb c c'
  | SetTimeout m, SetTimeout m' => Z.eqb m m'
  | ClearTimeout, ClearTimeout => true
  | _, _ => false
  end.

Definition actor_eqb (a b : actor) : bool :=
  match a, b with
  | Main, Main | Deadline, Deadline => true
  | _, _ => false
  end.

Definition is_release (a : action) : bool :=
  match a with Release _ => true | _ => false end.

(** The actions of one thread, in order. *)
Definition actions_of (who : actor) (s : state) : list action :=
  map snd (filter (fun p => actor_eqb (fst p) who) (log s)).

(** How often [who] has released [c]. *)
Definition releases (who : actor) (c : conn) (s : state) : nat :=
  List.length (filter (action_eqb (Release c)) (actions_of who s)).

(** The kill step of the timer callback is over: no connection was
    obtained for it, or the kill command has settled. *)
Definition killStepOver (e : event) : bool :=
  match e with
  | KillConnSettled (Throw _) | KillSettled _ => true
  | _ => false
  end.

Definition settled (s : state) : bool :=
  match pc s with Settled _ => true | _ => false end.

Definition outcome (s : state) : option (completion json) :=
  match pc s with Settled r => Some r | _ => None end.

(** The statement texts handed to [conn.execute]. *)
Definition executed (s : state) : list string :=
  flat_map (fun a => match a with Execute _ t => [t] | _ => [] end)
           (actions_of Main s).

(** *** Invariants of a call *)

(** Which timer states go with which point of the body; the
    configuration and the argument never change. *)
Definition wf (queryTimeout0 : Z) (sql0 : option json) (s : state) : Prop :=
  queryTimeout s = queryTimeout0 /\ sql s = sql0 /\
  match pc s with
  | AwaitConn => timer s = Unset /\ conn_var s = None
  | AwaitId => timer s = Unset /\ conn_var s <> None
  | AwaitRace =>
      conn_var s <> None /\ (exists text, sql0 = Some (JStr text))
      /\ match timer s with
         | Armed | KillAwaitConn | KillAwaitQuery _ => True
         | _ => False
         end
  | Settled _ => timer s <> Armed
  end.

(** The releases of the body: none while it runs, and once it has
    settled the one of [finally], as its last action. *)
Definition released_once (s : state) : Prop :=
  match pc s with
  | Settled _ =>
      exists before,
        filter is_release before = []
        /\ actions_of Main s
           = (before ++ match conn_var s with
                        | Some c => [Release c]
                        | None => []
                        end)%list
  | _ => filter is_release (actions_of Main s) = []
  end.

(** What has been handed to [conn.execute]: nothing before the timer is
    set, and from then on the rewritten statement, once. *)
Definition executed_once (queryTimeout0 : Z) (sql0 : option json) (s : state)
  : Prop :=
  executed s
  = match timer s, sql0 with
    | Unset, _ => []
    | _, Some (JStr text) => [executeSql queryTimeout0 text]
    | _, _ => []
    end.

(** Case analysis on an enabled turn: the state is opened into its
    fields, so that every projection computes. *)
Ltac step_inv s H :=
  destruct s as [qt sq cv cid p tm lg];
  unfold step in H; cbn [pc timer conn_var connId queryTimeout sql log] in *;
  repeat match type of H with
         | context [match ?x with _ => _ end] => destruct x; try discriminate
         end;
  injection H as <-;
  unfold reject, armAndExecute, settle, finally, clearTimer;
  cbn [pc timer conn_var connId queryTimeout sql log
       set_pc set_timer set_conn set_connId emit] in *;
  repeat (match goal with
          | |- context [match ?x with _ => _ end] => is_var x; destruct x
          end;
          cbn [pc timer conn_var connId queryTimeout sql log
               set_pc set_timer set_conn set_connId emit] in *).

End Executor.

(* ================================================================== *)
(** ** [handleRequest] *)

Module Dispatcher.

(** The builtins the dispatcher and [main] call. *)
Class Runtime : Type := {
  JSON_parse : string -> option json;        (* [None]: a SyntaxError *)
  JSON_stringify : json -> string;           (* [JSON.stringify(v)] *)
  JSON_stringify_pretty : json -> string     (* [JSON.stringify(v, null, 2)] *)
}.

(** An [async] function that awaits nothing but [executeWithTimeout]:
    it has returned, has thrown, or is suspended on a call with the rest
    of its body as the continuation. *)
Inductive async (A : Type) : Type :=
| Ret (a : A)
| Raise (e : exn)
| Await (sql : option json) (k : completion json -> async A).
Arguments Ret {A} a.
Arguments Raise {A} e.
Arguments Await {A} sql k.

Fixpoint bind {A B : Type} (m : async A) (f : A -> async B) : async B :=
  match m with
  | Ret a => f a
  | Raise e => Raise e
  | Await sql k => Await sql (fun r => bind (k r) f)
  end.

Fixpoint tryCatch {A : Type} (m : async A) (handler : exn -> async A) : async A :=
  match m with
  | Ret a => Ret a
  | Raise e => handler e
  | Await sql k => Await sql (fun r => tryCatch (k r) handler)
  end.

Notation "x <- m ;; f" := (bind m (fun x => f))
  (at level 61, m at next level, right associativity).

(** [await executeWithTimeout(sql)] *)
Definition awaitExecute (sql : option json) : async json :=
  Await sql (fun r => match r with Return v => Ret v | Throw e => Raise e end).

(** [o.key] where [o] may be [undefined] or [null]. *)
Definition member (o : option json) (key : string) : async (option json) :=
  match o with
  | None =>
      Raise (TypeError ("Cannot read properties of undefined (reading '"
                          ++ key ++ "')"))
  | Some JNull =>
      Raise (TypeError ("Cannot read properties of null (reading '"
                          ++ key ++ "')"))
  | Some v => Ret (getProp v key)
  end.

(** [v] inside a template literal: its text, or the [TypeError] of the
    conversion. *)
Definition interpolate (v : option json) : async string :=
  if stringableU v then Ret (toStrU v) else Raise (TypeError notPrimitive).

(** An object literal; a property whose value is [undefined] does not
    reach the output of [JSON.stringify]. *)
Definition prop (k : string) (v : option json) : list (string * json) :=
  match v with
  | Some w => [(k, w)]
  | None => []
  end.

Definition errorEnvelope (id : option json) (code : Z) (msg : string) : json :=
  JObj ([("jsonrpc", JStr "2.0")] ++ prop "id" id
        ++ [("error", JObj [("code", JNum code); ("message", JStr msg)])]).

Definition resultEnvelope (id : option json) (result : json) : json :=
  JObj ([("jsonrpc", JStr "2.0")] ++ prop "id" id ++ [("result", result)]).

Definition textContent (text : string) : json :=
  JObj [("content", JArr [JObj [("type", JStr "text"); ("text", JStr text)]])].

Definition initializeResult : json :=
  JObj [("protocolVersion", JStr "2024-11-05");
        ("capabilities", JObj [("tools", JObj [])]);
        ("serverInfo", JObj [("name", JStr "mysql-server");
                             ("version", JStr "1.0.0")])].

(** Lines 214-251. *)
Definition toolDescriptors : list json :=
  [ JObj [("name", JStr "query");
          ("description", JStr "执行 SQL 查询");
          ("inputSchema",
            JObj [("type", JStr "object");
                  ("properties",
                    JObj [("sql", JObj [("type", JStr "string");
                                        ("description", JStr "SQL 查询语句")])]);
                  ("required", JArr [JStr "sql"])])];
    JObj [("name", JStr "list_tables");
          ("description", JStr "列出所有数据表");
          ("inputSchema",
            JObj [("type", JStr "object");
                  ("properties", JObj [])])];
    JObj [("name", JStr "describe_table");
          ("description", JStr "查看表结构");
          ("inputSchema",
            JObj [("type", JStr "object");
                  ("properties",
                    JObj [("table", JObj [("type", JStr "string");
                                          ("description", JStr "表名")])]);
                  ("required", JArr [JStr "table"])])] ].

Definition toolsListResult : json := JObj [("tools", JArr toolDescriptors)].

(** Line 278, [row => ({ name: row.Name, comment: row.Comment || '' })]. *)
Definition tableInfoRow (row : json) : async json :=
  match row with
  | JNull => Raise (TypeError "Cannot read properties of null (reading 'Name')")
  | _ =>
      let comment := getProp row "Comment" in
      Ret (JObj (prop "name" (getProp row "Name")
                 ++ [("comment", if truthy comment
                                 then match comment with
                                      | Some c => c
                                      | None => JStr ""
                                      end
                                 else JStr "")]))
  end.

(** [tables.map(...)] *)
Fixpoint mapRows (rows : list json) : async (list json) :=
  match rows with
  | [] => Ret []
  | row :: rest =>
      info <- tableInfoRow row ;;
      infos <- mapRows rest ;;
      Ret (info :: infos)
  end.

Definition tableInfo (tables : json) : async json :=
  match tables with
  | JArr rows => infos <- mapRows rows ;; Ret (JArr infos)
  | JNull => Raise (TypeError "Cannot read properties of null (reading 'map')")
  | _ => Raise (TypeError "tables.map is not a function")
  end.

Section WithRuntime.
Context {rt : Runtime}.

(** Lines 255-310, the [tools/call] case. *)
Definition toolsCall (id params : option json) : async (option json) :=
  match params with
  | None =>
      Raise (TypeError
        "Cannot destructure property 'name' of 'params' as it is undefined.")
  | Some JNull =>
      Raise (TypeError
        "Cannot destructure property 'name' of 'params' as it is null.")
  | Some p =>
      let name := getProp p "name" in
      let args := getProp p "arguments" in
      if strictEqStr name "query" then
        sql <- member args "sql" ;;
        rows <- awaitExecute sql ;;
        Ret (Some (resultEnvelope id (textContent (JSON_stringify_pretty rows))))
      else if strictEqStr name "list_tables" then
        tables <- awaitExecute (Some (JStr "SHOW TABLE STATUS")) ;;
        info <- tableInfo tables ;;
        Ret (Some (resultEnvelope id (textContent (JSON_stringify_pretty info))))
      else if strictEqStr name "describe_table" then
        table <- member args "table" ;;
        text <- interpolate table ;;
        structure <- awaitExecute
                       (Some (JStr ("SHOW FULL COLUMNS FROM " ++ text))) ;;
        Ret (Some (resultEnvelope id
                     (textContent (JSON_stringify_pretty structure))))
      else
        text <- interpolate name ;;
        Raise (Error ("未知的工具: " ++ text))
  end.

(** Lines 192-325, the [switch] inside the [try]. *)
Definition dispatch (id method params : option json) : async (option json) :=
  if strictEqStr method "initialize" then
    Ret (Some (resultEnvelope id initializeResult))
  else if strictEqStr method "tools/list" then
    Ret (Some (resultEnvelope id toolsListResult))
  else if strictEqStr method "tools/call" then
    toolsCall id params
  else if negb (nullish id) then
    text <- interpolate method ;;
    Ret (Some (errorEnvelope id (-32601) ("未知的方法: " ++ text)))
  else
    Ret None.

(** Lines 176-189. *)
Definition notification (method : option json) : async (option json) :=
  if strictEqStr method "notifications/initialized"
     || strictEqStr method "notifications/cancelled"
     || strictEqStr method "notifications/progress"
  then Ret None
  else Ret None.

(** Lines 326-339, the [catch]. *)
Definition internalError (id : option json) (error : exn) : async (option json) :=
  if negb (nullish id)
  then Ret (Some (errorEnvelope id (-32603) (message error)))
  else Ret None.

Definition handleRequest (request : string) : async (option json) :=
  match JSON_parse request with
  | None => Ret (Some (errorEnvelope (Some JNull) (-32700) "Parse error"))
  | Some JNull =>
      Raise (TypeError
        "Cannot destructure property 'id' of 'requestData' as it is null.")
  | Some requestData =>
      let id := getProp requestData "id" in
      let method := getProp requestData "method" in
      let params := getProp requestData "params" in
      if nullish id then notification method
      else
        tryCatch (dispatch id method params) (internalError id)
  end.

End WithRuntime.

End Dispatcher.

(* ================================================================== *)
(** ** [main]: the line handler and the requests in flight *)

Module Server.
Import Dispatcher.

(** A request suspended on [executeWithTimeout]: the call, and the rest
    of [handleRequest] and of the line handler. *)
Record call : Type := mkCall {
  exec : Executor.state;
  cont : completion json -> async (option json)
}.

Record server : Type := mkServer {
  queryTimeout : Z;              (* the global set by [loadDbConfig] *)
  calls : list call;             (* every call made so far *)
  stdout : list string;          (* the lines written by [console.log] *)
  exited : option Z              (* the exit code, once the process has ended *)
}.

Inductive input : Type :=
| Line (line : string)                       (* [rl.on('line', ...)] *)
| Db (i : nat) (e : Executor.event).         (* something call [i] awaits *)

Section WithRuntime.
Context {rt : Runtime}.

(** Lines 353-361, from the point where [handleRequest] has got as far as
    [m]: print the response, or wait for the call it is suspended on.
    When [handleRequest] throws, the promise of the line handler is
    rejected and nothing handles it: the runtime (Node.js 15 and later)
    ends the process with exit code 1. *)
Definition drive (m : async (option json)) (sv : server) : server :=
  match m with
  | Ret None => sv
  | Ret (Some response) =>
      mkServer (queryTimeout sv) (calls sv)
               (stdout sv ++ [JSON_stringify response]) (exited sv)
  | Raise _ =>
      mkServer (queryTimeout sv) (calls sv) (stdout sv) (Some 1)
  | Await sql k =>
      mkServer (queryTimeout sv)
               (calls sv ++ [mkCall (Executor.executeWithTimeout (queryTimeout sv) sql) k])
               (stdout sv) (exited sv)
  end.

Fixpoint replace_nth {A : Type} (i : nat) (x : A) (l : list A) : list A :=
  match i, l with
  | _, [] => []
  | O, _ :: rest => x :: rest
  | S j, y :: rest => y :: replace_nth j x rest
  end.

(** One turn of the event loop of the process. *)
Definition step (sv : server) (i : input) : option server :=
  match exited sv, i with
  | Some _, _ => None
  | None, Line line => Some (drive (handleRequest line) sv)
  | None, Db n e =>
      match nth_error (calls sv) n with
      | None => None
      | Some c =>
          match Executor.step (exec c) e with
          | None => None
          | Some x =>
              let sv' := mkServer (queryTimeout sv)
                                  (replace_nth n (mkCall x (cont c)) (calls sv))
                                  (stdout sv) (exited sv) in
              match Executor.pc (exec c), Executor.pc x with
              | Executor.Settled _, _ => Some sv'
              | _, Executor.Settled r => Some (drive (cont c r) sv')
              | _, _ => Some sv'
              end
          end
      end
  end.

Fixpoint run (sv : server) (inputs : list input) : option server :=
  match inputs with
  | [] => Some sv
  | i :: rest =>
      match step sv i with
      | Some sv' => run sv' rest
      | None => None
      end
  end.

(** The server when [main] starts to read lines. *)
Definition main (queryTimeout : Z) : server := mkServer queryTimeout [] [] None.

(** Every action on the pool and its connections so far. *)
Definition dbActions (sv : server) : list (Executor.actor * Executor.action) :=
  flat_map (fun c => Executor.log (exec c)) (calls sv).

End WithRuntime.

End Server.

(* ================================================================== *)
(** ** [initConnection] and the start of [main] *)

Module Startup.
Import Config.

(** What the start does to the outside world. *)
Inductive action : Type :=
| CreatePool (config : dbConfig) (connectionLimit queueLimit : Z)  (* line 140 *)
| OnPool (a : Executor.action)
| CreateInterface.                                                 (* line 346 *)

Inductive pc : Type :=
| TestAwaitConn                              (* line 150 *)
| TestAwaitQuery (testConn : Executor.conn)  (* line 151 *)
| Serving                                    (* lines 352-369 are installed *)
| Exited (code : Z).

Record state : Type := mkState {
  at_pc : pc;
  queryTimeout : Z;
  log : list action
}.

Inductive event : Type :=
| TestConnSettled (r : completion Executor.conn)
| TestQuerySettled (r : completion unit).

(** [main] up to the first [await]: lines 344, 137-150. *)
Definition start (e : env) : state :=
  match loadDbConfig e with
  | inl code =>
      mkState (Exited code)
              (loadDbConfig_queryTimeout (parseInt (e "DB_QUERY_TIMEOUT"))) []
  | inr (config, queryTimeout) =>
      mkState TestAwaitConn queryTimeout
              [CreatePool config 5 0; OnPool Executor.GetConnection]
  end.

(** Lines 150-155 and 346-369.  Whatever is thrown inside the [try] of
    [initConnection] ends the process with exit code 1. *)
Definition step (s : state) (ev : event) : option state :=
  match at_pc s, ev with
  | TestAwaitConn, TestConnSettled (Return testConn) =>
      Some (mkState (TestAwaitQuery testConn) (queryTimeout s)
              (log s ++ [OnPool (Executor.Query testConn
                  "SELECT CONNECTION_ID() as id, VERSION() as version")]))
  | TestAwaitConn, TestConnSettled (Throw _) =>
      Some (mkState (Exited 1) (queryTimeout s) (log s))
  | TestAwaitQuery testConn, TestQuerySettled (Return _) =>
      Some (mkState Serving (queryTimeout s)
              (log s ++ [OnPool (Executor.Release testConn); CreateInterface]))
  | TestAwaitQuery _, TestQuerySettled (Throw _) =>
      Some (mkState (Exited 1) (queryTimeout s) (log s))
  | _, _ => None
  end.

Fixpoint run (s : state) (events : list event) : option state :=
  match events with
  | [] => Some s
  | ev :: rest =>
      match step s ev with
      | Some s' => run s' rest
      | None => None
      end
  end.

(** The server that reads lines, once the start is through. *)
Definition serving (s : state) : option Server.server :=
  match at_pc s with
  | Serving => Some (Server.main (queryTimeout s))
  | _ => None
  end.

(** The three variables that must be set are set, and not empty. *)
Definition complete (e : env) : bool :=
  negb (falsy (e "DB_HOST")) && negb (falsy (e "DB_USER"))
  && negb (falsy (e "DB_DATABASE")).

End Startup.

(* ================================================================== *)
(** ** The older script: [loadDbConfig] and [initConnection]

    [src/mysql-mcp-server.js] is the script before the pool and the
    timeout: one connection, made at the start, and diagnostics on the
    standard error.  Line numbers in this module are those of that
    file.  A diagnostic is one call of [console.error], as the text it
    writes. *)

Module Legacy.
Import Config.

(** A string or [undefined] inside a template literal. *)
Definition template (v : option string) : string :=
  match v with
  | Some s => s
  | None => "undefined"
  end.

(** Lines 56-62: the variable of the first field that is missing. *)
Fixpoint firstMissingEnv (config : dbConfig) (fields : list (string * string))
  : option string :=
  match fields with
  | [] => None
  | (key, variable) :: rest =>
      if falsy (configField config key) then Some variable
      else firstMissingEnv config rest
  end.

(** Lines 39-69: the diagnostics, and the exit code of [process.exit]
    or the configuration. *)
Definition loadDbConfig (e : env) : list string * (Z + dbConfig) :=
  let config :=
    mkConfig (e "DB_HOST")
             (orNumber (parseInt (e "DB_PORT")) 3306)
             (e "DB_USER")
             (orString (e "DB_PASSWORD") EmptyString)
             (e "DB_DATABASE")
             (orString (e "DB_CHARSET") "utf8mb4") in
  match firstMissingEnv config requiredFields with
  | Some variable =>
      (["❌ 错误: 缺少必需的环境变量: " ++ variable;
        "请在 mcp.json 的 env 配置中设置该变量"],
       inl 1)
  | None =>
      (["🔗 数据库连接信息: " ++ template (host config) ++ ":"
          ++ string_of_Z (port config) ++ "/" ++ template (database config);
        "👤 用户: " ++ template (user config)],
       inr config)
  end.

Inductive action : Type :=
| CreateConnection (config : dbConfig)       (* line 74 *)
| CreateInterface.                           (* line 271 *)

Inductive pc : Type :=
| AwaitConnection                            (* line 74 *)
| Serving
| Exited (code : Z).

Record state : Type := mkState {
  at_pc : pc;
  stderr : list string;
  log : list action
}.

Inductive event : Type :=
| ConnectionSettled (r : completion unit).

(** [main] up to the [await] of line 74. *)
Definition start (e : env) : state :=
  match loadDbConfig e with
  | (lines, inl code) => mkState (Exited code) lines []
  | (lines, inr config) =>
      mkState AwaitConnection lines [CreateConnection config]
  end.

(** Lines 74-79 and 271. *)
Definition step (s : state) (ev : event) : option state :=
  match at_pc s, ev with
  | AwaitConnection, ConnectionSettled (Return _) =>
      Some (mkState Serving
                    (stderr s ++ ["✅ MySQL 连接成功"])
                    (log s ++ [CreateInterface]))
  | AwaitConnection, ConnectionSettled (Throw error) =>
      Some (mkState (Exited 1)
                    (stderr s ++ ["❌ MySQL 连接失败: " ++ message error])
                    (log s))
  | _, _ => None
  end.

Fixpoint run (s : state) (events : list event) : option state :=
  match events with
  | [] => Some s
  | ev :: rest =>
      match step s ev with
      | Some s' => run s' rest
      | None => None
      end
  end.

End Legacy.

(* ================================================================== *)
(** ** The end of the input: the [close] handler of [main]

    Lines 364-369.  When the input ends, the interface emits [close],
    once, and no [line] after it; the handler asks the pool to end and,
    when that is done, ends the process with exit code 0.  Calls that
    are under way go on in the meantime.  When the pool fails to end,
    the promise of the handler is rejected and nothing handles it: exit
    code 1, as for the line handler. *)

Module Shutdown.

Inductive phase : Type :=
| Reading                          (* the input is open *)
| Ending.                          (* line 366, [await pool.end()] *)

Record process : Type := mkProcess {
  server : Server.server;
  at_phase : phase;
  poolEnds : nat                   (* the calls of [pool.end] so far *)
}.

Inductive input : Type :=
| Serve (i : Server.input)
| Close                                      (* [rl.on('close', ...)] *)
| PoolEndSettled (r : completion unit).      (* line 366 resumes *)

(** [process.exit(code)] *)
Definition exit (code : Z) (sv : Server.server) : Server.server :=
  Server.mkServer (Server.queryTimeout sv) (Server.calls sv) (Server.stdout sv)
                  (Some code).

Section WithRuntime.
Context {rt : Dispatcher.Runtime}.

Definition step (p : process) (i : input) : option process :=
  match Server.exited (server p) with
  | Some _ => None
  | None =>
      match i, at_phase p with
      | Serve (Server.Line _), Ending => None
      | Serve i', ph =>
          match Server.step (server p) i' with
          | Some sv => Some (mkProcess sv ph (poolEnds p))
          | None => None
          end
      | Close, Reading => Some (mkProcess (server p) Ending (S (poolEnds p)))
      | Close, Ending => None
      | PoolEndSettled (Return _), Ending =>
          Some (mkProcess (exit 0 (server p)) Ending (poolEnds p))
      | PoolEndSettled (Throw _), Ending =>
          Some (mkProcess (exit 1 (server p)) Ending (poolEnds p))
      | PoolEndSettled _, Reading => None
      end
  end.

Fixpoint run (p : process) (inputs : list input) : option process :=
  match inputs with
  | [] => Some p
  | i :: rest =>
      match step p i with
      | Some p' => run p' rest
      | None => None
      end
  end.

End WithRuntime.

(** The process when [main] has installed its two handlers. *)
Definition start (queryTimeout : Z) : process :=
  mkProcess (Server.main queryTimeout) Reading 0.

(** The lines and the events of the database among the inputs. *)
Fixpoint served (inputs : list input) : list Server.input :=
  match inputs with
  | [] => []
  | Serve i :: rest => i :: served rest
  | _ :: rest => served rest
  end.

(** Why a process has ended with [code], given its inputs: the pool
    has ended after the input was closed (0), or the pool has failed to
    end, or the last line was the text [null] (1). *)
Definition endedBy {rt : Dispatcher.Runtime} (inputs : list input) (code : Z)
  : Prop :=
  (code = 0
   /\ exists before done,
        inputs = (before ++ [PoolEndSettled (Return done)])%list
        /\ In Close before)
  \/ (code = 1
      /\ exists before error,
           inputs = (before ++ [PoolEndSettled (Throw error)])%list
           /\ In Close before)
  \/ (code = 1
      /\ exists before line,
           inputs = (before ++ [Serve (Server.Line line)])%list
           /\ Dispatcher.JSON_parse line = Some JNull).

End Shutdown.

(* ================================================================== *)
(** ** Ways an [async] body can end *)

Module Outcomes.
Import Dispatcher.

(** [m] has returned a response, and the response satisfies [P]. *)
Definition answersWith (P : json -> Prop) (m : async (option json)) : Prop :=
  match m with
  | Ret (Some response) => P response
  | _ => False
  end.

(** [m] returns such a response at once, or waits for one call and
    returns such a response when that call settles, whichever way it
    settles. *)
Definition answersWithinOneCall (P : json -> Prop) (m : async (option json))
  : Prop :=
  match m with
  | Await _ k => forall r, answersWith P (k r)
  | _ => answersWith P m
  end.

(** A response to the request [id]: a result, or an error with one of
    the two codes of a request. *)
Definition responseFor (id : option json) (response : json) : Prop :=
  (exists result, response = resultEnvelope id result)
  \/ (exists code msg,
        response = errorEnvelope id code msg
        /\ (code = -32601 \/ code = -32603)).

(** A call the server has made: a run of [executeWithTimeout] under
    the timeout [queryTimeout], with a rest of [handleRequest] that
    returns a response however the call settles. *)
Definition callOf (queryTimeout : Z) (c : Server.call) : Prop :=
  (exists sql events,
      Executor.run (Executor.executeWithTimeout queryTimeout sql) events
      = Some (Server.exec c))
  /\ forall r, answersWith (fun _ => True) (Server.cont c r).

Section WithRuntime.
Context {rt : Runtime}.

(** A line the client is owed an answer for: one that is not JSON, or
    one with an identifier. *)
Definition expectsResponse (line : string) : bool :=
  match JSON_parse line with
  | None => true
  | Some v => negb (nullish (getProp v "id"))
  end.

Fixpoint requests (inputs : list Server.input) : nat :=
  match inputs with
  | [] => O
  | Server.Line line :: rest =>
      ((if expectsResponse line then 1 else 0) + requests rest)%nat
  | Server.Db _ _ :: rest => requests rest
  end.

(** A request for a tool. *)
Definition isToolsCall (line : string) : bool :=
  match JSON_parse line with
  | None => false
  | Some v =>
      negb (nullish (getProp v "id"))
      && strictEqStr (getProp v "method") "tools/call"
  end.

Fixpoint toolsCalls (inputs : list Server.input) : nat :=
  match inputs with
  | [] => O
  | Server.Line line :: rest =>
      ((if isToolsCall line then 1 else 0) + toolsCalls rest)%nat
  | Server.Db _ _ :: rest => toolsCalls rest
  end.

(** The lines among the inputs. *)
Fixpoint linesOf (inputs : list Server.input) : list string :=
  match inputs with
  | [] => []
  | Server.Line line :: rest => line :: linesOf rest
  | Server.Db _ _ :: rest => linesOf rest
  end.

(** The calls that have not settled yet. *)
Definition pending (sv : Server.server) : nat :=
  List.length
    (filter (fun c => negb (Executor.settled (Server.exec c))) (Server.calls sv)).

End WithRuntime.

End Outcomes.

(* ================================================================== *)
(** ** The order of the actions of a call *)

Module Protocol.
Import Executor.

Definition idQuery : string := "SELECT CONNECTION_ID() as id".

(** Everything the body of [executeWithTimeout] can do, in the order of
    the source, on the borrowed connection [c]. *)
Definition mainScript (queryTimeout : Z) (c : conn) (text : string)
  : list action :=
  [GetConnection; Query c idQuery; SetTimeout queryTimeout; Execute c text;
   ClearTimeout; Release c].

(** Everything the timer callback can do, on the kill connection. *)
Definition deadlineScript (killConn : conn) (connId : option json)
  : list action :=
  [GetConnection; Query killConn ("KILL QUERY " ++ toStrU connId);
   Release killConn].

(** [l] is [script] with some of its actions left out. *)
Fixpoint subseq (l script : list action) : bool :=
  match l, script with
  | [], _ => true
  | _ :: _, [] => false
  | a :: l', b :: script' =>
      if action_eqb a b then subseq l' script' else subseq l script'
  end.

(** [l] is the beginning of [script]. *)
Fixpoint isPrefix (l script : list action) : bool :=
  match l, script with
  | [], _ => true
  | _ :: _, [] => false
  | a :: l', b :: script' => action_eqb a b && isPrefix l' script'
  end.

Definition isTimerAction (a : action) : bool :=
  match a with
  | SetTimeout _ | ClearTimeout => true
  | _ => false
  end.

(** What the body has done, read off the state it is in. *)
Definition expectedMain (s : state) : list action :=
  GetConnection ::
  match conn_var s with
  | None => []
  | Some c =>
      Query c idQuery ::
      (match timer s with
       | Unset => []
       | _ =>
           SetTimeout (queryTimeout s) ::
           (match sql s with
            | Some (JStr text) => [Execute c (executeSql (queryTimeout s) text)]
            | _ => []
            end
            ++ (if settled s then [ClearTimeout] else []))
       end
       ++ (if settled s then [Release c] else []))
  end.

(** What the timer callback has done, read off the state. *)
Definition expectedDeadline (s : state) (done : list action) : Prop :=
  match timer s with
  | Unset | Armed | Cleared => done = []
  | KillAwaitConn => done = [GetConnection]
  | KillAwaitQuery killConn =>
      done = [GetConnection;
              Query killConn ("KILL QUERY " ++ toStrU (connId s))]
  | Rejected =>
      done = [GetConnection]
      \/ exists killConn,
           done = [GetConnection;
                   Query killConn ("KILL QUERY " ++ toStrU (connId s))]
           \/ done = deadlineScript killConn (connId s)
  end.

(** Where the outcome [r] of a call comes from, given what happened. *)
Definition provenance (queryTimeout : Z) (events : list event)
           (r : completion json) : Prop :=
  match r with
  | Return rows => In (QuerySettled (Return rows)) events
  | Throw e =>
      In (ConnSettled (Throw e)) events
      \/ In (IdSettled (Throw e)) events
      \/ In (QuerySettled (Throw e)) events
      \/ (e = Error (timeoutMessage queryTimeout) /\ In TimerFired events)
      \/ exists msg, e = TypeError msg
  end.

End Protocol.

(* ================================================================== *)
(** ** A reference runtime

    An executable [JSON.parse] and [JSON.stringify] for concrete runs:
    the JSON grammar without fractions, exponents and [\u] escapes (the
    fragment the value type [json] can hold byte for byte).  A line
    outside this fragment is refused here though [JSON.parse] reads it,
    and an object is printed with its keys as they stand, which is the
    order of [JSON.stringify] when no key is repeated and none is an
    array index.  The properties are proved for every [Runtime]; this
    one only runs them, on lines and values inside the fragment. *)

Module Node.
Import Dispatcher.
Open Scope char_scope.

Definition dquote : ascii := ascii_of_nat 34.
Definition backslash : ascii := ascii_of_nat 92.

Definition isJsonSpace (c : ascii) : bool :=
  match c with
  | " " => true
  | _ => let n := nat_of_ascii c in
         (n =? 9)%nat || (n =? 10)%nat || (n =? 13)%nat
  end.

Fixpoint skipSpace (s : string) : string :=
  match s with
  | String c r => if isJsonSpace c then skipSpace r else s
  | EmptyString => s
  end.

Definition isDigit (c : ascii) : bool :=
  let n := nat_of_ascii c in (48 <=? n)%nat && (n <=? 57)%nat.

Definition unescape (c : ascii) : option ascii :=
  match c with
  | "b" => Some (ascii_of_nat 8)
  | "f" => Some (ascii_of_nat 12)
  | "n" => Some (ascii_of_nat 10)
  | "r" => Some (ascii_of_nat 13)
  | "t" => Some (ascii_of_nat 9)
  | "/" => Some "/"
  | _ => if Ascii.eqb c dquote then Some dquote
         else if Ascii.eqb c backslash then Some backslash
         else None
  end.

Definition consChar (c : ascii) (r : option (string * string))
  : option (string * string) :=
  match r with
  | Some (body, rest) => Some (String c body, rest)
  | None => None
  end.

(** After the opening quote: the characters of the string, and what
    follows its closing quote. *)
Fixpoint stringBody (s : string) : option (string * string) :=
  match s with
  | EmptyString => None
  | String c r =>
      if Ascii.eqb c dquote then Some (EmptyString, r)
      else if Ascii.eqb c backslash then
        match r with
        | String e r' =>
            match unescape e with
            | Some ch => consChar ch (stringBody r')
            | None => None
            end
        | EmptyString => None
        end
      else if (nat_of_ascii c <? 32)%nat then None
      else consChar c (stringBody r)
  end.

Fixpoint digits (acc : Z) (s : string) : Z * string :=
  match s with
  | String c r =>
      if isDigit c
      then digits (10 * acc + Z.of_nat (nat_of_ascii c - 48)) r
      else (acc, s)
  | EmptyString => (acc, s)
  end.

(** An integer literal: [0], or a non-zero digit and more digits. *)
Definition natural (s : string) : option (Z * string) :=
  match s with
  | String "0" r =>
      match r with
      | String c _ => if isDigit c then None else Some (0%Z, r)
      | EmptyString => Some (0%Z, r)
      end
  | String c _ => if isDigit c then Some (digits 0 s) else None
  | EmptyString => None
  end.

Definition notFraction (r : option (Z * string)) : option (Z * string) :=
  match r with
  | Some (_, String "." _) | Some (_, String "e" _) | Some (_, String "E" _) =>
      None
  | _ => r
  end.

Definition keyword (word : string) (v : json) (s : string)
  : option (json * string) :=
  if String.prefix word s
  then Some (v, substring (String.length word)
                          (String.length s - String.length word) s)
  else None.

Fixpoint value (fuel : nat) (s : string) {struct fuel} : option (json * string) :=
  match fuel with
  | O => None
  | S fuel' =>
      match skipSpace s with
      | EmptyString => None
      | String c r as s' =>
          if Ascii.eqb c dquote then
            match stringBody r with
            | Some (body, rest) => Some (JStr body, rest)
            | None => None
            end
          else
          match c with
          | "n" => keyword "null" JNull s'
          | "t" => keyword "true" (JBool true) s'
          | "f" => keyword "false" (JBool false) s'
          | "-" =>
              match notFraction (natural r) with
              | Some (n, rest) => Some (JNum (- n), rest)
              | None => None
              end
          | "[" =>
              match skipSpace r with
              | String "]" rest => Some (JArr [], rest)
              | _ =>
                  match elements fuel' r with
                  | Some (items, rest) => Some (JArr items, rest)
                  | None => None
                  end
              end
          | "{" =>
              match skipSpace r with
              | String "}" rest => Some (JObj [], rest)
              | _ =>
                  match members fuel' r with
                  | Some (fields, rest) => Some (JObj fields, rest)
                  | None => None
                  end
              end
          | _ =>
              match notFraction (natural s') with
              | Some (n, rest) => Some (JNum n, rest)
              | None => None
              end
          end
      end
  end
with elements (fuel : nat) (s : string) {struct fuel}
  : option (list json * string) :=
  match fuel with
  | O => None
  | S fuel' =>
      match value fuel' s with
      | Some (v, r) =>
          match skipSpace r with
          | String "," r' =>
              match elements fuel' r' with
              | Some (vs, rest) => Some (v :: vs, rest)
              | None => None
              end
          | String "]" rest => Some ([v], rest)
          | _ => None
          end
      | None => None
      end
  end
with members (fuel : nat) (s : string) {struct fuel}
  : option (list (string * json) * string) :=
  match fuel with
  | O => None
  | S fuel' =>
      match skipSpace s with
      | String c r =>
          if Ascii.eqb c dquote then
            match stringBody r with
            | Some (key, r1) =>
                match skipSpace r1 with
                | String ":" r2 =>
                    match value fuel' r2 with
                    | Some (v, r3) =>
                        match skipSpace r3 with
                        | String "," r4 =>
                            match members fuel' r4 with
                            | Some (fields, rest) => Some ((key, v) :: fields, rest)
                            | None => None
                            end
                        | String "}" rest => Some ([(key, v)], rest)
                        | _ => None
                        end
                    | None => None
                    end
                | _ => None
                end
            | None => None
            end
          else None
      | EmptyString => None
      end
  end.

Definition parse (s : string) : option json :=
  match value (2 * String.length s + 2) s with
  | Some (v, rest) =>
      match skipSpace rest with
      | EmptyString => Some v
      | _ => None
      end
  | None => None
  end.

Definition hexDigit (n : nat) : ascii :=
  if (n <? 10)%nat then ascii_of_nat (48 + n) else ascii_of_nat (87 + n).

Definition escapeChar (c : ascii) : string :=
  let n := nat_of_ascii c in
  if Ascii.eqb c dquote then String backslash (String dquote EmptyString)
  else if Ascii.eqb c backslash then String backslash (String backslash EmptyString)
  else if (n =? 8)%nat then String backslash "b"
  else if (n =? 9)%nat then String backslash "t"
  else if (n =? 10)%nat then String backslash "n"
  else if (n =? 12)%nat then String backslash "f"
  else if (n =? 13)%nat then String backslash "r"
  else if (n <? 32)%nat
  then String backslash
         (String "u" (String "0" (String "0"
            (String (hexDigit (n / 16)) (String (hexDigit (n mod 16)) EmptyString)))))
  else String c EmptyString.

Fixpoint escape (s : string) : string :=
  match s with
  | EmptyString => EmptyString
  | String c r => (escapeChar c ++ escape r)%string
  end.

Definition quote (s : string) : string :=
  (String dquote (escape s) ++ String dquote EmptyString)%string.

Open Scope string_scope.

Fixpoint spaces (n : nat) : string :=
  match n with
  | O => ""
  | S m => " " ++ spaces m
  end.

(** [JSON.stringify(v, null, gap)]: [gap = 0] is the compact form. *)
Fixpoint stringifyAt (gap indent : nat) (v : json) : string :=
  let inner := (indent + gap)%nat in
  let nl (k : nat) := match gap with O => "" | _ => String (ascii_of_nat 10) (spaces k) end in
  let colon := match gap with O => ":" | _ => ": " end in
  match v with
  | JNull => "null"
  | JBool true => "true"
  | JBool false => "false"
  | JNum n => string_of_Z n
  | JStr s => quote s
  | JArr [] => "[]"
  | JArr items =>
      "[" ++ nl inner
      ++ (fix go (l : list json) : string :=
            match l with
            | [] => ""
            | [x] => stringifyAt gap inner x
            | x :: rest => stringifyAt gap inner x ++ "," ++ nl inner ++ go rest
            end) items
      ++ nl indent ++ "]"
  | JObj [] => "{}"
  | JObj fields =>
      "{" ++ nl inner
      ++ (fix go (l : list (string * json)) : string :=
            match l with
            | [] => ""
            | [(k, x)] => quote k ++ colon ++ stringifyAt gap inner x
            | (k, x) :: rest =>
                quote k ++ colon ++ stringifyAt gap inner x ++ "," ++ nl inner ++ go rest
            end) fields
      ++ nl indent ++ "}"
  end.

#[export] Instance runtime : Runtime := {|
  JSON_parse := parse;
  JSON_stringify := stringifyAt 0 0;
  JSON_stringify_pretty := stringifyAt 2 0
|}.

(** Test input is written with ['] for the double quote. *)
Fixpoint q (s : string) : string :=
  match s with
  | EmptyString => EmptyString
  | String c r => String (if Ascii.eqb c "'"%char then dquote else c) (q r)
  end.

End Node.

(* ================================================================== *)
(** ** Concrete inputs

    The inputs of the runs at the end of the file: a thirty-second
    timeout, a borrowed connection 7 with session 42, a kill connection
    8, and the lines of a client. *)

Module Demo.
Import Executor Dispatcher Server.
#[local] Existing Instance Node.runtime.

(** A thirty-second timeout, a connection with session 42. *)
Definition demoAcquire : list event :=
  [ConnSettled (Return 7%nat); IdSettled (Return [JObj [("id", JNum 42)]])].

Definition demoRows : json := JArr [JObj [("n", JNum 1)]].

Definition demoQuery : string :=
  Node.q "{'jsonrpc':'2.0','id':1,'method':'tools/call','params':{'name':'query','arguments':{'sql':'select sleep(60)'}}}".

(** The timer fires, and the statement settles before the timer
    callback has its connection. *)
Definition demoOvertaking : list event :=
  demoAcquire ++ [TimerFired; QuerySettled (Return demoRows)].

Definition stateOf (sql : string) (events : list event) : option state :=
  Executor.run (executeWithTimeout 30000 (Some (JStr sql))) events.

Definition stateAfter (sql : string) (events : list event) : state :=
  match stateOf sql events with
  | Some s => s
  | None => executeWithTimeout 30000 (Some (JStr sql))
  end.

(** The statement is running. *)
Definition demoRacing : state :=
  Eval vm_compute in stateAfter "  select * from t " demoAcquire.

(** The timer has fired and the kill command is on its way. *)
Definition demoKilling : state :=
  Eval vm_compute in
    stateAfter "select sleep(60)"
               (demoAcquire ++ [TimerFired; KillConnSettled (Return 8%nat)]).

(** The kill command has failed. *)
Definition demoKillFailed : state :=
  Eval vm_compute in
    stateAfter "select sleep(60)"
               (demoAcquire ++ [TimerFired; KillConnSettled (Return 8%nat);
                                KillSettled (Throw (Error "gone"))]).

Definition demoSql : option json := Some (JStr "select sleep(60)").

(** What is left of [handleRequest] for [demoQuery] after line 259. *)
Definition demoCont : completion json -> async (option json) :=
  fun r =>
    tryCatch
      (rows <- match r with Return v => Ret v | Throw e => Raise e end ;;
       Ret (Some (resultEnvelope (Some (JNum 1))
                    (textContent (JSON_stringify_pretty rows)))))
      (internalError (Some (JNum 1))).

(** A tool call without an identifier. *)
Definition demoNotification : string :=
  Node.q "{'jsonrpc':'2.0','method':'tools/call','params':{'name':'query','arguments':{'sql':'select 1'}}}".

Definition demoNotificationValue : json :=
  JObj [("jsonrpc", JStr "2.0"); ("method", JStr "tools/call");
        ("params", JObj [("name", JStr "query");
                         ("arguments", JObj [("sql", JStr "select 1")])])].

(** The same with an identifier of [null] and another tool. *)
Definition demoNullId : string :=
  Node.q "{'jsonrpc':'2.0','id':null,'method':'tools/call','params':{'name':'describe_table','arguments':{'table':'t'}}}".

Definition demoNullIdValue : json :=
  JObj [("jsonrpc", JStr "2.0"); ("id", JNull); ("method", JStr "tools/call");
        ("params", JObj [("name", JStr "describe_table");
                         ("arguments", JObj [("table", JStr "t")])])].







Definition demoList : string :=
  Node.q "{'jsonrpc':'2.0','id':3,'method':'tools/list'}".

Definition demoListValue : json :=
  JObj [("jsonrpc", JStr "2.0"); ("id", JNum 3); ("method", JStr "tools/list")].

End Demo.

(* ================================================================== *)
(** ** A sample deployment

    An environment, a start, some lines and some answers of the
    database, for the concrete runs at the end. *)

Module Samples.
Import Executor Dispatcher Server.
#[local] Existing Instance Node.runtime.

Definition sampleEnv : Config.env :=
  Config.envOf [("DB_HOST", "db.local"); ("DB_PORT", "3307");
                ("DB_USER", "app"); ("DB_DATABASE", "shop");
                ("DB_QUERY_TIMEOUT", "30s")].

Definition sampleConfig : Config.dbConfig :=
  Config.mkConfig (Some "db.local") 3307 (Some "app") EmptyString
                  (Some "shop") "utf8mb4".

(** The connectivity test succeeds on connection 3. *)
Definition sampleStart : list Startup.event :=
  [Startup.TestConnSettled (Return 3%nat);
   Startup.TestQuerySettled (Return tt)].

Definition sampleServing : Startup.state :=
  Eval vm_compute in
    match Startup.run (Startup.start sampleEnv) sampleStart with
    | Some s => s
    | None => Startup.start sampleEnv
    end.

(** The statement settles after the timer has fired. *)
Definition sampleOvertaken : state :=
  Eval vm_compute in Demo.stateAfter "select sleep(60)" Demo.demoOvertaking.

(** The whole deadline: the timer fires, the kill command goes through. *)
Definition sampleKill : list event :=
  (Demo.demoAcquire
   ++ [TimerFired; KillConnSettled (Return 8%nat); KillSettled (Return tt)])%list.

Definition sampleKilled : state :=
  Eval vm_compute in Demo.stateAfter "select sleep(60)" sampleKill.

(** A [query] call without [sql]. *)
Definition sampleNoSql : state :=
  Eval vm_compute in
    match Executor.run (executeWithTimeout 30000 None) Demo.demoAcquire with
    | Some s => s
    | None => executeWithTimeout 30000 None
    end.

Definition sampleQueryArgs : json := JObj [("sql", JStr "select sleep(60)")].

Definition sampleQueryParams : json :=
  JObj [("name", JStr "query"); ("arguments", sampleQueryArgs)].

Definition sampleQueryValue : json :=
  JObj [("jsonrpc", JStr "2.0"); ("id", JNum 1); ("method", JStr "tools/call");
        ("params", sampleQueryParams)].





Definition sampleListTables : string :=
  Node.q "{'jsonrpc':'2.0','id':5,'method':'tools/call','params':{'name':'list_tables'}}".

Definition sampleListTablesParams : json := JObj [("name", JStr "list_tables")].

Definition sampleListTablesValue : json :=
  JObj [("jsonrpc", JStr "2.0"); ("id", JNum 5); ("method", JStr "tools/call");
        ("params", sampleListTablesParams)].



Definition sampleNoArguments : string :=
  Node.q "{'jsonrpc':'2.0','id':7,'method':'tools/call','params':{'name':'query'}}".

Definition sampleNoArgumentsParams : json := JObj [("name", JStr "query")].

Definition sampleNoArgumentsValue : json :=
  JObj [("jsonrpc", JStr "2.0"); ("id", JNum 7); ("method", JStr "tools/call");
        ("params", sampleNoArgumentsParams)].

(** A session: a query, a notification and a listing while the query
    runs, the answers of the database to the query, a line that is not
    JSON. *)
Definition sampleInputs : list input :=
  [Line Demo.demoQuery; Line Demo.demoNotification; Line Demo.demoList;
   Db 0 (ConnSettled (Return 7%nat));
   Db 0 (IdSettled (Return [JObj [("id", JNum 42)]]));
   Db 0 (QuerySettled (Return Demo.demoRows));
   Line "{oops"].

Definition sampleServer : server :=
  match Server.run (Server.main 30000) sampleInputs with
  | Some sv => sv
  | None => Server.main 30000
  end.

(** The first call of the session. *)
Definition sampleCall : call :=
  nth 0 (calls sampleServer)
      (mkCall (executeWithTimeout 30000 None) (fun _ => Ret None)).

(** A session that ends on the line [null]. *)
Definition sampleEnding : list input := [Line Demo.demoList; Line "null"].

Definition sampleEnded : server :=
  match Server.run (Server.main 30000) sampleEnding with
  | Some sv => sv
  | None => Server.main 30000
  end.

(** The same environment with a password. *)
Definition sampleEnvSecret : Config.env :=
  fun name =>
    if String.eqb name "DB_PASSWORD" then Some "hunter2" else sampleEnv name.

(** The older script fails to connect. *)
Definition sampleRefused : list Legacy.event :=
  [Legacy.ConnectionSettled (Throw (Error "Access denied for user 'app'"))].

(** The input is closed while a query is under way. *)
Definition sampleShutdown : list Shutdown.input :=
  [Shutdown.Serve (Line Demo.demoList);
   Shutdown.Serve (Line Demo.demoQuery);
   Shutdown.Serve (Db 0 (ConnSettled (Return 7%nat)));
   Shutdown.Close;
   Shutdown.PoolEndSettled (Return tt)].

Definition sampleClosed : Shutdown.process :=
  match Shutdown.run (Shutdown.start 30000) sampleShutdown with
  | Some p => p
  | None => Shutdown.start 30000
  end.

End Samples.

(* ================================================================== *)
(** * Properties *)

(** ** Strings and the statement rewriting *)

Section Rewriting.

Lemma append_assoc (a b c : string) : (a ++ b) ++ c = a ++ b ++ c.
Proof.
  induction a as [|x a IH]; simpl; [reflexivity | now rewrite IH].
Qed.

Lemma toUpperCase_app (a b : string) :
  toUpperCase (a ++ b) = toUpperCase a ++ toUpperCase b.
Proof.
  induction a as [|c a IH]; simpl; [reflexivity | now rewrite IH].
Qed.

Lemma prefix_app (p rest : string) : String.prefix p (p ++ rest) = true.
Proof.
  induction p as [|c p IH]; simpl; [now destruct rest|].
  destruct (ascii_dec c c) as [_|Hne]; [exact IH | now elim Hne].
Qed.

(** The test of the [if] and the regular expression of the [replace]
    accept the same keyword. *)
Lemma match_prefix_i_app (pat kw rest : string) :
  toUpperCase kw = toUpperCase pat ->
  match_prefix_i pat (kw ++ rest) = Some rest.
Proof.
  revert kw; induction pat as [|p pat IH]; intros [|c kw] H; simpl in *;
    try discriminate; [reflexivity|].
  injection H as Hc Hkw.
  rewrite Hc, Ascii.eqb_refl.
  now apply IH.
Qed.

Lemma prefix_upper_split (p t : string) :
  String.prefix p (toUpperCase t) = true ->
  exists kw rest,
    t = kw ++ rest /\ String.length kw = String.length p /\ toUpperCase kw = p.
Proof.
  revert t; induction p as [|a p IH]; intros t H.
  - exists "", t; repeat split.
  - destruct t as [|c t]; simpl in H; [discriminate|].
    destruct (ascii_dec a (upper_char c)) as [Ha|]; [|discriminate].
    destruct (IH t H) as (kw & rest & Ht & Hlen & Hup).
    exists (String c kw), rest; simpl; repeat split; congruence.
Qed.

Lemma trimStart_all_white_bounded (n : nat) (s : string) :
  (String.length s <= n)%nat -> all_white s = true -> trimStart s = "".
Proof.
  revert s; induction n as [|n IH]; intros s Hlen.
  - destruct s; [reflexivity | simpl in Hlen; lia].
  - destruct s as [|a r1]; [reflexivity|].
    cbn [trimStart all_white]; simpl in Hlen.
    destruct (whiteLen (String a r1)) as [|[|[|[|k]]]]; try discriminate.
    + apply IH; lia.
    + destruct r1 as [|b r2]; [discriminate|]. simpl in Hlen; apply IH; lia.
    + destruct r1 as [|b [|c r3]]; try discriminate.
      simpl in Hlen; apply IH; lia.
Qed.

Lemma trimStart_all_white (s : string) :
  all_white s = true -> trimStart s = "".
Proof. apply (trimStart_all_white_bounded (String.length s)); lia. Qed.

Lemma trim_all_white (s : string) : all_white s = true -> trim s = "".
Proof.
  intros H; unfold trim; now rewrite (trimStart_all_white s H).
Qed.

(** The rewriting, case by case. *)
Lemma executeSql_select (queryTimeout : Z) (sql kw rest : string) :
  trim sql = kw ++ rest ->
  toUpperCase kw = "SELECT" ->
  executeSql queryTimeout sql = "SELECT" ++ hint queryTimeout ++ rest.
Proof.
  intros Htrim Hkw; unfold executeSql, startsWith, replace_prefix_i.
  rewrite Htrim, toUpperCase_app, Hkw, prefix_app.
  now rewrite (match_prefix_i_app "SELECT" kw rest Hkw).
Qed.

Lemma executeSql_other (queryTimeout : Z) (sql : string) :
  startsWith (toUpperCase (trim sql)) "SELECT" = false ->
  executeSql queryTimeout sql = trim sql.
Proof.
  intros H; unfold executeSql; now rewrite H.
Qed.

Lemma executeSql_cases (queryTimeout : Z) (sql : string) :
  (exists kw rest,
      trim sql = kw ++ rest /\ String.length kw = 6%nat
      /\ toUpperCase kw = "SELECT"
      /\ executeSql queryTimeout sql = "SELECT" ++ hint queryTimeout ++ rest)
  \/ (startsWith (toUpperCase (trim sql)) "SELECT" = false
      /\ executeSql queryTimeout sql = trim sql).
Proof.
  destruct (startsWith (toUpperCase (trim sql)) "SELECT") eqn:H.
  - left. destruct (prefix_upper_split _ _ H) as (kw & rest & Ht & Hlen & Hup).
    exists kw, rest; repeat split; try assumption.
    now apply executeSql_select with kw.
  - right; split; [reflexivity | now apply executeSql_other].
Qed.

End Rewriting.

(** ** The executor: reachable states *)

Module ExecutorFacts.
Import Executor.

Lemma run_app (s : state) (a b : list event) :
  run s (a ++ b) = match run s a with Some m => run m b | None => None end.
Proof.
  revert s; induction a as [|e a IH]; intros s; simpl; [reflexivity|].
  destruct (step s e); [apply IH | reflexivity].
Qed.

(** Induction over the turns of a call. *)
Lemma run_invariant (P : state -> Prop) :
  (forall s e s', P s -> step s e = Some s' -> P s') ->
  forall events s s', P s -> run s events = Some s' -> P s'.
Proof.
  intros Hstep; induction events as [|e events IH]; intros s s' Hs Hrun;
    simpl in Hrun.
  - now injection Hrun as <-.
  - destruct (step s e) as [m|] eqn:He; [|discriminate].
    exact (IH m s' (Hstep s e m Hs He) Hrun).
Qed.

Lemma wf_start (queryTimeout0 : Z) (sql0 : option json) :
  wf queryTimeout0 sql0 (executeWithTimeout queryTimeout0 sql0).
Proof. repeat split. Qed.

Lemma wf_step (queryTimeout0 : Z) (sql0 : option json) (s s' : state) (e : event) :
  wf queryTimeout0 sql0 s -> step s e = Some s' -> wf queryTimeout0 sql0 s'.
Proof.
  unfold wf; intros Hwf H; step_inv s H.
  all: try (intuition congruence).
  all: destruct Hwf as (? & <- & ?); intuition eauto.
Qed.

Lemma wf_run (queryTimeout0 : Z) (sql0 : option json) (events : list event)
      (s : state) :
  run (executeWithTimeout queryTimeout0 sql0) events = Some s ->
  wf queryTimeout0 sql0 s.
Proof.
  apply run_invariant with (P := wf queryTimeout0 sql0).
  - intros; eapply wf_step; eauto.
  - apply wf_start.
Qed.

(** An invariant may rely on [wf]. *)
Lemma run_invariant_wf (queryTimeout0 : Z) (sql0 : option json)
      (P : state -> Prop) :
  P (executeWithTimeout queryTimeout0 sql0) ->
  (forall s e s', wf queryTimeout0 sql0 s -> P s -> step s e = Some s' -> P s') ->
  forall events s,
    run (executeWithTimeout queryTimeout0 sql0) events = Some s -> P s.
Proof.
  intros H0 Hstep events s Hrun.
  enough (wf queryTimeout0 sql0 s /\ P s) as [_ H] by exact H.
  revert Hrun.
  apply run_invariant with (P := fun s => wf queryTimeout0 sql0 s /\ P s).
  - intros s1 e s2 [Hwf HP] He; split; [eapply wf_step | eapply Hstep]; eauto.
  - split; [apply wf_start | exact H0].
Qed.

Lemma released_once_step (s s' : state) (e : event) :
  released_once s -> step s e = Some s' -> released_once s'.
Proof.
  unfold released_once, actions_of; intros Hinv H; step_inv s H.
  all: rewrite ?filter_app, ?map_app, ?filter_app in *; cbn [filter map fst snd actor_eqb is_release app] in *.
  all: rewrite ?app_nil_r in *; try assumption.
  all: try (eexists; split; [| reflexivity || (symmetry; apply app_nil_r)];
            rewrite ?filter_app, ?Hinv; reflexivity).
Qed.

Lemma released_once_run (queryTimeout0 : Z) (sql0 : option json)
      (events : list event) (s : state) :
  run (executeWithTimeout queryTimeout0 sql0) events = Some s ->
  released_once s.
Proof.
  apply run_invariant with (P := released_once).
  - intros; eapply released_once_step; eauto.
  - reflexivity.
Qed.

(** The variable [conn] holds the connection the pool answered with. *)
Lemma conn_var_run (queryTimeout0 : Z) (sql0 : option json) (c : conn)
      (events : list event) (s : state) :
  run (executeWithTimeout queryTimeout0 sql0) (ConnSettled (Return c) :: events)
  = Some s ->
  conn_var s = Some c.
Proof.
  cbn [run step executeWithTimeout pc]; intros Hrun.
  enough (conn_var s = Some c /\ pc s <> AwaitConn) as [H _] by exact H.
  revert Hrun; apply run_invariant
    with (P := fun s => conn_var s = Some c /\ pc s <> AwaitConn).
  - intros s1 e s2 [Hc Hpc] H; step_inv s1 H; split; congruence.
  - split; [reflexivity | discriminate].
Qed.

Lemma executed_once_run (queryTimeout0 : Z) (sql0 : option json)
      (events : list event) (s : state) :
  run (executeWithTimeout queryTimeout0 sql0) events = Some s ->
  executed_once queryTimeout0 sql0 s.
Proof.
  apply run_invariant_wf; [reflexivity|].
  unfold executed_once, executed, actions_of, wf.
  intros s1 e s2 Hwf Hinv H; step_inv s1 H.
  all: rewrite ?filter_app, ?map_app, ?flat_map_app in *;
    cbn [filter map fst snd actor_eqb app flat_map] in *;
    rewrite ?app_nil_r in *.
  all: decompose [and ex] Hwf; clear Hwf; subst;
    try contradiction; try discriminate; try congruence.
  all: cbn [flat_map app] in *; rewrite ?Hinv; try reflexivity.
  all: simpl; congruence.
Qed.

(** The timer callback releases nothing before it is done. *)
Lemma deadline_holds_run (queryTimeout0 : Z) (sql0 : option json)
      (events : list event) (s : state) :
  run (executeWithTimeout queryTimeout0 sql0) events = Some s ->
  timer s <> Rejected ->
  filter is_release (actions_of Deadline s) = [].
Proof.
  intros Hrun; pattern s.
  eapply run_invariant_wf; [ | | exact Hrun]; cbv beta; [reflexivity|].
  unfold actions_of, wf; intros s1 e s2 Hwf Hinv H; step_inv s1 H.
  all: rewrite ?filter_app, ?map_app, ?filter_app in *;
    cbn [filter map fst snd actor_eqb is_release app] in *;
    rewrite ?app_nil_r in *.
  all: intros Hne; try (now elim Hne).
  all: apply Hinv; try assumption; try discriminate.
  all: decompose [and ex] Hwf; subst; discriminate.
Qed.

(** The turn in which the kill command settles: the callback releases
    the kill connection if the command succeeded, and is done. *)
Lemma kill_settled_step (s s' : state) (killConn : conn) (r : completion unit) :
  timer s = KillAwaitQuery killConn ->
  step s (KillSettled r) = Some s' ->
  timer s' = Rejected
  /\ actions_of Deadline s'
     = (actions_of Deadline s
        ++ match r with Return _ => [Release killConn] | Throw _ => [] end)%list.
Proof.
  unfold actions_of; intros Ht H; step_inv s H; try discriminate.
  all: injection Ht as ->.
  all: rewrite ?filter_app, ?map_app in *;
    cbn [filter map fst snd actor_eqb app] in *;
    rewrite ?app_nil_r in *; split; reflexivity.
Qed.

(** Once the callback is done and the call has settled, no turn is left. *)
Lemma quiescent (queryTimeout0 : Z) (sql0 : option json) (s : state) (e : event) :
  wf queryTimeout0 sql0 s -> timer s = Rejected -> step s e = None.
Proof.
  unfold wf, step; intros (_ & _ & Hpc) Ht; rewrite Ht in *.
  destruct e, (pc s); try reflexivity; intuition discriminate.
Qed.

Lemma quiescent_run (queryTimeout0 : Z) (sql0 : option json) (s s' : state)
      (events : list event) :
  wf queryTimeout0 sql0 s -> timer s = Rejected ->
  run s events = Some s' -> events = [] /\ s' = s.
Proof.
  intros Hwf Ht; destruct events as [|e events]; simpl.
  - intros H; injection H as <-; split; reflexivity.
  - now rewrite (quiescent _ _ s e Hwf Ht).
Qed.

(** [connId] is the [id] of the first row of the answer to line 85. *)
Lemma connId_run (queryTimeout0 : Z) (sql0 : option json) (c : conn)
      (row : json) (rows : list json) (events : list event) (s : state) :
  run (executeWithTimeout queryTimeout0 sql0)
      (ConnSettled (Return c) :: IdSettled (Return (row :: rows)) :: events)
  = Some s ->
  timer s = Unset \/ connId s = getProp row "id".
Proof.
  intros Hrun.
  change (run (executeWithTimeout queryTimeout0 sql0)
            ([ConnSettled (Return c); IdSettled (Return (row :: rows))]
             ++ events)%list = Some s) in Hrun.
  rewrite run_app in Hrun.
  destruct (run _ [_; _]) as [mid|] eqn:Hmid; [|discriminate].
  enough ((timer s = Unset \/ connId s = getProp row "id")
          /\ pc s <> AwaitConn /\ pc s <> AwaitId) as [H _] by exact H.
  refine (run_invariant
            (fun s => (timer s = Unset \/ connId s = getProp row "id")
                      /\ pc s <> AwaitConn /\ pc s <> AwaitId)
            _ events mid s _ Hrun).
  - intros s1 e s2 (Hc & Hp1 & Hp2) H; step_inv s1 H;
      try congruence; repeat split; try discriminate;
      destruct Hc as [Hc|Hc]; try discriminate; auto.
  - cbn [run step executeWithTimeout pc conn_var set_pc emit set_conn] in Hmid.
    destruct row; injection Hmid as <-;
      unfold armAndExecute, settle, finally, clearTimer;
      cbn [pc timer conn_var connId queryTimeout sql log
           set_pc set_timer set_conn set_connId emit];
      destruct sql0 as [[]|];
      cbn [pc timer conn_var connId queryTimeout sql log
           set_pc set_timer set_conn set_connId emit];
      repeat split; auto; discriminate.
Qed.

End ExecutorFacts.

(** ** The dispatcher *)

Module DispatcherFacts.
Import Dispatcher.

Section WithRuntime.
Context {rt : Runtime}.

Lemma internalError_request (id : option json) (error : exn) :
  nullish id = false ->
  internalError id error
  = Ret (Some (errorEnvelope id (-32603) (message error))).
Proof. intros H; unfold internalError; now rewrite H. Qed.

Lemma handleRequest_parse_error (line : string) :
  JSON_parse line = None ->
  handleRequest line
  = Ret (Some (errorEnvelope (Some JNull) (-32700) "Parse error")).
Proof. intros H; unfold handleRequest; now rewrite H. Qed.

(** An envelope without an identifier is answered by nothing: the body
    returns [null] before the [switch] on the method, or, for the text
    [null], throws before it. *)
Lemma handleRequest_notification (line : string) (v : json) :
  JSON_parse line = Some v ->
  nullish (getProp v "id") = true ->
  (v <> JNull /\ handleRequest line = Ret None)
  \/ (v = JNull /\ exists msg, handleRequest line = Raise (TypeError msg)).
Proof.
  intros Hparse Hid; unfold handleRequest; rewrite Hparse.
  destruct v; try (left; split; [discriminate|];
                   rewrite Hid; unfold notification;
                   destruct (_ || _); reflexivity).
  right; split; [reflexivity | eexists; reflexivity].
Qed.

Lemma handleRequest_request (line : string) (v : json) :
  JSON_parse line = Some v ->
  nullish (getProp v "id") = false ->
  handleRequest line
  = tryCatch (dispatch (getProp v "id") (getProp v "method") (getProp v "params"))
             (internalError (getProp v "id")).
Proof.
  intros Hparse Hid; unfold handleRequest; rewrite Hparse.
  destruct v; try discriminate.
  rewrite Hid; reflexivity.
Qed.

(** A request is suspended on [executeWithTimeout] only inside
    [tools/call], and whatever the call throws comes back as an error
    envelope with code -32603 and the message of the error. *)
Lemma handleRequest_await (line : string) (sql : option json)
      (k : completion json -> async (option json)) :
  handleRequest line = Await sql k ->
  exists v,
    JSON_parse line = Some v
    /\ nullish (getProp v "id") = false
    /\ strictEqStr (getProp v "method") "tools/call" = true
    /\ forall error,
         k (Throw error) = internalError (getProp v "id") error.
Proof.
  destruct (JSON_parse line) as [v|] eqn:Hparse;
    [|rewrite (handleRequest_parse_error line Hparse); discriminate].
  destruct (nullish (getProp v "id")) eqn:Hid.
  - destruct (handleRequest_notification line v Hparse Hid)
      as [(_ & ->) | (_ & msg & ->)]; discriminate.
  - rewrite (handleRequest_request line v Hparse Hid).
    intros H; exists v; repeat split; auto.
    + revert H; unfold dispatch.
      destruct (strictEqStr (getProp v "method") "initialize"); [discriminate|].
      destruct (strictEqStr (getProp v "method") "tools/list"); [discriminate|].
      destruct (strictEqStr (getProp v "method") "tools/call"); [reflexivity|].
      rewrite Hid; unfold interpolate; destruct (stringableU _);
        cbn [negb bind tryCatch]; rewrite ?(internalError_request _ _ Hid);
        discriminate.
    + revert H; unfold dispatch.
      destruct (strictEqStr (getProp v "method") "initialize"); [discriminate|].
      destruct (strictEqStr (getProp v "method") "tools/list"); [discriminate|].
      destruct (strictEqStr (getProp v "method") "tools/call");
        [|rewrite Hid; unfold interpolate; destruct (stringableU _);
          cbn [negb bind tryCatch]; rewrite ?(internalError_request _ _ Hid);
          discriminate].
      unfold toolsCall, member, interpolate.
      destruct (getProp v "params") as [[]|].
      all: repeat match goal with
                  | |- context [if ?c then _ else _] => destruct c
                  end.
      all: try destruct (getProp _ "arguments") as [[]|].
      all: repeat (cbn [bind tryCatch awaitExecute];
                   match goal with
                   | |- context [if ?c then _ else _] => destruct c
                   end).
      all: cbn [bind tryCatch awaitExecute];
        rewrite ?(internalError_request _ _ Hid); try discriminate.
      all: intros H; injection H as _ <-; intros error; reflexivity.
Qed.

End WithRuntime.
End DispatcherFacts.

(* ================================================================== *)
(** * The properties of the specification *)

Section ExecutorClaims.
Import Executor ExecutorFacts.

Lemma filter_release_nil (c : conn) (l : list action) :
  filter is_release l = [] -> filter (action_eqb (Release c)) l = [].
Proof.
  induction l as [|a l IH]; simpl; [reflexivity|].
  destruct a; simpl; try (exact IH); discriminate.
Qed.

(** C2.  Once the pool has answered line 82 with a connection [c], the
    body of [executeWithTimeout] has released [c] no time while the call
    is in progress and exactly one time once the call has settled,
    whichever way it settled (rows, an error of the database, the error
    of the deadline, a [TypeError]); that release is the last thing the
    body does, the [finally] of line 126. *)
Theorem connection_released_exactly_once
        (queryTimeout : Z) (sql : option json) (c : conn)
        (events : list event) (s : state) :
  run (executeWithTimeout queryTimeout sql) (ConnSettled (Return c) :: events)
  = Some s ->
  conn_var s = Some c
  /\ (settled s = false -> releases Main c s = 0%nat)
  /\ (settled s = true ->
      releases Main c s = 1%nat
      /\ exists before, actions_of Main s = (before ++ [Release c])%list).
Proof.
  intros Hrun.
  pose proof (conn_var_run _ _ _ _ _ Hrun) as Hc.
  pose proof (released_once_run _ _ _ _ Hrun) as Hrel.
  unfold released_once, releases, settled in *; rewrite Hc in Hrel.
  split; [exact Hc|].
  destruct (pc s); split; try discriminate; intros _;
    try (now rewrite (filter_release_nil c _ Hrel)).
  destruct Hrel as (before & Hb & ->); split; [|now exists before].
  rewrite filter_app, (filter_release_nil c _ Hb); simpl.
  now rewrite Nat.eqb_refl.
Qed.

(** C3, as the code has it.  With the timeout [loadDbConfig] stored
    (the configured seconds times 1000, within the range in which a
    number is exact), the one text [executeWithTimeout] hands to
    [conn.execute] for the statement [sql] is made from the statement
    with the white space at both ends removed: when that trimmed
    statement starts with the six letters of SELECT in any case, the
    text is SELECT in upper case in place of those letters, the hint
    with the milliseconds in decimal, and the rest of the trimmed
    statement; when it does not, the text is the trimmed statement,
    without a hint. *)
Theorem select_gets_execution_time_hint
        (parsed : option Z) (sql : string) (events : list event) (s : state) :
  Z.abs (timeoutSeconds parsed * 1000) <= Config.maxSafeInteger ->
  run (executeWithTimeout (loadDbConfig_queryTimeout parsed) (Some (JStr sql)))
      events = Some s ->
  let text := executeSql (loadDbConfig_queryTimeout parsed) sql in
  (pc s = AwaitRace -> executed s = [text])
  /\ (forall t, In t (executed s) -> t = text)
  /\ (forall kw rest,
        trim sql = kw ++ rest -> toUpperCase kw = "SELECT" ->
        text = "SELECT" ++ " /*+ MAX_EXECUTION_TIME("
                 ++ NilZero.string_of_int (Z.to_int (timeoutSeconds parsed * 1000))
                 ++ ") */" ++ rest)
  /\ ((forall kw rest, trim sql = kw ++ rest -> toUpperCase kw <> "SELECT") ->
      text = trim sql).
Proof.
  intros _ Hrun text.
  pose proof (executed_once_run _ _ _ _ Hrun) as Hex.
  pose proof (wf_run _ _ _ _ Hrun) as (_ & _ & Hwf).
  unfold executed_once in Hex.
  repeat split.
  - intros Hpc; rewrite Hpc in Hwf; rewrite Hex.
    destruct (timer s); tauto.
  - intros t; rewrite Hex.
    destruct (timer s); simpl; intuition.
  - intros kw rest Htrim Hkw; subst text.
    rewrite (executeSql_select _ sql kw rest Htrim Hkw).
    unfold hint, loadDbConfig_queryTimeout, string_of_Z; cbn [append].
    now rewrite append_assoc.
  - intros Hnot.
    destruct (executeSql_cases (loadDbConfig_queryTimeout parsed) sql)
      as [(kw & rest & Ht & _ & Hkw & _) | [_ H]]; [|exact H].
    now elim (Hnot kw rest Ht).
Qed.

(** C6, as the code has it.  A statement that is empty or all
    whitespace reaches the database as the empty text, which is the
    statement after [trim()]: nothing checks it, the call goes on to
    [conn.execute], and no hint is added.  For every statement, the text
    executed is the trimmed statement, or, decided by its first six
    characters alone, SELECT, the hint and the rest of it. *)
Theorem blank_statement_executed_trimmed
        (queryTimeout : Z) (sql : string) (c : conn) (row : json)
        (rows : list json) :
  all_white sql = true ->
  row <> JNull ->
  executeSql queryTimeout sql = ""
  /\ (exists s,
        run (executeWithTimeout queryTimeout (Some (JStr sql)))
            [ConnSettled (Return c); IdSettled (Return (row :: rows))] = Some s
        /\ pc s = AwaitRace
        /\ actions_of Main s
           = [GetConnection; Query c "SELECT CONNECTION_ID() as id";
              SetTimeout queryTimeout; Execute c ""])
  /\ (forall events s,
        run (executeWithTimeout queryTimeout (Some (JStr sql))) events = Some s ->
        forall t, In t (executed s) -> t = "")
  /\ (forall other,
        executeSql queryTimeout other = trim other
        \/ exists kw rest,
             trim other = kw ++ rest /\ String.length kw = 6%nat
             /\ toUpperCase kw = "SELECT"
             /\ executeSql queryTimeout other
                = "SELECT" ++ hint queryTimeout ++ rest).
Proof.
  intros Hwhite Hrow.
  assert (Hsql : executeSql queryTimeout sql = "").
  { unfold executeSql; now rewrite (trim_all_white sql Hwhite). }
  repeat split.
  - exact Hsql.
  - eexists; split; [|split].
    + cbn [run step executeWithTimeout pc conn_var set_pc emit set_conn].
      destruct row; try congruence; reflexivity.
    + reflexivity.
    + unfold armAndExecute, actions_of; simpl. now rewrite Hsql.
  - intros events s Hrun t.
    pose proof (executed_once_run _ _ _ _ Hrun) as Hex.
    unfold executed_once in Hex; rewrite Hex, Hsql.
    destruct (timer s); simpl; intuition.
  - intros other.
    destruct (executeSql_cases queryTimeout other)
      as [(kw & rest & H) | [_ H]]; [right; now exists kw, rest | now left].
Qed.

(** C10.  When the kill command settles on a kill connection that was
    acquired before, the timer callback releases that connection if the
    command succeeded and releases nothing if the command failed; no
    turn is left after that one, so a kill connection whose command
    failed is never released.  The error of the command is not the
    outcome of the call: a call that had settled keeps its outcome, one
    that was still waiting fails with the error of the deadline. *)
Theorem kill_connection_released_only_on_success
        (queryTimeout : Z) (sql : option json) (before after : list event)
        (mid s : state) (killConn : conn) (r : completion unit) :
  run (executeWithTimeout queryTimeout sql) before = Some mid ->
  timer mid = KillAwaitQuery killConn ->
  run mid (KillSettled r :: after) = Some s ->
  after = []
  /\ filter is_release (actions_of Deadline s)
     = match r with
       | Return _ => [Release killConn]
       | Throw _ => []
       end
  /\ outcome s
     = match outcome mid with
       | Some settledBefore => Some settledBefore
       | None => Some (Throw (Error (timeoutMessage queryTimeout)))
       end.
Proof.
  intros Hmid Ht Hrun; cbn [run] in Hrun.
  destruct (step mid (KillSettled r)) as [s1|] eqn:Hstep; [|discriminate].
  pose proof (wf_run _ _ _ _ Hmid) as Hwf.
  pose proof (wf_step _ _ _ _ _ Hwf Hstep) as Hwf1.
  destruct (kill_settled_step _ _ _ _ Ht Hstep) as [Ht1 Hact].
  destruct (quiescent_run _ _ _ _ _ Hwf1 Ht1 Hrun) as [-> ->].
  split; [reflexivity|]; split.
  - assert (Hne : timer mid <> Rejected) by (rewrite Ht; discriminate).
    rewrite Hact, filter_app, (deadline_holds_run _ _ _ _ Hmid Hne).
    now destruct r.
  - clear Hact Hrun Hwf1 Ht1. unfold wf, outcome in *.
    step_inv mid Hstep; try discriminate; try reflexivity;
      decompose [and ex] Hwf; subst; try reflexivity; try discriminate;
      contradiction.
Qed.

End ExecutorClaims.

Section DispatcherClaims.
Import Executor ExecutorFacts Dispatcher DispatcherFacts.
Context {rt : Runtime}.

Lemma timeoutMessage_seconds (parsed : option Z) :
  timeoutMessage (loadDbConfig_queryTimeout parsed)
  = "查询超时：查询执行超过 " ++ string_of_Z (timeoutSeconds parsed)
      ++ " 秒未响应，已自动终止。请重新尝试执行！".
Proof.
  unfold timeoutMessage, loadDbConfig_queryTimeout.
  now rewrite Z.div_mul by discriminate.
Qed.

Lemma nullish_false (v : option json) :
  nullish v = false -> exists w, v = Some w /\ w <> JNull.
Proof.
  destruct v as [[]|]; try discriminate; intros _; eexists; split;
    try reflexivity; discriminate.
Qed.

(** C1, as the code has it.  For a tool call of a request (an envelope
    with an identifier) and the timeout [loadDbConfig] stored:
    - the timer fires only while the statement is pending, and the
      callback then asks the pool for a connection of its own;
    - when that connection arrives the callback sends
      [KILL QUERY <connId>] on it, [connId] being the [id] of the first
      row the borrowed connection answered line 85 with;
    - when the kill step is over (no connection, or the command settled,
      well or with an error) and the statement is still pending, the call
      fails with the error of line 100, whose message has the configured
      seconds and asks to try again, and the line handler prints the
      error envelope with code -32603 and that message.
    A statement that settles while the call is pending, also while the
    kill step is under way, decides the call with its own rows or
    error. *)
Theorem deadline_kills_then_fails
        (parsed : option Z) (line : string) (sql : option json)
        (k : completion json -> async (option json))
        (events : list event) (s : state) :
  let timeoutError :=
    Error ("查询超时：查询执行超过 " ++ string_of_Z (timeoutSeconds parsed)
             ++ " 秒未响应，已自动终止。请重新尝试执行！") in
  handleRequest line = Await sql k ->
  run (executeWithTimeout (loadDbConfig_queryTimeout parsed) sql) events
  = Some s ->
  (forall s',
      step s TimerFired = Some s' ->
      pc s = AwaitRace
      /\ log s' = (log s ++ [(Deadline, GetConnection)])%list)
  /\ (forall killConn s',
        step s (KillConnSettled (Return killConn)) = Some s' ->
        log s' = (log s ++ [(Deadline,
                             Query killConn
                                   ("KILL QUERY " ++ toStrU (connId s)))])%list
        /\ pc s' = pc s
        /\ forall c row rows rest,
             events = ConnSettled (Return c)
                        :: IdSettled (Return (row :: rows)) :: rest ->
             connId s = getProp row "id")
  /\ (forall e s',
        pc s = AwaitRace -> killStepOver e = true -> step s e = Some s' ->
        outcome s' = Some (Throw timeoutError)
        /\ exists v id,
             JSON_parse line = Some v /\ getProp v "id" = Some id
             /\ id <> JNull
             /\ forall sv i,
                  Server.exited sv = None ->
                  nth_error (Server.calls sv) i = Some (Server.mkCall s k) ->
                  exists sv',
                    Server.step sv (Server.Db i e) = Some sv'
                    /\ Server.stdout sv'
                       = (Server.stdout sv
                          ++ [JSON_stringify
                                (JObj [("jsonrpc", JStr "2.0"); ("id", id);
                                       ("error",
                                         JObj [("code", JNum (-32603));
                                               ("message",
                                                 JStr (message timeoutError))])])])%list)
  /\ (forall r s', step s (QuerySettled r) = Some s' -> outcome s' = Some r).
Proof.
  intros timeoutError Hreq Hrun.
  pose proof (wf_run _ _ _ _ Hrun) as Hwf.
  split; [|split; [|split]]; cycle 3.
  { intros r s' H; clear Hwf Hrun. now step_inv s H. }
  - intros s' H; unfold wf in Hwf; clear Hrun; step_inv s H.
    destruct Hwf as (_ & _ & Hwf).
    destruct p; split; try reflexivity; try (destruct Hwf; discriminate).
    now elim Hwf.
  - intros killConn s' H; repeat split.
    + clear Hwf Hrun. now step_inv s H.
    + clear Hwf Hrun. now step_inv s H.
    + intros c row rows rest ->.
      destruct (connId_run _ _ _ _ _ _ _ Hrun) as [Hu|Hc]; [|exact Hc].
      unfold step in H; rewrite Hu in H; discriminate.
  - intros e s' Hpc Hover Hstep.
    assert (Hout : pc s' = Settled (Throw timeoutError)).
    { subst timeoutError; rewrite <- timeoutMessage_seconds.
      destruct Hwf as (Hq & _ & _); rewrite <- Hq.
      clear Hrun. destruct e as [| | | |[]|[]]; try discriminate;
        step_inv s Hstep; try discriminate; reflexivity. }
    split; [unfold outcome; now rewrite Hout|].
    destruct (handleRequest_await line sql k Hreq) as (v & Hparse & Hid & _ & Hk).
    destruct (nullish_false _ Hid) as (id & Hidv & Hne).
    exists v, id; repeat split; auto.
    intros sv i Hlive Hnth; eexists; split.
    + unfold Server.step; rewrite Hlive, Hnth; cbn [Server.exec Server.cont].
      rewrite Hstep, Hpc, Hout, Hk, (internalError_request _ _ Hid).
      reflexivity.
    + unfold errorEnvelope; rewrite Hidv; reflexivity.
Qed.

End DispatcherClaims.

Section ServerClaims.
Import Dispatcher DispatcherFacts Server.
Context {rt : Runtime}.


Lemma step_line (sv sv' : server) (line : string) :
  step sv (Line line) = Some sv' ->
  exited sv = None /\ sv' = drive (handleRequest line) sv.
Proof.
  unfold step; destruct (exited sv); [discriminate|].
  intros H; injection H as <-; split; reflexivity.
Qed.

Lemma nullish_some (v : option json) (w : json) :
  v = Some w -> w <> JNull -> nullish v = false.
Proof. intros -> H; destruct w; simpl; congruence. Qed.

(** C4.  A line that parses and carries no identifier (absent or
    [null]) makes the line handler print nothing, whatever its method
    and parameters are, and leaves no call behind that could print
    later: the server is as it was before the line.  The one exception
    is the text [null], for which the handler throws (outside both
    [try] blocks); nothing is printed then either, and the process
    ends. *)
Theorem notification_prints_nothing
        (sv sv' : server) (line : string) (v : json) :
  JSON_parse line = Some v ->
  nullish (getProp v "id") = true ->
  step sv (Line line) = Some sv' ->
  stdout sv' = stdout sv
  /\ calls sv' = calls sv
  /\ (v <> JNull -> sv' = sv)
  /\ (v = JNull -> exited sv' = Some 1).
Proof.
  intros Hparse Hid H; destruct (step_line _ _ _ H) as [_ ->].
  destruct (handleRequest_notification line v Hparse Hid)
    as [(Hv & ->) | (-> & msg & ->)]; repeat split; congruence.
Qed.

(** C5.  A line that is not JSON makes the line handler print one
    line, the envelope with [id] [null], code -32700 and the message
    [Parse error], and nothing else happens. *)
Theorem malformed_line_gets_parse_error
        (sv sv' : server) (line : string) :
  JSON_parse line = None ->
  step sv (Line line) = Some sv' ->
  stdout sv'
  = (stdout sv
     ++ [JSON_stringify
           (JObj [("jsonrpc", JStr "2.0"); ("id", JNull);
                  ("error", JObj [("code", JNum (-32700));
                                  ("message", JStr "Parse error")])])])%list
  /\ calls sv' = calls sv.
Proof.
  intros Hparse H; destruct (step_line _ _ _ H) as [_ ->].
  rewrite (handleRequest_parse_error line Hparse); split; reflexivity.
Qed.


(** C8.  A [tools/list] request with an identifier is answered by one
    line: the envelope with that identifier and, as result, the fixed
    list of the three descriptors [query], [list_tables] and
    [describe_table], each with its description and its input schema
    as lines 214-251 write them.  The server state plays no part, so
    two such requests with the same identifier, at any two moments,
    print the same line. *)
Theorem tools_list_is_static
        (sv sv' : server) (line : string) (v id : json) :
  JSON_parse line = Some v ->
  getProp v "id" = Some id -> id <> JNull ->
  getProp v "method" = Some (JStr "tools/list") ->
  step sv (Line line) = Some sv' ->
  stdout sv'
  = (stdout sv
     ++ [JSON_stringify
           (JObj
              [("jsonrpc", JStr "2.0"); ("id", id);
               ("result",
                 JObj
                   [("tools",
                      JArr
                        [JObj
                           [("name", JStr "query");
                            ("description", JStr "执行 SQL 查询");
                            ("inputSchema",
                              JObj
                                [("type", JStr "object");
                                 ("properties",
                                   JObj
                                     [("sql",
                                        JObj [("type", JStr "string");
                                              ("description",
                                                JStr "SQL 查询语句")])]);
                                 ("required", JArr [JStr "sql"])])];
                         JObj
                           [("name", JStr "list_tables");
                            ("description", JStr "列出所有数据表");
                            ("inputSchema",
                              JObj [("type", JStr "object");
                                    ("properties", JObj [])])];
                         JObj
                           [("name", JStr "describe_table");
                            ("description", JStr "查看表结构");
                            ("inputSchema",
                              JObj
                                [("type", JStr "object");
                                 ("properties",
                                   JObj
                                     [("table",
                                        JObj [("type", JStr "string");
                                              ("description",
                                                JStr "表名")])]);
                                 ("required", JArr [JStr "table"])])]])])])])%list
  /\ calls sv' = calls sv
  /\ map (fun d => getProp d "name") toolDescriptors
     = [Some (JStr "query"); Some (JStr "list_tables");
        Some (JStr "describe_table")]
  /\ forall (other other' : server) (line2 : string) (v2 : json),
       JSON_parse line2 = Some v2 ->
       getProp v2 "id" = Some id ->
       getProp v2 "method" = Some (JStr "tools/list") ->
       step other (Line line2) = Some other' ->
       exists out,
         stdout sv' = (stdout sv ++ [out])%list
         /\ stdout other' = (stdout other ++ [out])%list.
Proof.
  intros Hparse Hid Hne Hm H; destruct (step_line _ _ _ H) as [_ ->].
  assert (Hreq : forall l w,
             JSON_parse l = Some w -> getProp w "id" = Some id ->
             getProp w "method" = Some (JStr "tools/list") ->
             handleRequest l
             = Ret (Some (JObj [("jsonrpc", JStr "2.0"); ("id", id);
                                ("result",
                                  JObj [("tools", JArr toolDescriptors)])]))).
  { intros l w Hl Hi Hmeth.
    rewrite (handleRequest_request l w Hl (nullish_some _ _ Hi Hne)).
    unfold dispatch; rewrite Hmeth, Hi; reflexivity. }
  rewrite (Hreq line v Hparse Hid Hm); repeat split.
  intros other other' line2 v2 Hparse2 Hid2 Hm2 H2.
  destruct (step_line _ _ _ H2) as [_ ->].
  rewrite (Hreq line2 v2 Hparse2 Hid2 Hm2).
  eexists; split; reflexivity.
Qed.

(** C9.  For a line that parses and carries no identifier the body of
    [handleRequest] returns [null] at line 184 or 187, before the
    [switch] on the method (for the text [null] it throws at line 174,
    earlier still): it is never suspended on [executeWithTimeout],
    whatever the method, so the line adds no call and no action on the
    pool or a connection. *)
Theorem notification_never_reaches_executor
        (sv sv' : server) (line : string) (v : json) :
  JSON_parse line = Some v ->
  nullish (getProp v "id") = true ->
  step sv (Line line) = Some sv' ->
  (v <> JNull -> handleRequest line = Ret None)
  /\ (forall sql k, handleRequest line <> Await sql k)
  /\ calls sv' = calls sv
  /\ dbActions sv' = dbActions sv.
Proof.
  intros Hparse Hid H; destruct (step_line _ _ _ H) as [_ ->].
  destruct (handleRequest_notification line v Hparse Hid)
    as [(Hv & ->) | (-> & msg & ->)]; repeat split;
    congruence || discriminate.
Qed.

End ServerClaims.

(* ================================================================== *)
(** * Concrete runs *)

Section Runs.
Import Executor Dispatcher Server Demo.
#[local] Existing Instance Node.runtime.

Example executeSql_lowercase :
  executeSql 30000 "select * from t"
  = "SELECT /*+ MAX_EXECUTION_TIME(30000) */ * from t".
Proof. reflexivity. Qed.

Example executeSql_surrounding_space :
  executeSql 30000 "  SELECT 1 " = "SELECT /*+ MAX_EXECUTION_TIME(30000) */ 1".
Proof. reflexivity. Qed.

Example executeSql_prefix_only :
  executeSql 30000 "selected" = "SELECT /*+ MAX_EXECUTION_TIME(30000) */ed".
Proof. reflexivity. Qed.

Example executeSql_leading_comment :
  executeSql 30000 "/* c */ SELECT 1" = "/* c */ SELECT 1".
Proof. reflexivity. Qed.

Example executeSql_show : executeSql 30000 "SHOW TABLE STATUS" = "SHOW TABLE STATUS".
Proof. reflexivity. Qed.

Example loadDbConfig_default : loadDbConfig_queryTimeout None = 10000.
Proof. reflexivity. Qed.

Example loadDbConfig_zero : loadDbConfig_queryTimeout (Some 0) = 10000.
Proof. reflexivity. Qed.

(** The ways out of a call, each with its release. *)
Example exit_with_rows :
  option_map (actions_of Main)
    (Executor.run (executeWithTimeout 30000 (Some (JStr "SELECT 1")))
                  (demoAcquire ++ [QuerySettled (Return demoRows)]))
  = Some [GetConnection; Query 7%nat "SELECT CONNECTION_ID() as id";
          SetTimeout 30000;
          Execute 7%nat "SELECT /*+ MAX_EXECUTION_TIME(30000) */ 1";
          ClearTimeout; Release 7%nat].
Proof. reflexivity. Qed.

Example exit_with_database_error :
  option_map (fun s => (outcome s, releases Main 7%nat s))
    (Executor.run (executeWithTimeout 30000 (Some (JStr "SELEC 1")))
                  (demoAcquire ++ [QuerySettled (Throw (Error "syntax"))]))
  = Some (Some (Throw (Error "syntax")), 1%nat).
Proof. reflexivity. Qed.

Example exit_with_type_error :
  option_map (fun s => (actions_of Main s, outcome s))
    (Executor.run (executeWithTimeout 30000 None) demoAcquire)
  = Some ([GetConnection; Query 7%nat "SELECT CONNECTION_ID() as id";
           SetTimeout 30000; ClearTimeout; Release 7%nat],
          Some (Throw (TypeError
            "Cannot read properties of undefined (reading 'trim')"))).
Proof. reflexivity. Qed.

Example exit_with_timeout :
  option_map (fun s => (log s, outcome s))
    (Executor.run (executeWithTimeout 30000 (Some (JStr "SELECT 1")))
                  (demoAcquire ++ [TimerFired; KillConnSettled (Return 8%nat);
                                   KillSettled (Return tt)]))
  = Some ([(Main, GetConnection);
           (Main, Query 7%nat "SELECT CONNECTION_ID() as id");
           (Main, SetTimeout 30000);
           (Main, Execute 7%nat "SELECT /*+ MAX_EXECUTION_TIME(30000) */ 1");
           (Deadline, GetConnection);
           (Deadline, Query 8%nat "KILL QUERY 42");
           (Deadline, Release 8%nat);
           (Main, ClearTimeout);
           (Main, Release 7%nat)],
          Some (Throw (Error (timeoutMessage 30000)))).
Proof. reflexivity. Qed.

(** C1 in the wording of the specification fails here: the timer has
    fired, so the statement did not settle before the timeout elapsed;
    the statement then settles while the callback still waits for its
    connection.  The call returns the rows, no [KILL QUERY] has been
    sent, and the request is answered with a result, not an error. *)
Lemma statement_overtakes_deadline :
  In TimerFired demoOvertaking
  /\ option_map outcome (stateOf "select sleep(60)" demoOvertaking)
     = Some (Some (Return demoRows))
  /\ option_map outcome (stateOf "select sleep(60)" demoOvertaking)
     <> Some (Some (Throw (Error (timeoutMessage 30000))))
  /\ option_map (actions_of Deadline)
       (stateOf "select sleep(60)" demoOvertaking)
     = Some [GetConnection]
  /\ option_map Server.stdout
       (Server.run (Server.main 30000)
                   (Line demoQuery :: map (Db 0) demoOvertaking))
     = Some [JSON_stringify
               (resultEnvelope (Some (JNum 1))
                  (textContent (JSON_stringify_pretty demoRows)))].
Proof.
  split; [simpl; tauto|].
  split; [vm_compute; reflexivity|].
  split; [vm_compute; discriminate|].
  split; vm_compute; reflexivity.
Qed.

(** C3 in the wording of the specification fails here.  The hint is
    not inserted into the statement: the keyword is written anew, in
    upper case.  And a statement that starts with a space, not with the
    keyword, gets the hint all the same, since the test is made on the
    trimmed text. *)
Lemma select_hint_rewrites_the_statement :
  option_map executed (stateOf "select 1" demoAcquire)
  = Some ["SELECT /*+ MAX_EXECUTION_TIME(30000) */ 1"]
  /\ option_map executed (stateOf "select 1" demoAcquire)
     <> Some ["select /*+ MAX_EXECUTION_TIME(30000) */ 1"]
  /\ startsWith (toUpperCase " select 1") "SELECT" = false
  /\ option_map executed (stateOf " select 1" demoAcquire)
     = Some ["SELECT /*+ MAX_EXECUTION_TIME(30000) */ 1"]
  /\ option_map executed (stateOf " select 1" demoAcquire)
     <> Some [" select 1"].
Proof.
  split; [vm_compute; reflexivity|].
  split; [vm_compute; discriminate|].
  split; [vm_compute; reflexivity|].
  split; [vm_compute; reflexivity | vm_compute; discriminate].
Qed.


(** C6 in the wording of the specification fails here: three spaces
    reach the database as the empty text. *)
Lemma blank_statement_not_passed_unmodified :
  all_white "   " = true
  /\ option_map executed (stateOf "   " demoAcquire) = Some [""]
  /\ option_map executed (stateOf "   " demoAcquire) <> Some ["   "].
Proof.
  split; [reflexivity|].
  split; [vm_compute; reflexivity | vm_compute; discriminate].
Qed.

(** *** The theorems at these runs *)

Lemma deadline_kills_then_fails_witness :
  handleRequest demoQuery = Await demoSql demoCont
  /\ Executor.run (executeWithTimeout (loadDbConfig_queryTimeout (Some 30)) demoSql)
                  (demoAcquire ++ [TimerFired; KillConnSettled (Return 8%nat)])
     = Some demoKilling
  /\ pc demoKilling = AwaitRace
  /\ Executor.step demoKilling (KillSettled (Throw (Error "gone")))
     = Some demoKillFailed
  /\ outcome demoKillFailed
     = Some (Throw (Error ("查询超时：查询执行超过 " ++ string_of_Z 30
                             ++ " 秒未响应，已自动终止。请重新尝试执行！"))).
Proof.
  assert (Hreq : handleRequest demoQuery = Await demoSql demoCont)
    by reflexivity.
  assert (Hrun : Executor.run
                   (executeWithTimeout (loadDbConfig_queryTimeout (Some 30)) demoSql)
                   (demoAcquire ++ [TimerFired; KillConnSettled (Return 8%nat)])
                 = Some demoKilling) by (vm_compute; reflexivity).
  assert (Hstep : Executor.step demoKilling (KillSettled (Throw (Error "gone")))
                  = Some demoKillFailed) by (vm_compute; reflexivity).
  split; [exact Hreq|]; split; [exact Hrun|]; split; [reflexivity|];
    split; [exact Hstep|].
  pose proof (deadline_kills_then_fails
                (Some 30) demoQuery demoSql demoCont _ _ Hreq Hrun)
    as (_ & _ & Hfail & _).
  exact (proj1 (Hfail (KillSettled (Throw (Error "gone"))) demoKillFailed
                      eq_refl eq_refl Hstep)).
Defined.

Lemma connection_released_exactly_once_witness :
  Executor.run (executeWithTimeout 30000 demoSql)
               (ConnSettled (Return 7%nat)
                  :: [IdSettled (Return [JObj [("id", JNum 42)]]); TimerFired;
                      KillConnSettled (Return 8%nat);
                      KillSettled (Throw (Error "gone"))])
  = Some demoKillFailed
  /\ settled demoKillFailed = true
  /\ releases Main 7%nat demoKillFailed = 1%nat.
Proof.
  assert (Hrun : Executor.run (executeWithTimeout 30000 demoSql)
                   (ConnSettled (Return 7%nat)
                      :: [IdSettled (Return [JObj [("id", JNum 42)]]); TimerFired;
                          KillConnSettled (Return 8%nat);
                          KillSettled (Throw (Error "gone"))])
                 = Some demoKillFailed) by (vm_compute; reflexivity).
  split; [exact Hrun|]; split; [reflexivity|].
  exact (proj1 (proj2 (proj2 (connection_released_exactly_once _ _ _ _ _ Hrun))
                 eq_refl)).
Defined.

Lemma select_gets_execution_time_hint_witness :
  Z.abs (timeoutSeconds (Some 30) * 1000) <= Config.maxSafeInteger
  /\ Executor.run (executeWithTimeout (loadDbConfig_queryTimeout (Some 30))
                                      (Some (JStr "  select * from t ")))
                  demoAcquire
     = Some demoRacing
  /\ executed demoRacing
     = [executeSql (loadDbConfig_queryTimeout (Some 30)) "  select * from t "]
  /\ executeSql (loadDbConfig_queryTimeout (Some 30)) "  select * from t "
     = "SELECT /*+ MAX_EXECUTION_TIME(30000) */ * from t".
Proof.
  assert (Hrange : Z.abs (timeoutSeconds (Some 30) * 1000)
                   <= Config.maxSafeInteger) by (vm_compute; discriminate).
  assert (Hrun : Executor.run
                   (executeWithTimeout (loadDbConfig_queryTimeout (Some 30))
                                       (Some (JStr "  select * from t ")))
                   demoAcquire
                 = Some demoRacing) by (vm_compute; reflexivity).
  pose proof (select_gets_execution_time_hint (Some 30) _ _ _ Hrange Hrun)
    as (Hex & _ & Hsel & _).
  split; [exact Hrange|]; split; [exact Hrun|]; split.
  - exact (Hex eq_refl).
  - exact (Hsel "select" " * from t" eq_refl eq_refl).
Defined.

Lemma blank_statement_executed_trimmed_witness :
  all_white "   " = true
  /\ JObj [("id", JNum 42)] <> JNull
  /\ executeSql 30000 "   " = "".
Proof.
  assert (Hrow : JObj [("id", JNum 42)] <> JNull) by discriminate.
  split; [reflexivity|]; split; [exact Hrow|].
  exact (proj1 (blank_statement_executed_trimmed
                  30000 "   " 7%nat (JObj [("id", JNum 42)]) [] eq_refl Hrow)).
Defined.

Lemma kill_connection_released_only_on_success_witness :
  Executor.run (executeWithTimeout 30000 demoSql)
               (demoAcquire ++ [TimerFired; KillConnSettled (Return 8%nat)])
  = Some demoKilling
  /\ timer demoKilling = KillAwaitQuery 8%nat
  /\ Executor.run demoKilling [KillSettled (Throw (Error "gone"))]
     = Some demoKillFailed
  /\ filter is_release (actions_of Deadline demoKillFailed) = [].
Proof.
  assert (Hmid : Executor.run (executeWithTimeout 30000 demoSql)
                   (demoAcquire ++ [TimerFired; KillConnSettled (Return 8%nat)])
                 = Some demoKilling) by (vm_compute; reflexivity).
  assert (Hrun : Executor.run demoKilling [KillSettled (Throw (Error "gone"))]
                 = Some demoKillFailed) by (vm_compute; reflexivity).
  split; [exact Hmid|]; split; [reflexivity|]; split; [exact Hrun|].
  exact (proj1 (proj2 (kill_connection_released_only_on_success
                         _ _ _ _ _ _ _ _ Hmid eq_refl Hrun))).
Defined.

Lemma notification_prints_nothing_witness :
  JSON_parse demoNotification = Some demoNotificationValue
  /\ nullish (getProp demoNotificationValue "id") = true
  /\ exists sv',
       Server.step (Server.main 30000) (Line demoNotification) = Some sv'
       /\ Server.stdout sv' = [].
Proof.
  assert (Hparse : JSON_parse demoNotification = Some demoNotificationValue)
    by (vm_compute; reflexivity).
  split; [exact Hparse|]; split; [reflexivity|].
  eexists; split; [reflexivity|].
  exact (proj1 (notification_prints_nothing
                  (Server.main 30000) _ demoNotification demoNotificationValue
                  Hparse eq_refl eq_refl)).
Defined.

Lemma malformed_line_gets_parse_error_witness :
  JSON_parse "{oops" = None
  /\ exists sv',
       Server.step (Server.main 30000) (Line "{oops") = Some sv'
       /\ Server.stdout sv'
          = [JSON_stringify
               (JObj [("jsonrpc", JStr "2.0"); ("id", JNull);
                      ("error", JObj [("code", JNum (-32700));
                                      ("message", JStr "Parse error")])])].
Proof.
  assert (Hparse : JSON_parse "{oops" = None) by (vm_compute; reflexivity).
  split; [exact Hparse|].
  eexists; split; [reflexivity|].
  exact (proj1 (malformed_line_gets_parse_error
                  (Server.main 30000) _ "{oops" Hparse eq_refl)).
Defined.


Lemma tools_list_is_static_witness :
  JSON_parse demoList = Some demoListValue
  /\ exists sv',
       Server.step (Server.main 30000) (Line demoList) = Some sv'
       /\ Server.stdout sv'
          = [JSON_stringify
               (JObj [("jsonrpc", JStr "2.0"); ("id", JNum 3);
                      ("result", JObj [("tools", JArr toolDescriptors)])])].
Proof.
  assert (Hparse : JSON_parse demoList = Some demoListValue)
    by (vm_compute; reflexivity).
  assert (Hid : JNum 3 <> JNull) by discriminate.
  split; [exact Hparse|].
  eexists; split; [reflexivity|].
  exact (proj1 (tools_list_is_static
                  (Server.main 30000) _ demoList demoListValue (JNum 3)
                  Hparse eq_refl Hid eq_refl eq_refl)).
Defined.

Lemma notification_never_reaches_executor_witness :
  JSON_parse demoNullId = Some demoNullIdValue
  /\ nullish (getProp demoNullIdValue "id") = true
  /\ exists sv',
       Server.step (Server.main 30000) (Line demoNullId) = Some sv'
       /\ Server.calls sv' = []
       /\ Server.dbActions sv' = [].
Proof.
  assert (Hparse : JSON_parse demoNullId = Some demoNullIdValue)
    by (vm_compute; reflexivity).
  split; [exact Hparse|]; split; [reflexivity|].
  eexists; split; [reflexivity|].
  pose proof (notification_never_reaches_executor
                (Server.main 30000) _ demoNullId demoNullIdValue
                Hparse eq_refl eq_refl) as (_ & _ & Hcalls & Hdb).
  split; [exact Hcalls | exact Hdb].
Defined.



End Runs.

(* ================================================================== *)
(** * Further properties of the code *)

(** ** [loadDbConfig] *)

Module ConfigFacts.
Import Config.

Lemma uval_acc (d : Decimal.uint) (acc : positive) :
  Z.pos (Pos.of_uint_acc d acc) = uval (Z.pos acc) d.
Proof.
  revert acc; induction d; intros acc; cbn [Pos.of_uint_acc uval];
    try reflexivity; rewrite IHd; f_equal; lia.
Qed.

Lemma uval_of_uint (d : Decimal.uint) : Z.of_uint d = uval 0 d.
Proof.
  unfold Z.of_uint; induction d; cbn [Pos.of_uint uval]; try exact IHd;
    try reflexivity; cbn [Z.of_N]; rewrite uval_acc; reflexivity.
Qed.

(** A character of the ASCII range that is not white space starts no
    white space: [trimStart] leaves the text alone. *)
Lemma trimStart_head (c : ascii) (r : string) :
  (nat_of_ascii c < 128)%nat -> white1 (nat_of_ascii c) = false ->
  trimStart (String c r) = String c r.
Proof.
  intros Hc Hw; cbn [trimStart].
  assert (H : whiteLen (String c r) = 0%nat).
  { unfold whiteLen; rewrite Hw.
    destruct r as [|b [|c3 r3]]; try reflexivity; unfold white2, white3;
      repeat match goal with
             | |- context [(nat_of_ascii c =? ?k)%nat] =>
                 replace (nat_of_ascii c =? k)%nat with false
                   by (symmetry; apply Nat.eqb_neq; lia)
             end; reflexivity. }
  now rewrite H.
Qed.

Lemma stops_next (rest : string) :
  stops rest = true -> notDigitNext rest /\ notHexNext rest.
Proof.
  destruct rest as [|c r]; cbn [stops notDigitNext notHexNext]; [tauto|].
  destruct (digitValue 10 c); [discriminate|].
  intros H; split; [reflexivity|]. now destruct (_ || _).
Qed.

Lemma parseDigits_numeral (d : Decimal.uint) (acc : Z) (rest : string) :
  notDigitNext rest ->
  parseDigits 10 acc true (NilEmpty.string_of_uint d ++ rest)
  = Some (uval acc d).
Proof.
  intros Hrest; revert acc; induction d; intros acc;
    cbn [NilEmpty.string_of_uint append uval parseDigits];
    try (change (digitValue 10 ?c) with (Some 0) || idtac; apply IHd).
  destruct rest as [|c r]; cbn [parseDigits]; [reflexivity|].
  cbn [notDigitNext] in Hrest; now rewrite Hrest.
Qed.

Lemma parseDigits_numeral_first (d : Decimal.uint) (rest : string) :
  d <> Decimal.Nil -> notDigitNext rest ->
  parseDigits 10 0 false (NilEmpty.string_of_uint d ++ rest)
  = Some (uval 0 d).
Proof.
  intros Hd Hrest; destruct d; [now elim Hd|..];
    cbn [NilEmpty.string_of_uint append uval parseDigits];
    apply (parseDigits_numeral _ _ rest Hrest).
Qed.

Lemma numeral_next (d : Decimal.uint) (rest : string) :
  notHexNext rest -> notHexNext (NilEmpty.string_of_uint d ++ rest).
Proof. intros H; destruct d; try exact H; reflexivity. Qed.

Lemma parseMagnitude_numeral (d : Decimal.uint) (rest : string) :
  d <> Decimal.Nil -> stops rest = true ->
  parseMagnitude (NilEmpty.string_of_uint d ++ rest) = Some (uval 0 d).
Proof.
  intros Hd Hstops; destruct (stops_next rest Hstops) as [Hdigit Hhex].
  unfold parseMagnitude.
  assert (Hstrip : stripPrefix (NilEmpty.string_of_uint d ++ rest)
                   = (10, NilEmpty.string_of_uint d ++ rest)).
  { destruct d as [|d|d|d|d|d|d|d|d|d|d]; [now elim Hd|..];
      cbn [NilEmpty.string_of_uint append stripPrefix];
      pose proof (numeral_next d rest Hhex) as Hnext;
      destruct (NilEmpty.string_of_uint d ++ rest) as [|x r];
      try reflexivity; cbn [notHexNext] in Hnext; rewrite Hnext;
      rewrite Bool.andb_false_r; reflexivity. }
  rewrite Hstrip; cbn [fst snd].
  now apply parseDigits_numeral_first.
Qed.

(** [parseInt] reads back what the decimal notation of a number says,
    and ignores the text after it. *)
Lemma parseInt_decimal (n : Z) (rest : string) :
  stops rest = true -> parseInt (Some (string_of_Z n ++ rest)) = Some n.
Proof.
  intros Hstops; unfold parseInt, string_of_Z.
  destruct n as [|p|p]; cbn [Z.to_int NilZero.string_of_int].
  - change (NilZero.string_of_uint Decimal.zero ++ rest)
      with (String "0" rest).
    rewrite trimStart_head by (cbn; (lia || reflexivity)).
    change (Ascii.eqb "0" "-") with false; change (Ascii.eqb "0" "+") with false.
    cbv iota.
    exact (parseMagnitude_numeral (Decimal.D0 Decimal.Nil) rest
             ltac:(discriminate) Hstops).
  - pose proof (DecimalPos.Unsigned.to_uint_nonnil p) as Hnil.
    assert (Hs : NilZero.string_of_uint (Pos.to_uint p)
                 = NilEmpty.string_of_uint (Pos.to_uint p))
      by (unfold NilZero.string_of_uint; destruct (Pos.to_uint p); congruence).
    rewrite Hs.
    pose proof (parseMagnitude_numeral _ rest Hnil Hstops) as Hmag.
    rewrite <- uval_of_uint in Hmag; unfold Z.of_uint in Hmag.
    rewrite DecimalPos.Unsigned.of_to in Hmag; cbn [Z.of_N] in Hmag.
    destruct (Pos.to_uint p) as [|d|d|d|d|d|d|d|d|d|d]; [now elim Hnil|..];
      cbn [NilEmpty.string_of_uint append] in *;
      rewrite trimStart_head by (cbn; (lia || reflexivity));
      exact Hmag.
  - pose proof (DecimalPos.Unsigned.to_uint_nonnil p) as Hnil.
    assert (Hs : NilZero.string_of_uint (Pos.to_uint p)
                 = NilEmpty.string_of_uint (Pos.to_uint p))
      by (unfold NilZero.string_of_uint; destruct (Pos.to_uint p); congruence).
    rewrite Hs.
    pose proof (parseMagnitude_numeral _ rest Hnil Hstops) as Hmag.
    rewrite <- uval_of_uint in Hmag; unfold Z.of_uint in Hmag.
    rewrite DecimalPos.Unsigned.of_to in Hmag; cbn [Z.of_N] in Hmag.
    cbn [append]; rewrite trimStart_head by (cbn; (lia || reflexivity)).
    change (Ascii.eqb "-" "-") with true; cbv iota.
    rewrite Hmag; reflexivity.
Qed.

Lemma firstMissing_required (config : dbConfig) :
  firstMissing config requiredFields
  = if falsy (host config) || falsy (user config) || falsy (database config)
    then Some 1 else None.
Proof.
  unfold requiredFields, firstMissing, configField; cbn [String.eqb Ascii.eqb Bool.eqb].
  destruct (falsy (host config)), (falsy (user config)),
    (falsy (database config)); reflexivity.
Qed.

Lemma loadDbConfig_cases (e : env) :
  loadDbConfig e
  = if Startup.complete e
    then inr (mkConfig (e "DB_HOST") (orNumber (parseInt (e "DB_PORT")) 3306)
                       (e "DB_USER") (orString (e "DB_PASSWORD") "")
                       (e "DB_DATABASE") (orString (e "DB_CHARSET") "utf8mb4"),
              loadDbConfig_queryTimeout (parseInt (e "DB_QUERY_TIMEOUT")))
    else inl 1.
Proof.
  unfold loadDbConfig, Startup.complete; rewrite firstMissing_required.
  cbn [host user database].
  destruct (falsy (e "DB_HOST")), (falsy (e "DB_USER")),
    (falsy (e "DB_DATABASE")); reflexivity.
Qed.

Lemma orNumber_nonzero (v : option Z) (d : Z) : d <> 0 -> orNumber v d <> 0.
Proof.
  intros Hd; destruct v as [n|]; cbn [orNumber]; [|exact Hd].
  destruct (Z.eqb_spec n 0); assumption.
Qed.

Lemma orString_nonempty (v : option string) (d : string) :
  d <> "" -> orString v d <> "".
Proof.
  intros Hd; destruct v as [t|]; cbn [orString]; [|exact Hd].
  destruct (String.eqb_spec t ""); assumption.
Qed.

Lemma falsy_false (v : option string) :
  falsy v = false -> exists t, v = Some t /\ t <> "".
Proof.
  destruct v as [t|]; cbn [falsy]; [|discriminate].
  intros H; exists t; split; [reflexivity|].
  now apply String.eqb_neq.
Qed.

(** X1.  [loadDbConfig] ends the process exactly when one of [DB_HOST],
    [DB_USER], [DB_DATABASE] is not set or is empty, and then with exit
    code 1; no other setting, however malformed, makes it exit. *)
Theorem loadDbConfig_exits_iff_incomplete (e : env) :
  match loadDbConfig e with
  | inl code =>
      code = 1
      /\ (falsy (e "DB_HOST") = true \/ falsy (e "DB_USER") = true
          \/ falsy (e "DB_DATABASE") = true)
  | inr _ =>
      falsy (e "DB_HOST") = false /\ falsy (e "DB_USER") = false
      /\ falsy (e "DB_DATABASE") = false
  end.
Proof.
  rewrite loadDbConfig_cases; unfold Startup.complete.
  destruct (falsy (e "DB_HOST")), (falsy (e "DB_USER")),
    (falsy (e "DB_DATABASE")); cbn; intuition.
Qed.

(** X2.  A configuration [loadDbConfig] returns is usable: host, user
    and database are the non-empty values of their variables, the port
    is not 0 (it is 3306 unless [DB_PORT] reads as another number), the
    character set is not empty, and the timeout stored is a non-zero
    number of seconds times 1000 (10 seconds unless [DB_QUERY_TIMEOUT]
    reads as another number). *)
Theorem loaded_config_is_usable (e : env) (config : dbConfig) (queryTimeout : Z) :
  loadDbConfig e = inr (config, queryTimeout) ->
  (exists h, host config = Some h /\ e "DB_HOST" = Some h /\ h <> "")
  /\ (exists u, user config = Some u /\ e "DB_USER" = Some u /\ u <> "")
  /\ (exists d, database config = Some d /\ e "DB_DATABASE" = Some d /\ d <> "")
  /\ port config <> 0
  /\ (port config = 3306 \/ parseInt (e "DB_PORT") = Some (port config))
  /\ charset config <> ""
  /\ (exists seconds,
        queryTimeout = seconds * 1000 /\ seconds <> 0
        /\ (seconds = 10
            \/ parseInt (e "DB_QUERY_TIMEOUT") = Some seconds)).
Proof.
  rewrite loadDbConfig_cases; unfold Startup.complete.
  destruct (falsy (e "DB_HOST")) eqn:Hh; [discriminate|].
  destruct (falsy (e "DB_USER")) eqn:Hu; [discriminate|].
  destruct (falsy (e "DB_DATABASE")) eqn:Hd; [discriminate|].
  cbn [negb andb]; intros H; injection H as <- <-; cbn [host user database port charset].
  destruct (falsy_false _ Hh) as (h & Eh & Nh).
  destruct (falsy_false _ Hu) as (u & Eu & Nu).
  destruct (falsy_false _ Hd) as (d & Ed & Nd).
  split; [exists h; auto|]; split; [exists u; auto|]; split; [exists d; auto|].
  split; [apply orNumber_nonzero; discriminate|].
  split.
  { destruct (parseInt (e "DB_PORT")) as [n|]; cbn [orNumber]; [|now left].
    destruct (n =? 0); [now left | now right]. }
  split; [apply orString_nonempty; discriminate|].
  exists (timeoutSeconds (parseInt (e "DB_QUERY_TIMEOUT"))).
  split; [reflexivity|]; unfold timeoutSeconds.
  destruct (parseInt (e "DB_QUERY_TIMEOUT")) as [n|]; [|split; [discriminate | now left]].
  destruct (Z.eqb_spec n 0); split; try discriminate; auto.
Qed.

(** X3.  A port and a timeout written in decimal are read back as
    written: with the three required variables set, [DB_PORT] a decimal
    number [p] other than 0 and [DB_QUERY_TIMEOUT] a decimal number [t]
    other than 0, each possibly followed by text that does not start
    with a digit (nor with [x] after a lone 0), and both within the
    range in which a number is exact, the configuration has port [p]
    and the timeout stored is [t * 1000].  A negative number is taken
    as it is. *)
Theorem loadDbConfig_reads_decimal
        (e : env) (p t : Z) (afterPort afterTimeout : string) :
  Startup.complete e = true ->
  e "DB_PORT" = Some (string_of_Z p ++ afterPort) ->
  stops afterPort = true -> p <> 0 -> Z.abs p <= maxSafeInteger ->
  e "DB_QUERY_TIMEOUT" = Some (string_of_Z t ++ afterTimeout) ->
  stops afterTimeout = true -> t <> 0 -> Z.abs (t * 1000) <= maxSafeInteger ->
  exists config,
    loadDbConfig e = inr (config, t * 1000) /\ port config = p.
Proof.
  intros Hc Hp Hsp Hp0 _ Ht Hst Ht0 _.
  rewrite loadDbConfig_cases, Hc, Hp, Ht.
  rewrite (parseInt_decimal p afterPort Hsp), (parseInt_decimal t afterTimeout Hst).
  unfold loadDbConfig_queryTimeout, timeoutSeconds, orNumber.
  destruct (Z.eqb_spec p 0); [contradiction|].
  destruct (Z.eqb_spec t 0); [contradiction|].
  eexists; split; reflexivity.
Qed.

End ConfigFacts.

(** ** [initConnection] and the start of [main] *)

Module StartupFacts.
Import Config ConfigFacts Startup.

Lemma exited_stays (s : state) (code : Z) (events : list event) (s' : state) :
  at_pc s = Exited code -> run s events = Some s' -> events = [] /\ s' = s.
Proof.
  intros Hpc; destruct events as [|ev rest]; cbn [run].
  - intros H; injection H as <-; split; reflexivity.
  - unfold step; rewrite Hpc; discriminate.
Qed.

Lemma serving_stays (s : state) (events : list event) (s' : state) :
  at_pc s = Serving -> run s events = Some s' -> events = [] /\ s' = s.
Proof.
  intros Hpc; destruct events as [|ev rest]; cbn [run].
  - intros H; injection H as <-; split; reflexivity.
  - unfold step; rewrite Hpc; discriminate.
Qed.


(** X4.  [main] gets to read lines only when the configuration is
    complete and both steps of the connectivity test succeeded; it has
    then created the pool with room for 5 connections and an unbounded
    queue, borrowed one connection, run the test query on it and
    released it, in this order, and the server starts with the timeout
    of the configuration.  Every other way the start ends is the exit
    code 1, and then the test connection, if one was borrowed, has not
    been released. *)
Theorem serving_only_after_successful_start
        (e : env) (events : list event) (s : state) :
  run (start e) events = Some s ->
  match at_pc s with
  | Serving =>
      exists config testConn done,
        loadDbConfig e = inr (config, queryTimeout s)
        /\ events = [TestConnSettled (Return testConn);
                     TestQuerySettled (Return done)]
        /\ log s = [CreatePool config 5 0;
                    OnPool Executor.GetConnection;
                    OnPool (Executor.Query testConn
                      "SELECT CONNECTION_ID() as id, VERSION() as version");
                    OnPool (Executor.Release testConn);
                    CreateInterface]
        /\ serving s = Some (Server.main (queryTimeout s))
  | Exited code =>
      code = 1
      /\ serving s = None
      /\ forall c, ~ In (OnPool (Executor.Release c)) (log s)
  | _ => serving s = None
  end.
Proof.
  unfold start; rewrite loadDbConfig_cases.
  destruct (complete e).
  - destruct events as [|[[c|err]|r] rest]; cbn [run step at_pc queryTimeout log];
      try discriminate.
    + intros H; injection H as <-; reflexivity.
    + destruct rest as [|[r2|[done|err]] rest]; cbn [run step at_pc queryTimeout log];
        try discriminate.
      * intros H; injection H as <-; reflexivity.
      * intros H.
        apply serving_stays in H; [|reflexivity]; destruct H as [-> ->]; cbn.
        eexists _, c, done; repeat split.
      * intros H.
        eapply exited_stays in H; [|reflexivity]; destruct H as [-> ->]; cbn.
        repeat split. intros c0 [Hin|[Hin|[Hin|[]]]]; discriminate.
    + intros H.
      eapply exited_stays in H; [|reflexivity]; destruct H as [-> ->]; cbn.
      repeat split. intros c0 [Hin|[Hin|[]]]; discriminate.
  - intros H.
    eapply exited_stays in H; [|reflexivity]; destruct H as [-> ->]; cbn.
    repeat split. intros c0 [].
Qed.

End StartupFacts.

(** ** The order of the actions of a call *)

Module ProtocolFacts.
Import Executor ExecutorFacts Protocol.

(** What the body has done can be read off the state. *)
Lemma expectedMain_run (queryTimeout0 : Z) (sql0 : option json)
      (events : list event) (s : state) :
  run (executeWithTimeout queryTimeout0 sql0) events = Some s ->
  actions_of Main s = expectedMain s.
Proof.
  intros Hrun; pattern s.
  eapply run_invariant_wf; [ | | exact Hrun]; cbv beta; [reflexivity|].
  unfold actions_of, expectedMain, settled, wf, idQuery.
  intros s1 e s2 Hwf Hinv H; step_inv s1 H.
  all: rewrite ?filter_app, ?map_app in *;
    cbn [filter map fst snd actor_eqb app] in *; rewrite ?app_nil_r in *.
  all: try (rewrite Hinv; reflexivity).
  all: decompose [and ex] Hwf; subst; try discriminate; try contradiction;
    try congruence.
  all: rewrite Hinv; reflexivity.
Qed.

(** What the timer callback has done can be read off the state. *)
Lemma expectedDeadline_run (queryTimeout0 : Z) (sql0 : option json)
      (events : list event) (s : state) :
  run (executeWithTimeout queryTimeout0 sql0) events = Some s ->
  expectedDeadline s (actions_of Deadline s).
Proof.
  intros Hrun; pattern s.
  eapply run_invariant_wf; [ | | exact Hrun]; cbv beta; [reflexivity|].
  unfold actions_of, expectedDeadline, deadlineScript, wf.
  intros s1 e s2 Hwf Hinv H; step_inv s1 H.
  all: rewrite ?filter_app, ?map_app in *;
    cbn [filter map fst snd actor_eqb app] in *; rewrite ?app_nil_r in *.
  all: try assumption.
  all: try (rewrite Hinv; reflexivity).
  all: try (decompose [and ex] Hwf; subst; discriminate).
  all: try (now left).
  all: try (decompose [and ex] Hwf; subst;
            first [discriminate | contradiction | assumption]).
  all: right; exists killConn; rewrite Hinv; cbn [app];
    (now left) || (now right).
Qed.

(** A timer that was set belongs to a call that holds a connection. *)
Lemma timer_needs_conn_run (queryTimeout0 : Z) (sql0 : option json)
      (events : list event) (s : state) :
  run (executeWithTimeout queryTimeout0 sql0) events = Some s ->
  timer s <> Unset -> conn_var s <> None.
Proof.
  intros Hrun; pattern s.
  eapply run_invariant_wf; [ | | exact Hrun]; cbv beta.
  - intros H; now elim H.
  - unfold wf; intros s1 e s2 Hwf Hinv H; step_inv s1 H;
      intros Hne; try discriminate; try (now elim Hne);
      try (apply Hinv; discriminate);
      decompose [and ex] Hwf; subst; try discriminate; try contradiction;
      try (apply Hinv; assumption).
Qed.

(** A statement that is not a string never runs: the timer is set and
    cleared in one turn, and the call does not return rows. *)
Lemma not_a_string_run (queryTimeout0 : Z) (sql0 : option json)
      (events : list event) (s : state) :
  (forall text, sql0 <> Some (JStr text)) ->
  run (executeWithTimeout queryTimeout0 sql0) events = Some s ->
  (timer s = Unset \/ timer s = Cleared)
  /\ forall rows, outcome s <> Some (Return rows).
Proof.
  intros Hsql Hrun; pattern s.
  eapply run_invariant_wf; [ | | exact Hrun]; cbv beta.
  - split; [now left | discriminate].
  - unfold wf, outcome; intros s1 e s2 Hwf [Ht Ho] H; step_inv s1 H.
    all: try (split; [auto; fail | first [exact Ho | discriminate]]).
    all: try (destruct Ht; discriminate).
    all: decompose [and ex] Hwf; subst; try discriminate; try contradiction.
    all: try (match goal with
              | Heq : Some (JStr ?t) = _ |- _ => now elim (Hsql t)
              | Heq : _ = Some (JStr ?t) |- _ => now elim (Hsql t)
              end).
    all: try (split; [auto; fail | first [exact Ho | discriminate]]).
    all: exfalso; eapply Hsql; reflexivity.
Qed.

(** Induction over the turns of a call, with what has happened so far. *)
Lemma run_history (P : list event -> state -> Prop) (init : state) :
  P [] init ->
  (forall h s e s', P h s -> step s e = Some s' -> P (h ++ [e])%list s') ->
  forall events s, run init events = Some s -> P events s.
Proof.
  intros H0 Hstep events.
  enough (forall h s0 s, P h s0 -> run s0 events = Some s ->
                         P (h ++ events)%list s) as H
      by (intros s; apply (H [] init s H0)).
  induction events as [|e events IH]; intros h s0 s Hh Hrun; cbn [run] in Hrun.
  - injection Hrun as <-; now rewrite app_nil_r.
  - destruct (step s0 e) as [s1|] eqn:He; [|discriminate].
    replace (h ++ e :: events)%list with ((h ++ [e]) ++ events)%list
      by (now rewrite <- app_assoc).
    apply (IH _ s1); [now apply (Hstep h s0) | exact Hrun].
Qed.

(** A call that has settled stays settled, with the same outcome. *)
Lemma settled_stays (s s' : state) (e : event) :
  step s e = Some s' -> settled s = true ->
  settled s' = true /\ outcome s' = outcome s.
Proof.
  unfold settled, outcome; intros H; step_inv s H; intros Hs;
    try discriminate; split; reflexivity.
Qed.

(** The timer callback starts with the timer firing. *)
Lemma fired_history (queryTimeout0 : Z) (sql0 : option json)
      (events : list event) (s : state) :
  run (executeWithTimeout queryTimeout0 sql0) events = Some s ->
  In TimerFired events
  \/ timer s = Unset \/ timer s = Armed \/ timer s = Cleared.
Proof.
  apply (run_history
           (fun h s => In TimerFired h
                       \/ timer s = Unset \/ timer s = Armed
                       \/ timer s = Cleared)); [auto|].
  intros h s1 e s2 [Hin | Ht] H; [left; apply in_or_app; now left|].
  destruct e; try (right; revert Ht; step_inv s1 H; intuition congruence).
  left; apply in_or_app; right; now left.
Qed.

(** X5.  Whatever happens, the body of [executeWithTimeout] does its
    actions in the order of the script: ask the pool for a connection,
    ask that connection for its session, set the timer, execute the
    rewritten statement on that connection, clear the timer, release
    that connection.  Steps may be left out (after a failure), but none
    is done twice, none out of this order, and none on another
    connection. *)
Theorem main_actions_follow_the_script
        (queryTimeout0 : Z) (sql0 : option json) (events : list event) (s : state) :
  run (executeWithTimeout queryTimeout0 sql0) events = Some s ->
  exists c text,
    subseq (actions_of Main s) (mainScript queryTimeout0 c text) = true
    /\ (forall c', conn_var s = Some c' -> c' = c)
    /\ (forall t, sql0 = Some (JStr t) -> text = executeSql queryTimeout0 t).
Proof.
  intros Hrun.
  rewrite (expectedMain_run _ _ _ _ Hrun).
  destruct (wf_run _ _ _ _ Hrun) as (Hq & Hs & _).
  exists (match conn_var s with Some c => c | None => 0%nat end),
    (match sql0 with Some (JStr t) => executeSql queryTimeout0 t | _ => "" end).
  split; [|split].
  - unfold expectedMain, mainScript, settled; rewrite Hq, Hs.
    destruct (conn_var s), (timer s), sql0 as [[]|], (pc s);
      cbn [subseq action_eqb app andb];
      rewrite ?Nat.eqb_refl, ?String.eqb_refl, ?Z.eqb_refl;
      cbn [subseq action_eqb app andb];
      rewrite ?Nat.eqb_refl, ?String.eqb_refl, ?Z.eqb_refl;
      reflexivity.
  - intros c' ->; reflexivity.
  - intros t ->; reflexivity.
Qed.

(** X6.  The timer of a call is set at most once, with the configured
    timeout, and a call that has set it clears it before it settles, on
    every way out: once a call has settled, its timer cannot fire. *)
Theorem timer_cleared_on_every_exit
        (queryTimeout0 : Z) (sql0 : option json) (events : list event) (s : state) :
  run (executeWithTimeout queryTimeout0 sql0) events = Some s ->
  filter isTimerAction (actions_of Main s)
  = match timer s with
    | Unset => []
    | _ => SetTimeout queryTimeout0 :: if settled s then [ClearTimeout] else []
    end
  /\ (settled s = true -> step s TimerFired = None).
Proof.
  intros Hrun.
  rewrite (expectedMain_run _ _ _ _ Hrun).
  destruct (wf_run _ _ _ _ Hrun) as (Hq & Hs & Hwf).
  pose proof (timer_needs_conn_run _ _ _ _ Hrun) as Hconn.
  split.
  - unfold expectedMain, settled in *; rewrite Hq.
    destruct (conn_var s) as [c|].
    + destruct (timer s), (sql s) as [[]|], (pc s); reflexivity.
    + destruct (timer s); try reflexivity; elim Hconn; (discriminate || reflexivity).
  - unfold settled, step; destruct (pc s); try discriminate.
    intros _; destruct (timer s); try reflexivity. now elim Hwf.
Qed.

(** X7.  The timer callback of a call does nothing unless the timer has
    fired, and then at most this, in this order: ask the pool for a
    connection, send one [KILL QUERY] with the session of the call on
    it, release it.  There is never a second kill, and never a kill of
    another session. *)
Theorem deadline_actions_follow_the_script
        (queryTimeout0 : Z) (sql0 : option json) (events : list event) (s : state) :
  run (executeWithTimeout queryTimeout0 sql0) events = Some s ->
  (exists killConn,
      isPrefix (actions_of Deadline s) (deadlineScript killConn (connId s))
      = true)
  /\ (~ In TimerFired events -> actions_of Deadline s = []).
Proof.
  intros Hrun.
  pose proof (expectedDeadline_run _ _ _ _ Hrun) as Hd.
  pose proof (fired_history _ _ _ _ Hrun) as Hf.
  unfold expectedDeadline in Hd; split.
  - unfold deadlineScript.
    destruct (timer s) as [| | | |kc|];
      try (exists 0%nat; rewrite Hd; reflexivity).
    + exists kc; rewrite Hd.
      repeat (cbn [isPrefix action_eqb andb];
              rewrite ?Nat.eqb_refl, ?String.eqb_refl).
      reflexivity.
    + destruct Hd as [-> | (kc & [-> | ->])];
        [exists 0%nat; reflexivity | exists kc | exists kc];
        unfold deadlineScript;
        repeat (cbn [isPrefix action_eqb andb];
                rewrite ?Nat.eqb_refl, ?String.eqb_refl);
        reflexivity.
  - intros Hnot; destruct Hf as [Hin | [Ht | [Ht | Ht]]];
      [contradiction | | |]; rewrite Ht in Hd; exact Hd.
Qed.

(** X8.  A call that settles after its timer has fired does not stop
    the timer callback: although the call has returned or thrown and
    has released its connection, the callback still sends
    [KILL QUERY] with the session of that connection as soon as the
    pool answers it, and the outcome of the call is not changed by
    that. *)
Theorem kill_is_sent_after_the_call_settled
        (queryTimeout0 : Z) (sql0 : option json) (events : list event)
        (s : state) (killConn : conn) :
  run (executeWithTimeout queryTimeout0 sql0) events = Some s ->
  settled s = true ->
  timer s = KillAwaitConn ->
  exists c s',
    conn_var s = Some c
    /\ releases Main c s = 1%nat
    /\ step s (KillConnSettled (Return killConn)) = Some s'
    /\ log s' = (log s ++ [(Deadline,
                            Query killConn
                                  ("KILL QUERY " ++ toStrU (connId s)))])%list
    /\ outcome s' = outcome s.
Proof.
  intros Hrun Hset Ht.
  pose proof (expectedMain_run _ _ _ _ Hrun) as Hmain.
  pose proof (timer_needs_conn_run _ _ _ _ Hrun) as Hconn.
  destruct (conn_var s) as [c|] eqn:Hc;
    [|elim Hconn; [rewrite Ht; discriminate | reflexivity]].
  exists c; eexists; split; [reflexivity|]; split; [|split; [|split]].
  - unfold releases; rewrite Hmain; unfold expectedMain.
    rewrite Hc, Ht, Hset.
    destruct (sql s) as [[]|]; cbn [filter app action_eqb];
      now rewrite Nat.eqb_refl.
  - unfold step; rewrite Ht; reflexivity.
  - reflexivity.
  - reflexivity.
Qed.

(** X9.  When the statement passed in is not a string (for instance
    [undefined], for a [query] call without [sql]), nothing is ever
    handed to [conn.execute], the call never returns rows, and the timer
    callback never runs; yet the call first borrows a connection and
    asks for its session, and releases the connection again. *)
Theorem statement_that_is_no_string_is_never_executed
        (queryTimeout0 : Z) (sql0 : option json) (events : list event) (s : state) :
  (forall text, sql0 <> Some (JStr text)) ->
  run (executeWithTimeout queryTimeout0 sql0) events = Some s ->
  executed s = []
  /\ actions_of Deadline s = []
  /\ (forall rows, outcome s <> Some (Return rows))
  /\ (forall c row rows,
        row <> JNull ->
        events = [ConnSettled (Return c); IdSettled (Return (row :: rows))] ->
        actions_of Main s
        = [GetConnection; Query c idQuery; SetTimeout queryTimeout0;
           ClearTimeout; Release c]
        /\ exists msg, outcome s = Some (Throw (TypeError msg))).
Proof.
  intros Hsql Hrun.
  destruct (not_a_string_run _ _ _ _ Hsql Hrun) as [Ht Ho].
  pose proof (executed_once_run _ _ _ _ Hrun) as Hex.
  pose proof (expectedDeadline_run _ _ _ _ Hrun) as Hd.
  split; [|split; [|split]].
  - rewrite Hex. destruct (timer s); try reflexivity;
      destruct sql0 as [[]|]; try reflexivity;
      exfalso; eapply Hsql; reflexivity.
  - unfold expectedDeadline in Hd.
    destruct Ht as [Ht | Ht]; rewrite Ht in Hd; exact Hd.
  - exact Ho.
  - intros c row rows Hrow ->.
    assert (Hnot : match sql0 with Some (JStr _) => False | _ => True end).
    { destruct sql0 as [[]|]; trivial. eapply Hsql; reflexivity. }
    clear - Hnot Hrow Hrun.
    destruct row; try congruence;
      destruct sql0 as [[]|]; try contradiction;
      vm_compute in Hrun; injection Hrun as <-;
      (split; [reflexivity | eexists; reflexivity]).
Qed.

(** X10.  The outcome of a call is never made up: rows a call returns
    are rows the statement settled with; an error a call throws is the
    error the pool, the session query or the statement failed with, or
    the error of the deadline after the timer fired, or a [TypeError]
    of the body.  What the kill step settles with is not among these
    sources. *)
Theorem outcome_comes_from_the_statement
        (queryTimeout0 : Z) (sql0 : option json) (events : list event)
        (s : state) (r : completion json) :
  run (executeWithTimeout queryTimeout0 sql0) events = Some s ->
  outcome s = Some r ->
  provenance queryTimeout0 events r.
Proof.
  intros Hrun; revert r.
  enough (wf queryTimeout0 sql0 s
          /\ (In TimerFired events
              \/ timer s = Unset \/ timer s = Armed \/ timer s = Cleared)
          /\ forall r, outcome s = Some r -> provenance queryTimeout0 events r)
    as (_ & _ & H) by exact H.
  revert events s Hrun.
  apply (run_history
           (fun h s =>
              wf queryTimeout0 sql0 s
              /\ (In TimerFired h
                  \/ timer s = Unset \/ timer s = Armed \/ timer s = Cleared)
              /\ forall r, outcome s = Some r -> provenance queryTimeout0 h r)).
  - split; [apply wf_start|]; split; [auto | discriminate].
  - intros h s1 e s2 (Hwf & Hf & Hp) H.
    split; [exact (wf_step _ _ _ _ _ Hwf H)|].
    assert (Hmono : forall r, provenance queryTimeout0 h r ->
                              provenance queryTimeout0 (h ++ [e]) r).
    { intros [rows|err]; cbn [provenance]; rewrite ?in_app_iff; intuition. }
    assert (Hlast : In e (h ++ [e])) by (apply in_or_app; right; now left).
    split.
    + destruct Hf as [Hin | Ht]; [left; apply in_or_app; now left|].
      destruct e;
        try (right; revert Ht; clear - H; step_inv s1 H; intuition congruence).
      left; exact Hlast.
    + intros r Hr.
      destruct (outcome s1) as [r1|] eqn:Hr1.
      * apply Hmono, Hp.
        revert Hr Hr1; unfold outcome; clear - H; step_inv s1 H;
          intros; congruence.
      * assert (Hfired : timer s1 = KillAwaitConn
                         \/ (exists k, timer s1 = KillAwaitQuery k) ->
                         In TimerFired (h ++ [e])).
        { intros Hk; apply in_or_app; left.
          destruct Hf as [Hin | [Ht | [Ht | Ht]]]; [exact Hin | | |];
            destruct Hk as [Hk | [k Hk]]; congruence. }
        destruct Hwf as (Hq & _ & _).
        unfold outcome in Hr, Hr1; clear Hp Hmono Hf.
        revert r Hr.
        step_inv s1 H; intros out Hout;
          try discriminate; injection Hout as <-; cbn [provenance];
          try (subst; tauto);
          try (right; right; right; right; eexists; reflexivity);
          try (match goal with
               | |- provenance _ _ ?x => destruct x
               end; cbn [provenance]; tauto);
          try (right; right; right; left; split;
               [congruence | apply Hfired; eauto]).
Qed.

End ProtocolFacts.

(* ================================================================== *)
(** ** The tools of [handleRequest] *)

Module ToolFacts.
Import Dispatcher DispatcherFacts Outcomes.






Lemma mapRows_ends (rows : list json) :
  (exists infos, mapRows rows = Ret infos)
  \/ (exists msg, mapRows rows = Raise (TypeError msg)).
Proof.
  induction rows as [|row rows IH]; [left; eexists; reflexivity|].
  cbn [mapRows]; destruct row;
    try (right; eexists; reflexivity);
    cbn [tableInfoRow bind];
    (destruct IH as [(infos & ->) | (msg & ->)];
     [left | right]; eexists; reflexivity).
Qed.

Lemma tableInfo_ends (tables : json) :
  (exists info, tableInfo tables = Ret info)
  \/ (exists msg, tableInfo tables = Raise (TypeError msg)).
Proof.
  destruct tables; try (right; eexists; reflexivity).
  cbn [tableInfo]; destruct (mapRows_ends items) as [(infos & ->) | (msg & ->)];
    [left | right]; eexists; reflexivity.
Qed.

Lemma assoc_last_name (name : option json) (comment : json) :
  assoc_last "name" (prop "name" name ++ [("comment", comment)]) = name
  /\ assoc_last "comment" (prop "name" name ++ [("comment", comment)])
     = Some comment.
Proof. destruct name; split; reflexivity. Qed.

Section WithRuntime.
Context {rt : Runtime}.

Lemma toolsCall_answers (id params : option json) :
  nullish id = false ->
  answersWithinOneCall (responseFor id)
                       (tryCatch (toolsCall id params) (internalError id)).
Proof.
  intros Hid.
  assert (Herr : forall e, answersWith (responseFor id) (internalError id e)).
  { intros e; rewrite (internalError_request _ _ Hid); cbn [answersWith].
    right; do 2 eexists; split; [reflexivity | now right]. }
  assert (Hres : forall result,
             answersWith (responseFor id)
                         (Ret (Some (resultEnvelope id result)))).
  { intros result; left; eexists; reflexivity. }
  assert (Hnow : forall m, answersWith (responseFor id) m ->
                           answersWithinOneCall (responseFor id) m).
  { intros [[response|]|e|sql k]; cbn; tauto. }
  unfold toolsCall, member, interpolate.
  destruct params as [p|]; [|apply Hnow, Herr].
  destruct p; try apply Hnow, Herr.
  all: repeat match goal with
              | |- context [if ?c then _ else _] => destruct c
              end.
  all: try destruct (getProp _ "arguments") as [[]|].
  all: repeat (cbn [bind tryCatch awaitExecute];
               match goal with
               | |- context [if ?c then _ else _] => destruct c
               end).
  all: cbn [bind tryCatch awaitExecute answersWithinOneCall];
    try apply Hnow, Herr.
  all: intros [value|e]; cbn [bind tryCatch]; try apply Herr; try apply Hres.
  all: destruct (tableInfo_ends value) as [(info & ->) | (msg & ->)];
    cbn [bind tryCatch]; [apply Hres | apply Herr].
Qed.

Lemma dispatch_answers (id method params : option json) :
  nullish id = false ->
  answersWithinOneCall (responseFor id)
                       (tryCatch (dispatch id method params) (internalError id)).
Proof.
  intros Hid; unfold dispatch.
  destruct (strictEqStr method "initialize");
    [left; eexists; reflexivity|].
  destruct (strictEqStr method "tools/list");
    [left; eexists; reflexivity|].
  destruct (strictEqStr method "tools/call");
    [apply (toolsCall_answers _ _ Hid)|].
  rewrite Hid; unfold interpolate; destruct (stringableU method);
    cbn [negb bind tryCatch].
  - right; do 2 eexists; split; [reflexivity | now left].
  - rewrite (internalError_request _ _ Hid).
    right; do 2 eexists; split; [reflexivity | now right].
Qed.

(** X11.  A request (an envelope with an identifier) is always
    answered, and never makes [handleRequest] throw: whatever its
    method and parameters are, [handleRequest] returns a response at
    once, or waits for one call of [executeWithTimeout] and returns a
    response when that call settles, however it settles.  The response
    carries the identifier of the request and is a result, or an error
    with code -32601 or -32603. *)
Theorem request_is_always_answered (line : string) (v : json) :
  JSON_parse line = Some v ->
  nullish (getProp v "id") = false ->
  answersWithinOneCall (responseFor (getProp v "id")) (handleRequest line).
Proof.
  intros Hparse Hid.
  rewrite (handleRequest_request line v Hparse Hid).
  apply (dispatch_answers _ _ _ Hid).
Qed.


(** X13.  The [query] tool hands [arguments.sql] to
    [executeWithTimeout] as it is (with no check that it is there or is
    a string), and waits.  When the call returns rows, the answer is the
    result envelope whose one content item is the text of
    [JSON.stringify(rows, null, 2)]; when the call throws, it is the
    error envelope with code -32603 and the message of the error. *)
Theorem query_tool_answers_with_the_rows
        (line : string) (v id params args : json) :
  JSON_parse line = Some v ->
  getProp v "id" = Some id -> id <> JNull ->
  getProp v "method" = Some (JStr "tools/call") ->
  getProp v "params" = Some params ->
  getProp params "name" = Some (JStr "query") ->
  getProp params "arguments" = Some args -> args <> JNull ->
  exists k,
    handleRequest line = Await (getProp args "sql") k
    /\ (forall rows,
          k (Return rows)
          = Ret (Some
                   (JObj [("jsonrpc", JStr "2.0"); ("id", id);
                          ("result",
                            JObj [("content",
                                    JArr [JObj [("type", JStr "text");
                                                ("text",
                                                  JStr (JSON_stringify_pretty
                                                          rows))]])])])))
    /\ (forall error,
          k (Throw error)
          = Ret (Some
                   (JObj [("jsonrpc", JStr "2.0"); ("id", id);
                          ("error", JObj [("code", JNum (-32603));
                                          ("message", JStr (message error))])]))).
Proof.
  intros Hparse Hid Hne Hm Hp Hn Ha Hane.
  rewrite (handleRequest_request line v Hparse (nullish_some _ _ Hid Hne)).
  unfold dispatch, toolsCall, member; rewrite Hm, Hp, Hid, Hn, Ha.
  change (strictEqStr (Some (JStr "tools/call")) "initialize") with false.
  change (strictEqStr (Some (JStr "tools/call")) "tools/list") with false.
  change (strictEqStr (Some (JStr "tools/call")) "tools/call") with true.
  change (strictEqStr (Some (JStr "query")) "query") with true.
  cbv iota.
  destruct params; try discriminate;
    destruct args; try congruence;
    cbn [bind tryCatch awaitExecute];
    (eexists; split; [reflexivity|]; split; intros;
     cbn [bind tryCatch];
     rewrite ?(internalError_request _ _ (nullish_some _ _ eq_refl Hne));
     reflexivity).
Qed.

(** X14.  A [query] or [describe_table] call without [arguments] (absent
    or [null]) fails before anything is asked of the database: the
    answer is the error envelope with code -32603 and the message of the
    [TypeError] of reading a property of [undefined] or [null]. *)
Theorem tool_call_without_arguments_fails_early
        (sv sv' : Server.server) (line : string) (v id params : json)
        (key : string) :
  JSON_parse line = Some v ->
  getProp v "id" = Some id -> id <> JNull ->
  getProp v "method" = Some (JStr "tools/call") ->
  getProp v "params" = Some params ->
  (getProp params "name" = Some (JStr "query") /\ key = "sql")
  \/ (getProp params "name" = Some (JStr "describe_table") /\ key = "table") ->
  nullish (getProp params "arguments") = true ->
  Server.step sv (Server.Line line) = Some sv' ->
  Server.stdout sv'
  = (Server.stdout sv
     ++ [JSON_stringify
           (JObj [("jsonrpc", JStr "2.0"); ("id", id);
                  ("error",
                    JObj [("code", JNum (-32603));
                          ("message",
                            JStr ("Cannot read properties of "
                                    ++ toStrU (getProp params "arguments")
                                    ++ " (reading '" ++ key ++ "')"))])])])%list
  /\ Server.calls sv' = Server.calls sv.
Proof.
  intros Hparse Hid Hne Hm Hp Hn Ha H.
  destruct (step_line _ _ _ H) as [_ ->].
  rewrite (handleRequest_request line v Hparse (nullish_some _ _ Hid Hne)).
  unfold dispatch, toolsCall, member; rewrite Hm, Hp, Hid.
  change (strictEqStr (Some (JStr "tools/call")) "initialize") with false.
  change (strictEqStr (Some (JStr "tools/call")) "tools/list") with false.
  change (strictEqStr (Some (JStr "tools/call")) "tools/call") with true.
  cbv iota.
  destruct Hn as [[Hn ->] | [Hn ->]]; rewrite Hn;
    destruct params; try discriminate;
    destruct (getProp _ "arguments") as [[]|]; try discriminate;
    cbn [strictEqStr String.eqb Ascii.eqb Bool.eqb bind tryCatch];
    rewrite (internalError_request _ _ (nullish_some _ _ eq_refl Hne));
    split; reflexivity.
Qed.


(** X16.  The [list_tables] tool reads nothing of its arguments: it
    always asks for [SHOW TABLE STATUS], which reaches [conn.execute]
    unchanged, and answers with the pretty-printed list [tableInfo]
    makes of the rows; when the call throws, or when the result cannot
    be mapped ([tableInfo] throws), the answer is the -32603 envelope
    with the message of that error. *)
Theorem list_tables_asks_for_table_status
        (line : string) (v id params : json) (queryTimeout : Z) :
  JSON_parse line = Some v ->
  getProp v "id" = Some id -> id <> JNull ->
  getProp v "method" = Some (JStr "tools/call") ->
  getProp v "params" = Some params ->
  getProp params "name" = Some (JStr "list_tables") ->
  exists k,
    handleRequest line = Await (Some (JStr "SHOW TABLE STATUS")) k
    /\ executeSql queryTimeout "SHOW TABLE STATUS" = "SHOW TABLE STATUS"
    /\ (forall tables info,
          tableInfo tables = Ret info ->
          k (Return tables)
          = Ret (Some (resultEnvelope
                         (Some id)
                         (textContent (JSON_stringify_pretty info)))))
    /\ (forall tables error,
          tableInfo tables = Raise error ->
          k (Return tables)
          = Ret (Some (errorEnvelope (Some id) (-32603) (message error))))
    /\ (forall error,
          k (Throw error)
          = Ret (Some (errorEnvelope (Some id) (-32603) (message error)))).
Proof.
  intros Hparse Hid Hne Hm Hp Hn.
  rewrite (handleRequest_request line v Hparse (nullish_some _ _ Hid Hne)).
  unfold dispatch, toolsCall; rewrite Hm, Hp, Hid, Hn.
  change (strictEqStr (Some (JStr "tools/call")) "initialize") with false.
  change (strictEqStr (Some (JStr "tools/call")) "tools/list") with false.
  change (strictEqStr (Some (JStr "tools/call")) "tools/call") with true.
  change (strictEqStr (Some (JStr "list_tables")) "query") with false.
  change (strictEqStr (Some (JStr "list_tables")) "list_tables") with true.
  cbv iota.
  destruct params; try discriminate;
    cbn [bind tryCatch awaitExecute];
    (eexists; split; [reflexivity|]; split; [reflexivity|];
     split; [|split]; intros;
     cbn [bind tryCatch];
     rewrite ?H; cbn [bind tryCatch];
     rewrite ?(internalError_request _ _ (nullish_some _ _ eq_refl Hne));
     reflexivity).
Qed.

End WithRuntime.

(** X17.  [tableInfo] makes one entry per row, in the order of the
    rows: its [name] is the [Name] of the row (left out when the row
    has none) and its [comment] is the [Comment] of the row when that is
    truthy and the empty string otherwise (so an absent, [null] or empty
    comment all read the same).  A row that is [null] makes it throw a
    [TypeError], and so does a result that is no array. *)
Theorem tableInfo_has_one_entry_per_row (tables : json) :
  match tables with
  | JArr rows =>
      (Forall (fun row => row <> JNull) rows ->
       exists infos,
         tableInfo tables = Ret (JArr infos)
         /\ Forall2 (fun row info =>
                       getProp info "name" = getProp row "Name"
                       /\ getProp info "comment"
                          = if truthy (getProp row "Comment")
                            then getProp row "Comment"
                            else Some (JStr EmptyString))
                    rows infos)
      /\ (In JNull rows ->
          exists msg, tableInfo tables = Raise (TypeError msg))
  | _ => exists msg, tableInfo tables = Raise (TypeError msg)
  end.
Proof.
  destruct tables as [| | | |rows|]; try (eexists; reflexivity).
  cbn [tableInfo].
  assert (Hrow : forall row, row <> JNull ->
             exists info,
               tableInfoRow row = Ret info
               /\ getProp info "name" = getProp row "Name"
               /\ getProp info "comment"
                  = if truthy (getProp row "Comment")
                    then getProp row "Comment"
                    else Some (JStr EmptyString)).
  { intros row Hrow.
    exists (JObj (prop "name" (getProp row "Name")
                  ++ [("comment",
                        if truthy (getProp row "Comment")
                        then match getProp row "Comment" with
                             | Some c => c
                             | None => JStr EmptyString
                             end
                        else JStr EmptyString)])).
    split; [destruct row; congruence || reflexivity|].
    cbn [getProp].
    destruct (assoc_last_name
                (getProp row "Name")
                (if truthy (getProp row "Comment")
                 then match getProp row "Comment" with
                      | Some c => c
                      | None => JStr EmptyString
                      end
                 else JStr EmptyString)) as [-> ->].
    split; [reflexivity|].
    destruct (getProp row "Comment") as [c|]; [|reflexivity].
    destruct (truthy (Some c)); reflexivity. }
  split.
  - induction rows as [|row rows IH]; intros Hall.
    + exists []; split; [reflexivity | constructor].
    + inversion Hall as [|? ? Hne Hrest]; subst.
      destruct (IH Hrest) as (infos & Hmap & Hinfos).
      destruct (Hrow row Hne) as (info & Hinfo & Hname & Hcomment).
      exists (info :: infos); split.
      * cbn [mapRows]; rewrite Hinfo; cbn [bind].
        destruct (mapRows rows) as [l| |]; try discriminate.
        cbn [bind] in *; injection Hmap as ->; reflexivity.
      * constructor; [split; assumption | exact Hinfos].
  - induction rows as [|row rows IH]; intros Hin; [destruct Hin|].
    destruct Hin as [-> | Hin]; [eexists; reflexivity|].
    destruct (IH Hin) as (msg & Hmsg).
    cbn [mapRows].
    destruct row; try (eexists; reflexivity);
      cbn [tableInfoRow bind];
      destruct (mapRows rows) as [l|e|]; try discriminate;
      cbn [bind] in *; injection Hmsg as ->; eexists; reflexivity.
Qed.

End ToolFacts.

(* ================================================================== *)
(** ** The line handler of [main] *)

Module ServerFacts.
Import Dispatcher DispatcherFacts Outcomes Server ToolFacts.

Lemma filter_replace_nth {A : Type} (f : A -> bool) (n : nat) (x c : A)
      (l : list A) :
  nth_error l n = Some c ->
  (List.length (filter f (replace_nth n x l)) + (if f c then 1 else 0)
   = List.length (filter f l) + (if f x then 1 else 0))%nat.
Proof.
  revert n; induction l as [|y l IH]; intros [|n]; cbn [nth_error replace_nth];
    try discriminate.
  - intros H; injection H as ->; cbn [filter].
    destruct (f c), (f x); cbn [List.length]; lia.
  - intros H; specialize (IH n H); cbn [filter].
    destruct (f y); cbn [List.length]; lia.
Qed.

Lemma Forall_replace_nth {A : Type} (P : A -> Prop) (n : nat) (x : A)
      (l : list A) :
  Forall P l -> P x -> Forall P (replace_nth n x l).
Proof.
  intros Hl Hx; revert n; induction Hl as [|y l Hy Hl IH]; intros [|n];
    cbn [replace_nth]; constructor; auto.
Qed.

Lemma replace_nth_length {A : Type} (n : nat) (x : A) (l : list A) :
  List.length (replace_nth n x l) = List.length l.
Proof.
  revert n; induction l as [|y l IH]; intros [|n]; cbn [replace_nth List.length];
    auto.
Qed.

Section WithRuntime.
Context {rt : Runtime}.

Lemma requests_app (a b : list input) :
  requests (a ++ b) = (requests a + requests b)%nat.
Proof.
  induction a as [|[line|n e] a IH]; cbn [app requests]; lia.
Qed.

Lemma toolsCalls_app (a b : list input) :
  toolsCalls (a ++ b) = (toolsCalls a + toolsCalls b)%nat.
Proof.
  induction a as [|[line|n e] a IH]; cbn [app toolsCalls]; lia.
Qed.

Lemma linesOf_app (a b : list input) :
  linesOf (a ++ b) = (linesOf a ++ linesOf b)%list.
Proof.
  induction a as [|[line|n e] a IH]; cbn [app linesOf]; congruence.
Qed.

(** Induction over the turns of the process, with the inputs so far. *)
Lemma server_run_history (P : list input -> server -> Prop) (init : server) :
  P [] init ->
  (forall h sv i sv', P h sv -> step sv i = Some sv' -> P (h ++ [i])%list sv') ->
  forall inputs sv, run init inputs = Some sv -> P inputs sv.
Proof.
  intros Hinit Hstep inputs.
  change inputs with ([] ++ inputs)%list at 2.
  generalize (@nil input) init Hinit.
  induction inputs as [|i inputs IH]; intros h sv0 Hh sv Hrun; cbn [run] in Hrun.
  - injection Hrun as <-; now rewrite app_nil_r.
  - destruct (step sv0 i) as [sv1|] eqn:Hi; [|discriminate].
    replace (h ++ i :: inputs)%list with ((h ++ [i]) ++ inputs)%list
      by (now rewrite <- app_assoc).
    apply (IH _ sv1); [now apply (Hstep h sv0) | exact Hrun].
Qed.

(** What holds of the process after any inputs. *)
Lemma server_invariant (queryTimeout0 : Z) (inputs : list input) (sv : server) :
  run (main queryTimeout0) inputs = Some sv ->
  queryTimeout sv = queryTimeout0
  /\ Forall (callOf queryTimeout0) (calls sv)
  /\ (List.length (stdout sv) + pending sv = requests inputs)%nat
  /\ (List.length (calls sv) <= toolsCalls inputs)%nat
  /\ match exited sv with
     | None =>
         Forall (fun line => JSON_parse line <> Some JNull) (linesOf inputs)
     | Some code =>
         code = 1
         /\ exists before line,
              inputs = (before ++ [Line line])%list
              /\ JSON_parse line = Some JNull
     end.
Proof.
  revert inputs sv.
  apply (server_run_history
           (fun inputs sv =>
              queryTimeout sv = queryTimeout0
              /\ Forall (callOf queryTimeout0) (calls sv)
              /\ (List.length (stdout sv) + pending sv = requests inputs)%nat
              /\ (List.length (calls sv) <= toolsCalls inputs)%nat
              /\ match exited sv with
                 | None =>
                     Forall (fun line => JSON_parse line <> Some JNull)
                            (linesOf inputs)
                 | Some code =>
                     code = 1
                     /\ exists before line,
                          inputs = (before ++ [Line line])%list
                          /\ JSON_parse line = Some JNull
                 end)).
  - cbn; repeat split; try constructor.
  - intros h sv i sv' (Hq & Hcalls & Hcount & Htools & Hexit) Hstep.
    assert (Hnone : exited sv = None)
      by (unfold step in Hstep; destruct (exited sv);
          [discriminate | reflexivity]).
    rewrite Hnone in Hexit.
    rewrite requests_app, toolsCalls_app, linesOf_app.
    destruct i as [line | n e].
    + apply step_line in Hstep; destruct Hstep as [_ ->].
      cbn [requests toolsCalls linesOf]; unfold expectsResponse, isToolsCall.
      assert (Hlines : JSON_parse line <> Some JNull ->
                       Forall (fun line => JSON_parse line <> Some JNull)
                              (linesOf h ++ [line])).
      { intros Hl; apply Forall_app; split; [exact Hexit|].
        constructor; [exact Hl | constructor]. }
      destruct (JSON_parse line) as [v|] eqn:Hparse.
      * destruct (nullish (getProp v "id")) eqn:Hid.
        -- destruct (handleRequest_notification line v Hparse Hid)
             as [(Hv & ->) | (-> & msg & ->)]; cbn [drive negb andb].
           ++ rewrite Hnone.
              repeat split; try assumption; try lia.
              apply Hlines; congruence.
           ++ cbn [queryTimeout calls stdout exited]; unfold pending in *;
                cbn [calls].
              repeat split; try assumption; try lia.
              exists h, line; split; [reflexivity | exact Hparse].
        -- assert (Hv : Some v <> Some JNull)
             by (intros Heq; injection Heq as ->; discriminate).
           pose proof (dispatch_answers (getProp v "id") (getProp v "method")
                                        (getProp v "params") Hid) as Hans.
           rewrite <- (handleRequest_request line v Hparse Hid) in Hans.
           destruct (handleRequest line) as [[response|]|err|sql k] eqn:Hreq;
             cbn [answersWithinOneCall answersWith] in Hans;
             try contradiction.
           ++ cbn [drive queryTimeout calls stdout exited negb andb];
                unfold pending in *; cbn [calls]; rewrite Hnone.
              rewrite length_app; cbn [List.length].
              repeat split; try assumption; try lia.
              exact (Hlines Hv).
           ++ destruct (handleRequest_await line sql k Hreq)
                as (v' & Hparse' & _ & Hmethod & _).
              rewrite Hparse in Hparse'; injection Hparse' as <-.
              rewrite Hmethod.
              cbn [drive queryTimeout calls stdout exited negb andb];
                unfold pending in *; cbn [calls]; rewrite Hnone.
              rewrite filter_app, !length_app; cbn [filter exec].
              change (Executor.settled
                        (Executor.executeWithTimeout (queryTimeout sv) sql))
                with false.
              cbn [negb List.length].
              split; [assumption|]; split; [|split; [lia|split; [lia|]]].
              ** apply Forall_app; split; [exact Hcalls|].
                 constructor; [|constructor]; split; cbn [exec cont].
                 --- exists sql, []; rewrite Hq; reflexivity.
                 --- intros r; specialize (Hans r).
                     destruct (k r) as [[resp|]|?|? ?]; cbn in *; tauto.
              ** exact (Hlines Hv).
      * rewrite (handleRequest_parse_error line Hparse).
        cbn [drive queryTimeout calls stdout exited];
          unfold pending in *; cbn [calls]; rewrite Hnone.
        rewrite length_app; cbn [List.length].
        repeat split; try assumption; try lia.
        apply Hlines; discriminate.
    + cbn [requests toolsCalls linesOf]; rewrite !Nat.add_0_r, app_nil_r.
      unfold step in Hstep; rewrite Hnone in Hstep.
      destruct (nth_error (calls sv) n) as [c|] eqn:Hn; [|discriminate].
      destruct (Executor.step (exec c) e) as [x|] eqn:Hx; [|discriminate].
      assert (Hc : callOf queryTimeout0 c)
        by (eapply Forall_forall; [exact Hcalls | eapply nth_error_In; eauto]).
      assert (Hnew : callOf queryTimeout0 (mkCall x (cont c))).
      { destruct Hc as ((sql & events & Hrun) & Hcont); split; [|exact Hcont].
        exists sql, (events ++ [e])%list; cbn [exec].
        rewrite ExecutorFacts.run_app, Hrun; cbn [Executor.run].
        now rewrite Hx. }
      pose proof (filter_replace_nth
                    (fun c => negb (Executor.settled (exec c)))
                    n (mkCall x (cont c)) c (calls sv) Hn) as Hfilter.
      cbn [exec] in Hfilter.
      pose proof (Forall_replace_nth _ n _ _ Hcalls Hnew) as Hall.
      pose proof (replace_nth_length n (mkCall x (cont c)) (calls sv)) as Hlen.
      destruct (Executor.settled (exec c)) eqn:Hold.
      * destruct (ProtocolFacts.settled_stays _ _ _ Hx Hold) as [Hsx _].
        rewrite Hsx in Hfilter.
        unfold Executor.settled in Hold.
        destruct (Executor.pc (exec c)); try discriminate.
        injection Hstep as <-.
        cbn [queryTimeout calls stdout exited]; unfold pending in *;
          cbn [calls]; rewrite ?Hnone.
        cbn [negb] in Hfilter.
        repeat split; try assumption; try lia.
      * destruct (Executor.settled x) eqn:Hsx.
        -- unfold Executor.settled in Hold, Hsx.
           destruct (Executor.pc x) as [| | |r]; try discriminate.
           destruct Hc as (_ & Hcont); specialize (Hcont r).
           assert (Hdrive : sv' = drive (cont c r)
                                    (mkServer (queryTimeout sv)
                                       (replace_nth n (mkCall x (cont c)) (calls sv))
                                       (stdout sv) None))
             by (destruct (Executor.pc (exec c)); try discriminate;
                 injection Hstep as <-; reflexivity).
           rewrite Hdrive.
           destruct (cont c r) as [[resp|]|?|? ?]; cbn in Hcont;
             try contradiction.
           cbn [drive queryTimeout calls stdout exited]; unfold pending in *;
             cbn [calls]; rewrite ?Hnone.
           rewrite length_app; cbn [List.length negb] in *.
           repeat split; try assumption; try lia.
        -- unfold Executor.settled in Hold, Hsx.
           assert (Hsame : sv' = mkServer (queryTimeout sv)
                                   (replace_nth n (mkCall x (cont c)) (calls sv))
                                   (stdout sv) None)
             by (destruct (Executor.pc (exec c)), (Executor.pc x);
                 try discriminate; injection Hstep as <-; reflexivity).
           rewrite Hsame.
           cbn [queryTimeout calls stdout exited]; unfold pending in *;
             cbn [calls]; rewrite ?Hnone.
           cbn [negb] in Hfilter.
           repeat split; try assumption; try lia.
Qed.

(** X18.  After any inputs, the lines the process has written and the
    calls it still waits for add up to the lines it owes an answer for
    (those that are not JSON, and those with an identifier): nothing is
    written for a notification, no request is answered twice, and a
    request is unanswered only as long as its call has not settled. *)
Theorem responses_match_requests
        (queryTimeout0 : Z) (inputs : list input) (sv : server) :
  run (main queryTimeout0) inputs = Some sv ->
  (List.length (stdout sv) + pending sv = requests inputs)%nat.
Proof.
  intros Hrun.
  destruct (server_invariant _ _ _ Hrun) as (_ & _ & H & _); exact H.
Qed.

(** X19.  Every call the process has made is a call of
    [executeWithTimeout] under the timeout the process started with,
    which never changes; so every statement text that has reached
    [conn.execute] is the rewriting [executeSql] of a string under that
    timeout, every timer was set to that timeout, and no call has
    released a connection twice. *)
Theorem calls_run_under_the_timeout_of_the_start
        (queryTimeout0 : Z) (inputs : list input) (sv : server) (c : call) :
  run (main queryTimeout0) inputs = Some sv ->
  In c (calls sv) ->
  queryTimeout sv = queryTimeout0
  /\ (exists sql events,
         Executor.run (Executor.executeWithTimeout queryTimeout0 sql) events
         = Some (exec c))
  /\ (forall text,
         In text (Executor.executed (exec c)) ->
         exists sql, text = executeSql queryTimeout0 sql)
  /\ (forall ms,
         In (Executor.SetTimeout ms)
            (Executor.actions_of Executor.Main (exec c)) ->
         ms = queryTimeout0)
  /\ (forall borrowed,
         Executor.releases Executor.Main borrowed (exec c) <= 1)%nat.
Proof.
  intros Hrun Hin.
  destruct (server_invariant _ _ _ Hrun) as (Hq & Hcalls & _).
  split; [exact Hq|].
  destruct (proj1 (Forall_forall _ _) Hcalls c Hin) as ((sql & events & Hc) & _).
  split; [exists sql, events; exact Hc|].
  pose proof (ExecutorFacts.executed_once_run _ _ _ _ Hc) as Hex.
  pose proof (ProtocolFacts.expectedMain_run _ _ _ _ Hc) as Hmain.
  destruct (ExecutorFacts.wf_run _ _ _ _ Hc) as (Hqt & Hsql & _).
  split; [|split].
  - intros text; rewrite Hex.
    destruct (Executor.timer (exec c)), sql as [[]|]; cbn [In];
      intros [<- | []] || intros []; eexists; reflexivity.
  - intros ms; rewrite Hmain; unfold Protocol.expectedMain; rewrite Hqt.
    destruct (Executor.conn_var (exec c)), (Executor.timer (exec c)),
      (Executor.sql (exec c)) as [[]|], (Executor.settled (exec c));
      cbn [In app]; intuition congruence.
  - intros borrowed; unfold Executor.releases; rewrite Hmain.
    unfold Protocol.expectedMain.
    destruct (Executor.conn_var (exec c)), (Executor.timer (exec c)),
      (Executor.sql (exec c)) as [[]|], (Executor.settled (exec c));
      cbn [filter app Executor.action_eqb List.length];
      try destruct (Nat.eqb borrowed _); cbn [List.length]; lia.
Qed.

(** X20.  Only requests for a tool reach the database, and each of
    them at most once: the process has made no more calls of
    [executeWithTimeout] than it has read [tools/call] lines with an
    identifier. *)
Theorem at_most_one_call_per_tool_request
        (queryTimeout0 : Z) (inputs : list input) (sv : server) :
  run (main queryTimeout0) inputs = Some sv ->
  (List.length (calls sv) <= toolsCalls inputs)%nat.
Proof.
  intros Hrun.
  destruct (server_invariant _ _ _ Hrun) as (_ & _ & _ & H & _); exact H.
Qed.

(** X21.  The line handler can end the process in one way only: the
    line that is the JSON text [null] makes [handleRequest] throw, and
    the process ends with exit code 1 on that very line.  No other
    line, and nothing the database does, ends it. *)
Theorem only_the_null_line_ends_the_process
        (queryTimeout0 : Z) (inputs : list input) (sv : server) :
  run (main queryTimeout0) inputs = Some sv ->
  match exited sv with
  | None =>
      Forall (fun line => JSON_parse line <> Some JNull) (linesOf inputs)
  | Some code =>
      code = 1
      /\ exists before line,
           inputs = (before ++ [Line line])%list
           /\ JSON_parse line = Some JNull
  end.
Proof.
  intros Hrun.
  destruct (server_invariant _ _ _ Hrun) as (_ & _ & _ & _ & H); exact H.
Qed.

End WithRuntime.
End ServerFacts.

(* ================================================================== *)
(** ** From the environment to the statement *)

Module EndToEnd.
Import Config ConfigFacts Dispatcher.

Section WithRuntime.
Context {rt : Runtime}.


End WithRuntime.
End EndToEnd.

(* ================================================================== *)
(** ** The older script *)

Module LegacyFacts.
Import Config ConfigFacts Legacy.

Lemma firstMissingEnv_required (config : dbConfig) :
  firstMissingEnv config requiredFields
  = if falsy (host config) then Some "DB_HOST"
    else if falsy (user config) then Some "DB_USER"
    else if falsy (database config) then Some "DB_DATABASE"
    else None.
Proof.
  unfold requiredFields, firstMissingEnv, configField;
    cbn [String.eqb Ascii.eqb Bool.eqb].
  destruct (falsy (host config)), (falsy (user config)),
    (falsy (database config)); reflexivity.
Qed.

(** X25.  The script with the pool reads the connection settings as
    the older script does: the two accept the same environments and
    build the same configuration.  Where they end the process, the
    older script first names, on the standard error, the first of
    [DB_HOST], [DB_USER], [DB_DATABASE] that is not set (and only that
    one); where they go on, it writes host, port, database and user. *)
Theorem versions_read_the_same_configuration (e : env) :
  match Legacy.loadDbConfig e with
  | (lines, inl code) =>
      code = 1
      /\ Config.loadDbConfig e = inl 1
      /\ exists variable,
           lines = ["❌ 错误: 缺少必需的环境变量: " ++ variable;
                    "请在 mcp.json 的 env 配置中设置该变量"]
           /\ falsy (e variable) = true
           /\ variable
              = (if falsy (e "DB_HOST") then "DB_HOST"
                 else if falsy (e "DB_USER") then "DB_USER"
                 else "DB_DATABASE")
  | (lines, inr config) =>
      (exists queryTimeout, Config.loadDbConfig e = inr (config, queryTimeout))
      /\ exists h d u,
           e "DB_HOST" = Some h /\ e "DB_DATABASE" = Some d
           /\ e "DB_USER" = Some u
           /\ lines = ["🔗 数据库连接信息: " ++ h ++ ":"
                         ++ string_of_Z (port config) ++ "/" ++ d;
                       "👤 用户: " ++ u]
  end.
Proof.
  rewrite loadDbConfig_cases; unfold Legacy.loadDbConfig, Startup.complete.
  rewrite firstMissingEnv_required; cbn [host user database port].
  destruct (falsy (e "DB_HOST")) eqn:Hh;
    [repeat split; eexists; repeat split; exact Hh|].
  destruct (falsy (e "DB_USER")) eqn:Hu;
    [repeat split; eexists; repeat split; exact Hu|].
  destruct (falsy (e "DB_DATABASE")) eqn:Hd;
    [repeat split; eexists; repeat split; exact Hd|].
  cbn [negb andb]; split; [eexists; reflexivity|].
  destruct (falsy_false _ Hh) as (h & Eh & _).
  destruct (falsy_false _ Hu) as (u & Eu & _).
  destruct (falsy_false _ Hd) as (d & Ed & _).
  exists h, d, u; rewrite Eh, Ed, Eu; repeat split.
Qed.

(** The password reaches the configuration and nothing else. *)
Lemma start_without_password (e e' : env) :
  (forall name, name <> "DB_PASSWORD" -> e name = e' name) ->
  at_pc (start e) = at_pc (start e') /\ stderr (start e) = stderr (start e').
Proof.
  intros Hsame; unfold start, Legacy.loadDbConfig.
  rewrite !firstMissingEnv_required; cbn [host user database port].
  rewrite <- (Hsame "DB_HOST"), <- (Hsame "DB_USER"), <- (Hsame "DB_DATABASE"),
    <- (Hsame "DB_PORT") by discriminate.
  destruct (falsy (e "DB_HOST")), (falsy (e "DB_USER")),
    (falsy (e "DB_DATABASE")); split; reflexivity.
Qed.

(** X26.  The older script never writes the password: two
    environments that differ in [DB_PASSWORD] only give the same
    diagnostics on the standard error, line by line, through the whole
    start, whether the connection is made or not. *)
Theorem diagnostics_do_not_show_the_password
        (e e' : env) (events : list event) :
  (forall name, name <> "DB_PASSWORD" -> e name = e' name) ->
  option_map stderr (run (start e) events)
  = option_map stderr (run (start e') events)
  /\ option_map at_pc (run (start e) events)
     = option_map at_pc (run (start e') events).
Proof.
  intros Hsame.
  destruct (start_without_password e e' Hsame) as [Hpc Herr].
  revert Hpc Herr; generalize (start e) (start e').
  induction events as [|ev events IH]; intros s s' Hpc Herr; cbn [run option_map].
  - split; congruence.
  - unfold step; rewrite <- Hpc, <- Herr.
    destruct (at_pc s), ev as [[done|error]]; try (split; reflexivity);
      apply IH; reflexivity.
Qed.

End LegacyFacts.

(* ================================================================== *)
(** ** The end of the input *)

Module ShutdownFacts.
Import Dispatcher Outcomes Shutdown.

Lemma served_app (a b : list input) :
  served (a ++ b) = (served a ++ served b)%list.
Proof.
  induction a as [|[i| |r] a IH]; cbn [app served]; congruence.
Qed.

Section WithRuntime.
Context {rt : Runtime}.

Lemma server_run_app (sv : Server.server) (a b : list Server.input) :
  Server.run sv (a ++ b)
  = match Server.run sv a with
    | Some mid => Server.run mid b
    | None => None
    end.
Proof.
  revert sv; induction a as [|i a IH]; intros sv; cbn [app Server.run];
    [reflexivity|].
  destruct (Server.step sv i); [apply IH | reflexivity].
Qed.

(** Induction over the turns of the process, with the inputs so far. *)
Lemma shutdown_run_history (P : list input -> process -> Prop) (init : process) :
  P [] init ->
  (forall h p i p', P h p -> step p i = Some p' -> P (h ++ [i])%list p') ->
  forall inputs p, run init inputs = Some p -> P inputs p.
Proof.
  intros Hinit Hstep inputs.
  change inputs with ([] ++ inputs)%list at 2.
  generalize (@nil input) init Hinit.
  induction inputs as [|i inputs IH]; intros h p0 Hh p Hrun; cbn [run] in Hrun.
  - injection Hrun as <-; now rewrite app_nil_r.
  - destruct (step p0 i) as [p1|] eqn:Hi; [|discriminate].
    replace (h ++ i :: inputs)%list with ((h ++ [i]) ++ inputs)%list
      by (now rewrite <- app_assoc).
    apply (IH _ p1); [now apply (Hstep h p0) | exact Hrun].
Qed.

(** What holds of the process after any inputs: it has served the
    lines and the events among them as the line handler does, has asked
    the pool to end when the input was closed and not otherwise, and
    has ended only in one of the three ways of [endedBy]. *)
Lemma shutdown_invariant (queryTimeout0 : Z) (inputs : list input) (p : process) :
  run (start queryTimeout0) inputs = Some p ->
  (exists sv,
      Server.run (Server.main queryTimeout0) (served inputs) = Some sv
      /\ Server.stdout (server p) = Server.stdout sv
      /\ Server.calls (server p) = Server.calls sv
      /\ (Server.exited (server p) = None -> server p = sv))
  /\ poolEnds p = match at_phase p with Reading => 0 | Ending => 1 end%nat
  /\ (at_phase p = Ending <-> In Close inputs)
  /\ (forall code, Server.exited (server p) = Some code -> endedBy inputs code).
Proof.
  revert inputs p.
  apply (shutdown_run_history
           (fun inputs p =>
              (exists sv,
                  Server.run (Server.main queryTimeout0) (served inputs) = Some sv
                  /\ Server.stdout (server p) = Server.stdout sv
                  /\ Server.calls (server p) = Server.calls sv
                  /\ (Server.exited (server p) = None -> server p = sv))
              /\ poolEnds p
                 = match at_phase p with Reading => 0 | Ending => 1 end%nat
              /\ (at_phase p = Ending <-> In Close inputs)
              /\ (forall code, Server.exited (server p) = Some code ->
                               endedBy inputs code))).
  - split; [|split; [|split]].
    + exists (Server.main queryTimeout0); repeat split.
    + reflexivity.
    + cbn; split; [discriminate | tauto].
    + cbn; discriminate.
  - intros h p i p' ((sv & Hsv & Hout & Hcalls & Hsame) & Hends & Hphase & Hexit)
           Hstep.
    unfold step in Hstep.
    destruct (Server.exited (server p)) eqn:Hnone; [discriminate|].
    rewrite served_app, server_run_app, Hsv; rewrite in_app_iff.
    assert (Hserve : forall i',
               Server.step (server p) i' = Some (server p') ->
               at_phase p' = at_phase p -> poolEnds p' = poolEnds p ->
               ((exists sv0,
                    Server.run sv [i'] = Some sv0
                    /\ Server.stdout (server p') = Server.stdout sv0
                    /\ Server.calls (server p') = Server.calls sv0
                    /\ (Server.exited (server p') = None -> server p' = sv0))
                /\ poolEnds p'
                   = match at_phase p' with Reading => 0 | Ending => 1 end%nat
                /\ (at_phase p' = Ending <-> In Close h \/ In Close [Serve i'])
                /\ (forall code, Server.exited (server p') = Some code ->
                                 endedBy (h ++ [Serve i']) code))).
    { intros i' Hi Hph Hpe.
      rewrite <- (Hsame eq_refl).
      split; [|split; [|split]].
      - exists (server p'); cbn [Server.run]; rewrite Hi; repeat split.
      - rewrite Hpe, Hph; exact Hends.
      - rewrite Hph, Hphase; cbn [In]; intuition discriminate.
      - intros code Hcode; right; right.
        assert (Hrun' : Server.run (Server.main queryTimeout0)
                                   (served h ++ [i']) = Some (server p'))
          by (rewrite server_run_app, Hsv, <- (Hsame eq_refl);
              cbn [Server.run]; now rewrite Hi).
        pose proof (ServerFacts.server_invariant _ _ _ Hrun')
          as (_ & _ & _ & _ & Hx).
        rewrite Hcode in Hx; destruct Hx as (-> & before & line & Heq & Hparse).
        apply app_inj_tail in Heq; destruct Heq as [_ ->].
        split; [reflexivity|]; exists h, line; split; [reflexivity | exact Hparse]. }
    destruct i as [i'| |r].
    + assert (Hstep' : exists sv',
                 Server.step (server p) i' = Some sv'
                 /\ p' = mkProcess sv' (at_phase p) (poolEnds p)).
      { destruct i', (at_phase p); try discriminate;
          (destruct (Server.step (server p) _) as [sv'|]; [|discriminate]);
          injection Hstep as <-; eexists; split; reflexivity. }
      destruct Hstep' as (sv' & Hi & ->).
      cbn [served]; apply (Hserve i' Hi); reflexivity.
    + destruct (at_phase p) eqn:Hph; [|discriminate].
      injection Hstep as <-; cbn [served server at_phase poolEnds Server.run].
      split; [|split; [|split]].
      * exists sv; repeat split; auto.
      * now rewrite Hends.
      * split; [intros _; right; now left | reflexivity].
      * intros code Hcode; rewrite Hnone in Hcode; discriminate.
    + destruct (at_phase p) eqn:Hph; [destruct r; discriminate|].
      assert (Hclosed : In Close h) by (apply Hphase; reflexivity).
      destruct r as [done|error]; injection Hstep as <-;
        cbn [served server at_phase poolEnds Server.run exit
             Server.stdout Server.calls Server.exited].
      * split; [|split; [|split]].
        -- exists sv; repeat split; try assumption; intros; discriminate.
        -- exact Hends.
        -- split; [intros _; now left | reflexivity].
        -- intros code Hcode; injection Hcode as <-; left.
           split; [reflexivity|]; exists h, done; split; [reflexivity | exact Hclosed].
      * split; [|split; [|split]].
        -- exists sv; repeat split; try assumption; intros; discriminate.
        -- exact Hends.
        -- split; [intros _; now left | reflexivity].
        -- intros code Hcode; injection Hcode as <-; right; left.
           split; [reflexivity|]; exists h, error; split;
             [reflexivity | exact Hclosed].
Qed.

(** X23.  The process ends in three ways only: with exit code 0 when
    the pool has ended after the input was closed; with exit code 1
    when the pool has failed to end after the input was closed; with
    exit code 1 on a line that is the JSON text [null].  The pool is
    asked to end at most once, and exactly when the input has been
    closed. *)
Theorem process_ends_in_three_ways
        (queryTimeout0 : Z) (inputs : list input) (p : process) :
  run (start queryTimeout0) inputs = Some p ->
  (forall code, Server.exited (server p) = Some code -> endedBy inputs code)
  /\ (poolEnds p <= 1)%nat
  /\ (poolEnds p = 1%nat <-> In Close inputs).
Proof.
  intros Hrun.
  destruct (shutdown_invariant _ _ _ Hrun) as (_ & Hends & Hphase & Hexit).
  split; [exact Hexit|].
  rewrite <- Hphase, Hends.
  destruct (at_phase p); split; try lia; split; congruence.
Qed.

(** X24.  Closing the input does not wait for the calls under way:
    at any moment up to and including the end of the process, the lines
    written and the calls still pending add up to the lines owed an
    answer.  So the requests that never get an answer when the process
    ends are as many as the calls that had not settled by then. *)
Theorem unanswered_requests_are_pending_calls
        (queryTimeout0 : Z) (inputs : list input) (p : process) :
  run (start queryTimeout0) inputs = Some p ->
  (List.length (Server.stdout (server p)) + pending (server p)
   = requests (served inputs))%nat.
Proof.
  intros Hrun.
  destruct (shutdown_invariant _ _ _ Hrun)
    as ((sv & Hsv & Hout & Hcalls & _) & _).
  destruct (ServerFacts.server_invariant _ _ _ Hsv) as (_ & _ & Hcount & _).
  unfold pending in *; rewrite Hout, Hcalls; exact Hcount.
Qed.

End WithRuntime.
End ShutdownFacts.

(* ================================================================== *)
(** * Concrete runs of the further properties *)

Section MoreRuns.
Import Executor Dispatcher Server Demo Samples.
#[local] Existing Instance Node.runtime.

Lemma sampleServer_run :
  Server.run (Server.main 30000) sampleInputs = Some sampleServer.
Proof.
  unfold sampleServer.
  destruct (Server.run (Server.main 30000) sampleInputs) as [sv|] eqn:E;
    [reflexivity|].
  assert (X : match Server.run (Server.main 30000) sampleInputs with
              | Some _ => true
              | None => false
              end = true) by (vm_compute; reflexivity).
  rewrite E in X; discriminate.
Defined.

Lemma sampleEnded_run :
  Server.run (Server.main 30000) sampleEnding = Some sampleEnded.
Proof.
  unfold sampleEnded.
  destruct (Server.run (Server.main 30000) sampleEnding) as [sv|] eqn:E;
    [reflexivity|].
  assert (X : match Server.run (Server.main 30000) sampleEnding with
              | Some _ => true
              | None => false
              end = true) by (vm_compute; reflexivity).
  rewrite E in X; discriminate.
Defined.

Lemma loaded_config_is_usable_witness :
  Config.loadDbConfig sampleEnv = inr (sampleConfig, 30000)
  /\ Config.port sampleConfig <> 0
  /\ exists seconds,
       30000 = seconds * 1000 /\ seconds <> 0
       /\ (seconds = 10
           \/ Config.parseInt (sampleEnv "DB_QUERY_TIMEOUT") = Some seconds).
Proof.
  assert (H : Config.loadDbConfig sampleEnv = inr (sampleConfig, 30000))
    by (vm_compute; reflexivity).
  split; [exact H|].
  pose proof (ConfigFacts.loaded_config_is_usable sampleEnv sampleConfig 30000 H)
    as (_ & _ & _ & Hport & _ & _ & Hseconds).
  split; [exact Hport | exact Hseconds].
Defined.

Lemma loadDbConfig_reads_decimal_witness :
  Startup.complete sampleEnv = true
  /\ sampleEnv "DB_PORT" = Some (string_of_Z 3307 ++ EmptyString)
  /\ sampleEnv "DB_QUERY_TIMEOUT" = Some (string_of_Z 30 ++ "s")
  /\ exists config,
       Config.loadDbConfig sampleEnv = inr (config, 30 * 1000)
       /\ Config.port config = 3307.
Proof.
  assert (Hc : Startup.complete sampleEnv = true) by (vm_compute; reflexivity).
  assert (Hp : sampleEnv "DB_PORT" = Some (string_of_Z 3307 ++ EmptyString))
    by (vm_compute; reflexivity).
  assert (Ht : sampleEnv "DB_QUERY_TIMEOUT" = Some (string_of_Z 30 ++ "s"))
    by (vm_compute; reflexivity).
  assert (Hp0 : 3307 <> 0) by lia.
  assert (Ht0 : 30 <> 0) by lia.
  assert (Hpb : Z.abs 3307 <= Config.maxSafeInteger) by (vm_compute; discriminate).
  assert (Htb : Z.abs (30 * 1000) <= Config.maxSafeInteger)
    by (vm_compute; discriminate).
  split; [exact Hc|]; split; [exact Hp|]; split; [exact Ht|].
  exact (ConfigFacts.loadDbConfig_reads_decimal
           sampleEnv 3307 30 EmptyString "s" Hc Hp eq_refl Hp0 Hpb
           Ht eq_refl Ht0 Htb).
Defined.

Lemma serving_only_after_successful_start_witness :
  Startup.run (Startup.start sampleEnv) sampleStart = Some sampleServing
  /\ exists config testConn done,
       Config.loadDbConfig sampleEnv
       = inr (config, Startup.queryTimeout sampleServing)
       /\ sampleStart = [Startup.TestConnSettled (Return testConn);
                         Startup.TestQuerySettled (Return done)]
       /\ Startup.log sampleServing
          = [Startup.CreatePool config 5 0;
             Startup.OnPool GetConnection;
             Startup.OnPool
               (Query testConn
                      "SELECT CONNECTION_ID() as id, VERSION() as version");
             Startup.OnPool (Release testConn);
             Startup.CreateInterface]
       /\ Startup.serving sampleServing
          = Some (Server.main (Startup.queryTimeout sampleServing)).
Proof.
  assert (H : Startup.run (Startup.start sampleEnv) sampleStart
              = Some sampleServing) by (vm_compute; reflexivity).
  split; [exact H|].
  exact (StartupFacts.serving_only_after_successful_start
           sampleEnv sampleStart sampleServing H).
Defined.

Lemma main_actions_follow_the_script_witness :
  Executor.run (executeWithTimeout 30000 demoSql) demoOvertaking
  = Some sampleOvertaken
  /\ exists c text,
       Protocol.subseq (actions_of Main sampleOvertaken)
                       (Protocol.mainScript 30000 c text) = true
       /\ (forall c', conn_var sampleOvertaken = Some c' -> c' = c)
       /\ (forall t, demoSql = Some (JStr t) -> text = executeSql 30000 t).
Proof.
  assert (H : Executor.run (executeWithTimeout 30000 demoSql) demoOvertaking
              = Some sampleOvertaken) by (vm_compute; reflexivity).
  split; [exact H|].
  exact (ProtocolFacts.main_actions_follow_the_script
           30000 demoSql demoOvertaking sampleOvertaken H).
Defined.

Lemma timer_cleared_on_every_exit_witness :
  Executor.run (executeWithTimeout 30000 demoSql) demoOvertaking
  = Some sampleOvertaken
  /\ filter Protocol.isTimerAction (actions_of Main sampleOvertaken)
     = [SetTimeout 30000; ClearTimeout]
  /\ (settled sampleOvertaken = true ->
      Executor.step sampleOvertaken TimerFired = None).
Proof.
  assert (H : Executor.run (executeWithTimeout 30000 demoSql) demoOvertaking
              = Some sampleOvertaken) by (vm_compute; reflexivity).
  split; [exact H|].
  exact (ProtocolFacts.timer_cleared_on_every_exit
           30000 demoSql demoOvertaking sampleOvertaken H).
Defined.

Lemma deadline_actions_follow_the_script_witness :
  Executor.run (executeWithTimeout 30000 demoSql) sampleKill = Some sampleKilled
  /\ (exists killConn,
        Protocol.isPrefix (actions_of Deadline sampleKilled)
                          (Protocol.deadlineScript killConn
                                                   (connId sampleKilled))
        = true)
  /\ (~ In TimerFired sampleKill -> actions_of Deadline sampleKilled = []).
Proof.
  assert (H : Executor.run (executeWithTimeout 30000 demoSql) sampleKill
              = Some sampleKilled) by (vm_compute; reflexivity).
  split; [exact H|].
  exact (ProtocolFacts.deadline_actions_follow_the_script
           30000 demoSql sampleKill sampleKilled H).
Defined.

Lemma kill_is_sent_after_the_call_settled_witness :
  Executor.run (executeWithTimeout 30000 demoSql) demoOvertaking
  = Some sampleOvertaken
  /\ settled sampleOvertaken = true
  /\ timer sampleOvertaken = KillAwaitConn
  /\ exists c s',
       conn_var sampleOvertaken = Some c
       /\ releases Main c sampleOvertaken = 1%nat
       /\ Executor.step sampleOvertaken (KillConnSettled (Return 8%nat))
          = Some s'
       /\ Executor.log s'
          = (Executor.log sampleOvertaken
             ++ [(Deadline,
                  Query 8%nat
                        ("KILL QUERY " ++ toStrU (connId sampleOvertaken)))])%list
       /\ outcome s' = outcome sampleOvertaken.
Proof.
  assert (H : Executor.run (executeWithTimeout 30000 demoSql) demoOvertaking
              = Some sampleOvertaken) by (vm_compute; reflexivity).
  split; [exact H|]; split; [reflexivity|]; split; [reflexivity|].
  exact (ProtocolFacts.kill_is_sent_after_the_call_settled
           30000 demoSql demoOvertaking sampleOvertaken 8%nat
           H eq_refl eq_refl).
Defined.

Lemma statement_that_is_no_string_is_never_executed_witness :
  (forall text, @None json <> Some (JStr text))
  /\ Executor.run (executeWithTimeout 30000 None) demoAcquire = Some sampleNoSql
  /\ executed sampleNoSql = []
  /\ actions_of Deadline sampleNoSql = []
  /\ actions_of Main sampleNoSql
     = [GetConnection; Query 7%nat Protocol.idQuery; SetTimeout 30000;
        ClearTimeout; Release 7%nat].
Proof.
  assert (Hsql : forall text, @None json <> Some (JStr text))
    by (intros text; discriminate).
  assert (H : Executor.run (executeWithTimeout 30000 None) demoAcquire
              = Some sampleNoSql) by (vm_compute; reflexivity).
  assert (Hrow : JObj [("id", JNum 42)] <> JNull) by discriminate.
  split; [exact Hsql|]; split; [exact H|].
  pose proof (ProtocolFacts.statement_that_is_no_string_is_never_executed
                30000 None demoAcquire sampleNoSql Hsql H)
    as (Hexec & Hdead & _ & Hmain).
  split; [exact Hexec|]; split; [exact Hdead|].
  exact (proj1 (Hmain 7%nat (JObj [("id", JNum 42)]) [] Hrow eq_refl)).
Defined.

Lemma outcome_comes_from_the_statement_witness :
  Executor.run (executeWithTimeout 30000 demoSql) demoOvertaking
  = Some sampleOvertaken
  /\ outcome sampleOvertaken = Some (Return demoRows)
  /\ In (QuerySettled (Return demoRows)) demoOvertaking.
Proof.
  assert (H : Executor.run (executeWithTimeout 30000 demoSql) demoOvertaking
              = Some sampleOvertaken) by (vm_compute; reflexivity).
  split; [exact H|]; split; [reflexivity|].
  exact (ProtocolFacts.outcome_comes_from_the_statement
           30000 demoSql demoOvertaking sampleOvertaken (Return demoRows)
           H eq_refl).
Defined.

Lemma request_is_always_answered_witness :
  JSON_parse demoQuery = Some sampleQueryValue
  /\ nullish (getProp sampleQueryValue "id") = false
  /\ Outcomes.answersWithinOneCall
       (Outcomes.responseFor (getProp sampleQueryValue "id"))
       (handleRequest demoQuery).
Proof.
  assert (Hparse : JSON_parse demoQuery = Some sampleQueryValue)
    by (vm_compute; reflexivity).
  split; [exact Hparse|]; split; [reflexivity|].
  exact (ToolFacts.request_is_always_answered
           demoQuery sampleQueryValue Hparse eq_refl).
Defined.


Lemma query_tool_answers_with_the_rows_witness :
  JSON_parse demoQuery = Some sampleQueryValue
  /\ exists k,
       handleRequest demoQuery = Await (Some (JStr "select sleep(60)")) k
       /\ forall error,
            k (Throw error)
            = Ret (Some
                     (JObj [("jsonrpc", JStr "2.0"); ("id", JNum 1);
                            ("error",
                              JObj [("code", JNum (-32603));
                                    ("message", JStr (message error))])])).
Proof.
  assert (Hparse : JSON_parse demoQuery = Some sampleQueryValue)
    by (vm_compute; reflexivity).
  assert (Hid : JNum 1 <> JNull) by discriminate.
  assert (Hargs : sampleQueryArgs <> JNull) by discriminate.
  split; [exact Hparse|].
  destruct (ToolFacts.query_tool_answers_with_the_rows
              demoQuery sampleQueryValue (JNum 1) sampleQueryParams
              sampleQueryArgs Hparse eq_refl Hid eq_refl eq_refl eq_refl
              eq_refl Hargs) as (k & Hk & _ & Herr).
  exists k; split; [exact Hk | exact Herr].
Defined.

Lemma tool_call_without_arguments_fails_early_witness :
  JSON_parse sampleNoArguments = Some sampleNoArgumentsValue
  /\ nullish (getProp sampleNoArgumentsParams "arguments") = true
  /\ exists sv',
       Server.step (Server.main 30000) (Line sampleNoArguments) = Some sv'
       /\ Server.stdout sv'
          = [JSON_stringify
               (JObj [("jsonrpc", JStr "2.0"); ("id", JNum 7);
                      ("error",
                        JObj [("code", JNum (-32603));
                              ("message",
                                JStr "Cannot read properties of undefined (reading 'sql')")])])]
       /\ Server.calls sv' = [].
Proof.
  assert (Hparse : JSON_parse sampleNoArguments = Some sampleNoArgumentsValue)
    by (vm_compute; reflexivity).
  assert (Hid : JNum 7 <> JNull) by discriminate.
  assert (Hname : (getProp sampleNoArgumentsParams "name" = Some (JStr "query")
                   /\ "sql" = "sql")
                  \/ (getProp sampleNoArgumentsParams "name"
                      = Some (JStr "describe_table") /\ "sql" = "table"))
    by (left; split; reflexivity).
  split; [exact Hparse|]; split; [reflexivity|].
  eexists; split; [reflexivity|].
  exact (ToolFacts.tool_call_without_arguments_fails_early
           (Server.main 30000) _ sampleNoArguments sampleNoArgumentsValue
           (JNum 7) sampleNoArgumentsParams "sql"
           Hparse eq_refl Hid eq_refl eq_refl Hname eq_refl eq_refl).
Defined.


Lemma list_tables_asks_for_table_status_witness :
  JSON_parse sampleListTables = Some sampleListTablesValue
  /\ exists k,
       handleRequest sampleListTables = Await (Some (JStr "SHOW TABLE STATUS")) k
       /\ executeSql 30000 "SHOW TABLE STATUS" = "SHOW TABLE STATUS".
Proof.
  assert (Hparse : JSON_parse sampleListTables = Some sampleListTablesValue)
    by (vm_compute; reflexivity).
  assert (Hid : JNum 5 <> JNull) by discriminate.
  split; [exact Hparse|].
  destruct (ToolFacts.list_tables_asks_for_table_status
              sampleListTables sampleListTablesValue (JNum 5)
              sampleListTablesParams 30000 Hparse eq_refl Hid eq_refl eq_refl
              eq_refl) as (k & Hk & Hsql & _).
  exists k; split; [exact Hk | exact Hsql].
Defined.

Lemma responses_match_requests_witness :
  Server.run (Server.main 30000) sampleInputs = Some sampleServer
  /\ (List.length (stdout sampleServer) + Outcomes.pending sampleServer
      = Outcomes.requests sampleInputs)%nat.
Proof.
  split; [exact sampleServer_run|].
  exact (ServerFacts.responses_match_requests
           30000 sampleInputs sampleServer sampleServer_run).
Defined.

Lemma calls_run_under_the_timeout_of_the_start_witness :
  Server.run (Server.main 30000) sampleInputs = Some sampleServer
  /\ In sampleCall (calls sampleServer)
  /\ forall text,
       In text (executed (exec sampleCall)) ->
       exists sql, text = executeSql 30000 sql.
Proof.
  assert (Hin : In sampleCall (calls sampleServer))
    by (apply nth_In; vm_compute; lia).
  split; [exact sampleServer_run|]; split; [exact Hin|].
  exact (proj1 (proj2 (proj2
           (ServerFacts.calls_run_under_the_timeout_of_the_start
              30000 sampleInputs sampleServer sampleCall
              sampleServer_run Hin)))).
Defined.

Lemma at_most_one_call_per_tool_request_witness :
  Server.run (Server.main 30000) sampleInputs = Some sampleServer
  /\ (List.length (calls sampleServer) <= Outcomes.toolsCalls sampleInputs)%nat.
Proof.
  split; [exact sampleServer_run|].
  exact (ServerFacts.at_most_one_call_per_tool_request
           30000 sampleInputs sampleServer sampleServer_run).
Defined.

Lemma only_the_null_line_ends_the_process_witness :
  Server.run (Server.main 30000) sampleEnding = Some sampleEnded
  /\ match exited sampleEnded with
     | None =>
         Forall (fun line => JSON_parse line <> Some JNull)
                (Outcomes.linesOf sampleEnding)
     | Some code =>
         code = 1
         /\ exists before line,
              sampleEnding = (before ++ [Line line])%list
              /\ JSON_parse line = Some JNull
     end.
Proof.
  split; [exact sampleEnded_run|].
  exact (ServerFacts.only_the_null_line_ends_the_process
           30000 sampleEnding sampleEnded sampleEnded_run).
Defined.


Lemma sampleClosed_run :
  Shutdown.run (Shutdown.start 30000) sampleShutdown = Some sampleClosed.
Proof.
  unfold sampleClosed.
  destruct (Shutdown.run (Shutdown.start 30000) sampleShutdown) as [p|] eqn:E;
    [reflexivity|].
  assert (X : match Shutdown.run (Shutdown.start 30000) sampleShutdown with
              | Some _ => true
              | None => false
              end = true) by (vm_compute; reflexivity).
  rewrite E in X; discriminate.
Defined.

Lemma process_ends_in_three_ways_witness :
  Shutdown.run (Shutdown.start 30000) sampleShutdown = Some sampleClosed
  /\ Server.exited (Shutdown.server sampleClosed) = Some 0
  /\ Shutdown.endedBy sampleShutdown 0
  /\ (Shutdown.poolEnds sampleClosed <= 1)%nat.
Proof.
  assert (Hcode : Server.exited (Shutdown.server sampleClosed) = Some 0)
    by (vm_compute; reflexivity).
  split; [exact sampleClosed_run|]; split; [exact Hcode|].
  pose proof (ShutdownFacts.process_ends_in_three_ways
                30000 sampleShutdown sampleClosed sampleClosed_run)
    as (Hexit & Hends & _).
  split; [exact (Hexit 0 Hcode) | exact Hends].
Defined.

Lemma unanswered_requests_are_pending_calls_witness :
  Shutdown.run (Shutdown.start 30000) sampleShutdown = Some sampleClosed
  /\ (List.length (Server.stdout (Shutdown.server sampleClosed))
      + Outcomes.pending (Shutdown.server sampleClosed)
      = Outcomes.requests (Shutdown.served sampleShutdown))%nat.
Proof.
  split; [exact sampleClosed_run|].
  exact (ShutdownFacts.unanswered_requests_are_pending_calls
           30000 sampleShutdown sampleClosed sampleClosed_run).
Defined.

Lemma diagnostics_do_not_show_the_password_witness :
  (forall name, name <> "DB_PASSWORD" -> sampleEnv name = sampleEnvSecret name)
  /\ option_map Legacy.stderr (Legacy.run (Legacy.start sampleEnv) sampleRefused)
     = option_map Legacy.stderr
                  (Legacy.run (Legacy.start sampleEnvSecret) sampleRefused).
Proof.
  assert (H : forall name, name <> "DB_PASSWORD" ->
                           sampleEnv name = sampleEnvSecret name).
  { intros name Hne; unfold sampleEnvSecret.
    destruct (String.eqb_spec name "DB_PASSWORD");
      [contradiction | reflexivity]. }
  split; [exact H|].
  exact (proj1 (LegacyFacts.diagnostics_do_not_show_the_password
                  sampleEnv sampleEnvSecret sampleRefused H)).
Defined.

End MoreRuns.
